(** * z2api-go: the streaming translation core, embedded and verified

    A shallow embedding of the Go sources of the gateway:

    - [services.FormatResponse] (the phase transformer) with the
      regular expressions and [strings] functions it calls,
    - the tool-call loop of [handlers.AnthropicMessages],
    - [services.FormatRequest] (the request normalizer),
    - [services.GenerateSignature] with HMAC-SHA256, base64 and hex,
    - [services.SendChatRequest] up to the request it sends, and
      [services.ExtractTextFromMessages],
    - the loops of [handlers.ChatCompletions],
    - [config.loadConfig] and [services.UserService.GetUser].

    Go strings are byte sequences and are modelled by [string] (a list of
    bytes).  A Go [interface{}] is modelled by [value], one constructor per
    dynamic type the program probes.  Package-level variables are threaded
    as explicit state. *)

From Stdlib Require Import ZArith Ascii String List Bool Lia DecimalString.
From Stdlib Require DecimalPos.
From stdpp Require Import gmap strings list fin_maps sorting.

Set Warnings "-register-all".

Arguments String.append !_ _ / : simpl nomatch.

Open Scope string_scope.
Open Scope list_scope.
Open Scope stdpp_scope.

(** ** Writing Go string literals

    [gostr] reads a literal the way the Go compiler reads an interpreted
    string literal, with the apostrophe standing for the double quote:
    backslash-n is a line feed, backslash-t a tab, a doubled backslash one
    backslash, an apostrophe the byte 34.  No literal of the program
    contains an apostrophe. *)

Definition LF : ascii := "010"%char.
Definition DQ : ascii := "034"%char.
Definition BSL : ascii := "092"%char.

Fixpoint gostr (s : string) : string :=
  match s with
  | EmptyString => EmptyString
  | String a s1 =>
      if Ascii.eqb a "'" then String DQ (gostr s1)
      else if Ascii.eqb a BSL then
        match s1 with
        | String b s2 =>
            if Ascii.eqb b "n" then String LF (gostr s2)
            else if Ascii.eqb b "t" then String "009"%char (gostr s2)
            else if Ascii.eqb b BSL then String BSL (gostr s2)
            else String a (gostr s1)
        | EmptyString => String a EmptyString
        end
      else String a (gostr s1)
  end.

(** ** Dynamic values

    What an [interface{}] holds in this program.  [VList] is
    [[]interface{}], [VMap] is [map[string]interface{}] and [VMaps] is
    [[]map[string]interface{}]: Go type assertions tell the two slice types
    apart, and so does the program.  [VMapNil] is a nil map held in an
    interface: it answers the map type assertion and reads as an empty
    map.  A JSON number is carried by its literal (the float64 conversion
    is not modelled). *)

Inductive value : Type :=
| VNil
| VBool (b : bool)
| VNum (n : string)
| VStr (s : string)
| VList (l : list value)
| VMap (m : gmap string value)
| VMapNil
| VMaps (l : list (gmap string value)).

Abbreviation gomap := (gmap string value).

(** Type assertions [v.(string)], [v.([]interface{})], ... on the result
    of a map index: a missing key is the nil interface. *)
Definition asString (v : option value) : option string :=
  match v with Some (VStr s) => Some s | _ => None end.
Definition asList (v : option value) : option (list value) :=
  match v with Some (VList l) => Some l | _ => None end.
Definition asMap (v : option value) : option gomap :=
  match v with
  | Some (VMap m) => Some m
  | Some VMapNil => Some ∅
  | _ => None
  end.
Definition asMaps (v : option value) : option (list gomap) :=
  match v with Some (VMaps l) => Some l | _ => None end.
Definition asBool (v : option value) : option bool :=
  match v with Some (VBool b) => Some b | _ => None end.

(** [m[k]] read as an [interface{}]: nil when the key is absent. *)
Definition index (m : gomap) (k : string) : value :=
  match m !! k with Some v => v | None => VNil end.

(** ** Package [strings] *)

Module strings.

Fixpoint HasPrefix (s prefix : string) : bool :=
  match prefix with
  | EmptyString => true
  | String b p1 =>
      match s with
      | String a s1 => if Ascii.eqb a b then HasPrefix s1 p1 else false
      | EmptyString => false
      end
  end.

Fixpoint drop (n : nat) (s : string) : string :=
  match n with
  | O => s
  | S k => match s with String _ s1 => drop k s1 | EmptyString => EmptyString end
  end.

Fixpoint Contains (s substr : string) : bool :=
  HasPrefix s substr ||
  match s with
  | String _ s1 => Contains s1 substr
  | EmptyString => false
  end.

(** [strings.Cut]: the text before and after the first [sep]. *)
Fixpoint Cut (s sep : string) : option (string * string) :=
  if HasPrefix s sep then Some (EmptyString, drop (String.length sep) s)
  else match s with
       | String a s1 =>
           match Cut s1 sep with
           | Some (before, after) => Some (String a before, after)
           | None => None
           end
       | EmptyString => None
       end.

(** [strings.ReplaceAll] for a non-empty [old] (the program never passes
    an empty one): left to right, non-overlapping.  [skip] counts the
    bytes of a match still to be passed over. *)
Fixpoint replaceFrom (old new : string) (skip : nat) (s : string) : string :=
  match s with
  | EmptyString => EmptyString
  | String a s1 =>
      match skip with
      | S k => replaceFrom old new k s1
      | O =>
          if HasPrefix s old
          then new +:+ replaceFrom old new (String.length old - 1) s1
          else String a (replaceFrom old new 0 s1)
      end
  end.

Definition ReplaceAll (s old new : string) : string :=
  match old with
  | EmptyString => s
  | _ => replaceFrom old new 0 s
  end.

Fixpoint Join (elems : list string) (sep : string) : string :=
  match elems with
  | [] => EmptyString
  | [e] => e
  | e :: rest => e +:+ sep +:+ Join rest sep
  end.

Fixpoint memByte (a : ascii) (cutset : string) : bool :=
  match cutset with
  | EmptyString => false
  | String b c1 => Ascii.eqb a b || memByte a c1
  end.

(** [strings.TrimLeft] with a cutset of ASCII bytes. *)
Fixpoint TrimLeft (s cutset : string) : string :=
  match s with
  | String a s1 => if memByte a cutset then TrimLeft s1 cutset else s
  | EmptyString => EmptyString
  end.

(** White space as [unicode.IsSpace] has it, on the UTF-8 bytes:
    U+0009..U+000D and U+0020 in one byte; U+0085 and U+00A0 in two;
    U+1680, U+2000..U+200A, U+2028, U+2029, U+202F, U+205F and U+3000 in
    three. *)
Definition code (a : ascii) : nat := nat_of_ascii a.

Definition space1 (a : ascii) : bool :=
  (Nat.leb 9 (code a) && Nat.leb (code a) 13) || Nat.eqb (code a) 32.

Definition space2 (a b : ascii) : bool :=
  Nat.eqb (code a) 194 && (Nat.eqb (code b) 133 || Nat.eqb (code b) 160).

Definition space3 (a b c : ascii) : bool :=
  (Nat.eqb (code a) 225 && Nat.eqb (code b) 154 && Nat.eqb (code c) 128)
  || (Nat.eqb (code a) 226 && Nat.eqb (code b) 128 &&
      ((Nat.leb 128 (code c) && Nat.leb (code c) 138)
       || Nat.eqb (code c) 168 || Nat.eqb (code c) 169 || Nat.eqb (code c) 175))
  || (Nat.eqb (code a) 226 && Nat.eqb (code b) 129 && Nat.eqb (code c) 159)
  || (Nat.eqb (code a) 227 && Nat.eqb (code b) 128 && Nat.eqb (code c) 128).

(** Leading white space removed.  With [back] the string is read from its
    end (it is given reversed), so the bytes of a rune come last first. *)
Fixpoint trimSpaceFrom (back : bool) (s : string) : string :=
  match s with
  | EmptyString => EmptyString
  | String a s1 =>
      if space1 a then trimSpaceFrom back s1
      else
        match s1 with
        | EmptyString => s
        | String b s2 =>
            if (if back then space2 b a else space2 a b)
            then trimSpaceFrom back s2
            else
              match s2 with
              | EmptyString => s
              | String c s3 =>
                  if (if back then space3 c b a else space3 a b c)
                  then trimSpaceFrom back s3
                  else s
              end
        end
  end.

Fixpoint revOnto (s acc : string) : string :=
  match s with
  | EmptyString => acc
  | String a s1 => revOnto s1 (String a acc)
  end.

Definition rev (s : string) : string := revOnto s EmptyString.

Definition TrimSpace (s : string) : string :=
  rev (trimSpaceFrom true (rev (trimSpaceFrom false s))).

Definition lowerByte (a : ascii) : ascii :=
  if Nat.leb 65 (code a) && Nat.leb (code a) 90
  then ascii_of_nat (code a + 32) else a.

(** [strings.ToLower] on the ASCII letters. *)
Fixpoint ToLower (s : string) : string :=
  match s with
  | EmptyString => EmptyString
  | String a s1 => String (lowerByte a) (ToLower s1)
  end.

End strings.

(** ** Package [regexp]

    The patterns of the program are sequences of literals, quantified
    single-character classes, anchors and unnested capture groups.  They
    are matched by backtracking, which finds what Go documents: the
    leftmost match, and among those the one a backtracking search meets
    first.  Matching is on bytes; every class of the program treats all
    bytes of a multi-byte rune alike, and every literal starts with an
    ASCII byte, so the spans are those of rune-wise matching. *)

Module regexp.

Inductive cclass : Type :=
| CAny                (* a dot under the s flag *)
| CDot                (* a dot: any byte but the line feed *)
| CChar (c : ascii)   (* one given character *)
| CNot (c : ascii)    (* a negated one-character class *)
| CDigit              (* backslash-d *)
| CSpace.             (* backslash-s: tab, line feed, form feed, return, space *)

Definition cmatch (c : cclass) (a : ascii) : bool :=
  match c with
  | CAny => true
  | CDot => negb (Ascii.eqb a LF)
  | CChar b => Ascii.eqb a b
  | CNot b => negb (Ascii.eqb a b)
  | CDigit => Nat.leb 48 (nat_of_ascii a) && Nat.leb (nat_of_ascii a) 57
  | CSpace =>
      let n := nat_of_ascii a in
      Nat.eqb n 9 || Nat.eqb n 10 || Nat.eqb n 12 || Nat.eqb n 13 || Nat.eqb n 32
  end.

Inductive node : Type :=
| Lit (s : string)
| Star (c : cclass)       (* c*  *)
| StarLazy (c : cclass)   (* c*? *)
| Plus (c : cclass)       (* c+  *)
| Opt (c : cclass)        (* c?  *)
| Bol                     (* ^ without the m flag: offset 0 only *)
| Eol                     (* $ without the m flag: end of text only *)
| Open                    (* ( *)
| Close.                  (* ) *)

Definition Regexp := list node.

(** A match attempt yields the end offset and the spans of the groups. *)
Definition outcome : Type := option (nat * list (nat * nat)).

Section Loops.
Variable c : cclass.
Variable k : nat -> string -> outcome.

Fixpoint greedy (pos : nat) (s : string) : outcome :=
  match s with
  | String a s1 =>
      if cmatch c a
      then match greedy (S pos) s1 with
           | Some r => Some r
           | None => k pos s
           end
      else k pos s
  | EmptyString => k pos s
  end.

Fixpoint lazy (pos : nat) (s : string) : outcome :=
  match k pos s with
  | Some r => Some r
  | None =>
      match s with
      | String a s1 => if cmatch c a then lazy (S pos) s1 else None
      | EmptyString => None
      end
  end.
End Loops.

(** [run re opened caps pos s]: match [re] against [s], the text from
    offset [pos] on. *)
Fixpoint run (re : Regexp) (opened : list nat) (caps : list (nat * nat))
  (pos : nat) (s : string) : outcome :=
  match re with
  | [] => Some (pos, caps)
  | Lit l :: re1 =>
      if strings.HasPrefix s l
      then run re1 opened caps (pos + String.length l) (strings.drop (String.length l) s)
      else None
  | Star c :: re1 => greedy c (run re1 opened caps) pos s
  | StarLazy c :: re1 => lazy c (run re1 opened caps) pos s
  | Plus c :: re1 =>
      match s with
      | String a s1 =>
          if cmatch c a then greedy c (run re1 opened caps) (S pos) s1 else None
      | EmptyString => None
      end
  | Opt c :: re1 =>
      match s with
      | String a s1 =>
          if cmatch c a
          then match run re1 opened caps (S pos) s1 with
               | Some r => Some r
               | None => run re1 opened caps pos s
               end
          else run re1 opened caps pos s
      | EmptyString => run re1 opened caps pos s
      end
  | Bol :: re1 => if Nat.eqb pos 0 then run re1 opened caps pos s else None
  | Eol :: re1 =>
      match s with
      | EmptyString => run re1 opened caps pos s
      | String _ _ => None
      end
  | Open :: re1 => run re1 (pos :: opened) caps pos s
  | Close :: re1 =>
      match opened with
      | o :: opened1 => run re1 opened1 (caps ++ [(o, pos)]) pos s
      | [] => run re1 [] caps pos s
      end
  end.

(** The leftmost match at or after [pos]: start, end, group spans. *)
Fixpoint search (re : Regexp) (pos : nat) (s : string)
  : option (nat * nat * list (nat * nat)) :=
  match run re [] [] pos s with
  | Some (e, caps) => Some (pos, e, caps)
  | None =>
      match s with
      | String _ s1 => search re (S pos) s1
      | EmptyString => None
      end
  end.

(** [src[i:j]] *)
Definition slice (src : string) (i j : nat) : string := substring i (j - i) src.

Definition submatches (src : string) (m : nat * nat * list (nat * nat)) : list string :=
  let '(b, e, caps) := m in
  slice src b e :: map (fun ij => slice src (fst ij) (snd ij)) caps.

(** [re.FindStringSubmatch(src)]: the match and its groups, nil if none. *)
Definition FindStringSubmatch (re : Regexp) (src : string) : list string :=
  match search re 0 src with
  | Some m => submatches src m
  | None => []
  end.

(** [re.FindString(src)]: the match, empty if none. *)
Definition FindString (re : Regexp) (src : string) : string :=
  match search re 0 src with
  | Some (b, e, _) => slice src b e
  | None => EmptyString
  end.

(** *** Replacement templates ([Regexp.expand])

    A dollar sign followed by a name, or by a name in braces, is replaced
    by that group; two dollar signs are one.  A name is the longest run
    of letters, digits and underscores (the ASCII ones here).  No pattern
    of the program names a group, so only a number can select one. *)

Definition nameByte (a : ascii) : bool :=
  let n := nat_of_ascii a in
  (Nat.leb 48 n && Nat.leb n 57) || (Nat.leb 65 n && Nat.leb n 90)
  || (Nat.leb 97 n && Nat.leb n 122) || Nat.eqb n 95.

Fixpoint nameLen (s : string) : nat :=
  match s with
  | String a s1 => if nameByte a then S (nameLen s1) else 0
  | EmptyString => 0
  end.

(** The number a name denotes: digits only, below 10^8 before each
    further digit, no leading zero. *)
Fixpoint nameNum (name : string) (num : N) : option nat :=
  match name with
  | EmptyString => Some (N.to_nat num)
  | String a n1 =>
      if negb (cmatch CDigit a) || N.leb 100000000 num then None
      else nameNum n1 (num * 10 + (N_of_ascii a - 48))%N
  end.

(** [extract]: bytes taken after the dollar sign, and the group number
    if the name is one. *)
Definition extract (str : string) : option (nat * option nat) :=
  match str with
  | EmptyString => None
  | String a s1 =>
      let brace := Ascii.eqb a "{" in
      let body := if brace then s1 else str in
      let i := nameLen body in
      if Nat.eqb i 0 then None
      else
        let name := substring 0 i body in
        let num :=
          match name with
          | String "0" (String _ _) => None
          | _ => nameNum name 0
          end in
        if brace
        then (if strings.HasPrefix (strings.drop i body) "}"
              then Some (i + 2, num) else None)
        else Some (i, num)
  end.

Fixpoint expandFrom (groups : list string) (skip : nat) (template : string) : string :=
  match template with
  | EmptyString => EmptyString
  | String a t1 =>
      match skip with
      | S k => expandFrom groups k t1
      | O =>
          if Ascii.eqb a "$" then
            match t1 with
            | String "$" t2 => String "$" (expandFrom groups 1 t1)
            | _ =>
                match extract t1 with
                | Some (n, num) =>
                    match num with
                    | Some i => nth i groups EmptyString
                    | None => EmptyString
                    end +:+ expandFrom groups n t1
                | None => String "$" (expandFrom groups 0 t1)
                end
            end
          else String a (expandFrom groups 0 t1)
      end
  end.

Definition expand (template : string) (groups : list string) : string :=
  expandFrom groups 0 template.

(** *** [re.ReplaceAllString(src, repl)]

    [replaceFrom] walks the text: [skip] bytes of the last match are
    still to be passed over, [adj] says that the last match ended right
    here, in which case an empty match is not replaced again.  Every
    pattern of the program holds a literal, so none of its matches is
    empty; after an empty match Go steps over one rune, this over one
    byte. *)
Fixpoint replaceFrom (re : Regexp) (repl src : string)
  (pos skip : nat) (adj : bool) (s : string) : string :=
  match skip with
  | S k =>
      match s with
      | String _ s1 => replaceFrom re repl src (S pos) k true s1
      | EmptyString => EmptyString
      end
  | O =>
      match run re [] [] pos s with
      | Some (e, caps) =>
          let new := expand repl (submatches src (pos, e, caps)) in
          if Nat.eqb e pos
          then (if adj then EmptyString else new) +:+
               match s with
               | String a s1 => String a (replaceFrom re repl src (S pos) 0 false s1)
               | EmptyString => EmptyString
               end
          else new +:+
               match s with
               | String _ s1 => replaceFrom re repl src (S pos) (e - pos - 1) true s1
               | EmptyString => EmptyString
               end
      | None =>
          match s with
          | String a s1 => String a (replaceFrom re repl src (S pos) 0 false s1)
          | EmptyString => EmptyString
          end
      end
  end.

Definition ReplaceAllString (re : Regexp) (src repl : string) : string :=
  replaceFrom re repl src 0 0 false src.

End regexp.

(** ** Package [types]: the upstream event *)

Record ZaiResponseData : Type := {
  Phase : string;
  DeltaContent : string;
  EditContent : string;
  Done : bool
}.

Record ZaiResponse : Type := { Data : option ZaiResponseData }.

(** ** [services.FormatResponse]: the phase transformer *)

Module response.
Import regexp.

(** The patterns, in the order the function compiles them.  A quote in a
    pattern is written as an apostrophe, see [gostr]. *)

(* pattern: "\n*<glm_block[^>]*>\{'type': 'mcp', 'data': \{'metadata': \{" *)
Definition reGlmOpen : Regexp :=
  [Star (CChar LF); Lit "<glm_block"; Star (CNot ">");
   Lit (gostr ">{'type': 'mcp', 'data': {'metadata': {")].

(* pattern: "', 'result': ''.*</glm_block>" *)
Definition reGlmResult : Regexp :=
  [Lit (gostr "', 'result': ''"); Star CDot; Lit "</glm_block>"].

(* pattern: "null, 'display_result': ''.*</glm_block>" *)
Definition reGlmDisplay : Regexp :=
  [Lit (gostr "null, 'display_result': ''"); Star CDot; Lit "</glm_block>"].

(* pattern: "(?s)<details[^>]*?>.*?</details>" *)
Definition reDetailsBlock : Regexp :=
  [Lit "<details"; StarLazy (CNot ">"); Lit ">"; StarLazy CAny; Lit "</details>"].

(* pattern: "\n*<summary>.*?</summary>\n*" *)
Definition reSummary : Regexp :=
  [Star (CChar LF); Lit "<summary>"; StarLazy CDot; Lit "</summary>"; Star (CChar LF)].

(* pattern: "<details[^>]*>\n*" *)
Definition reDetailsOpen : Regexp :=
  [Lit "<details"; Star (CNot ">"); Lit ">"; Star (CChar LF)].

(* pattern: "\n*</details>" *)
Definition reDetailsClose : Regexp := [Star (CChar LF); Lit "</details>"].

(* pattern, its tokens set apart: (?s) ^ ( .*? </reasoning> ) ( .* ) $ *)
Definition reSplit : Regexp :=
  [Bol; Open; StarLazy CAny; Lit "</reasoning>"; Close; Open; Star CAny; Close; Eol].

(* pattern: "\n>\s?" *)
Definition reQuote : Regexp := [Lit (gostr "\n>"); Opt CSpace].

(* pattern: "<reasoning>\n*" *)
Definition reReasoningOpen : Regexp := [Lit "<reasoning>"; Star (CChar LF)].

(* pattern: "\n*</reasoning>" *)
Definition reReasoningCloseNl : Regexp := [Star (CChar LF); Lit "</reasoning>"].

(* pattern: "</reasoning>" *)
Definition reReasoningClose : Regexp := [Lit "</reasoning>"].

(* pattern: "(?s)^(.*?</reasoning>)" *)
Definition reBefore : Regexp := [Bol; Open; StarLazy CAny; Lit "</reasoning>"; Close].

(* pattern: "(?s)<summary>.*?</summary>" *)
Definition reSummaryBlock : Regexp := [Lit "<summary>"; StarLazy CAny; Lit "</summary>"].

(* pattern: "duration='(\d+)'" *)
Definition reDuration : Regexp :=
  [Lit (gostr "duration='"); Open; Plus CDigit; Close; Lit (gostr "'")].

(** Lines 72-79: the tool-call phase, and an [other] event that continues
    one.  Returns the (possibly reclassified) phase and the content. *)
Definition toolCallPhase (phaseBak phase content : string) : string * string :=
  if phase =? "tool_call" then
    let content := ReplaceAllString reGlmOpen content "{" in
    let content := ReplaceAllString reGlmResult content "" in
    (phase, content)
  else if (phase =? "other") && (phaseBak =? "tool_call")
          && strings.Contains content "glm_block" then
    ("tool_call", ReplaceAllString reGlmDisplay content (gostr "'}"))
  else (phase, content).

(** Lines 87-99: the details tags become reasoning tags. *)
Definition toReasoningTags (phase content : string) : string :=
  let content := ReplaceAllString reDetailsBlock content "" in
  let content := strings.ReplaceAll content "</thinking>" "" in
  let content := strings.ReplaceAll content "<Full>" "" in
  let content := strings.ReplaceAll content "</Full>" "" in
  let content :=
    if phase =? "thinking"
    then ReplaceAllString reSummary content (gostr "\n\n")
    else content in
  let content := ReplaceAllString reDetailsOpen content (gostr "<reasoning>\n\n") in
  ReplaceAllString reDetailsClose content (gostr "\n\n</reasoning>").

(** Lines 101-123: an answer event that closes the reasoning. *)
Definition answerClose (phaseBak phase content : string) : string :=
  if phase =? "answer" then
    match FindStringSubmatch reSplit content with
    | [_; before; after] =>
        if negb (strings.TrimSpace after =? "") then
          if phaseBak =? "thinking" then
            gostr "\n\n</reasoning>\n\n" +:+ strings.TrimLeft after (gostr "\n")
          else if phaseBak =? "answer" then ""
          else content
        else gostr "\n\n</reasoning>"
    | _ => content
    end
  else content.

(** Lines 154-177: the trailer of the details block. *)
Definition detailsThoughts (phase content : string) : string :=
  if phase =? "answer" then
    let before :=
      match FindStringSubmatch reBefore content with
      | _ :: b :: _ => b
      | _ => ""
      end in
    let summaryMatch := FindString reSummaryBlock before in
    if negb (summaryMatch =? "") then gostr "\n\n" +:+ summaryMatch
    else
      match FindStringSubmatch reDuration before with
      | _ :: d :: _ => gostr "\n\n<summary>Thought for " +:+ d +:+ " seconds</summary>"
      | _ => ""
      end
  else "".

(** Lines 126-182: the switch on the configured think mode. *)
Definition applyThinkMode (thinkMode phase content : string) : string :=
  if thinkMode =? "reasoning" then
    let content :=
      if phase =? "thinking" then ReplaceAllString reQuote content (gostr "\n")
      else content in
    let content := ReplaceAllString reSummary content "" in
    let content := ReplaceAllString reReasoningOpen content "" in
    ReplaceAllString reReasoningCloseNl content ""
  else if thinkMode =? "think" then
    let content :=
      if phase =? "thinking" then ReplaceAllString reQuote content (gostr "\n")
      else content in
    let content := ReplaceAllString reSummary content "" in
    let content := strings.ReplaceAll content "<reasoning>" "<think>" in
    strings.ReplaceAll content "</reasoning>" "</think>"
  else if thinkMode =? "strip" then
    let content := ReplaceAllString reSummary content "" in
    let content := ReplaceAllString reReasoningOpen content "" in
    ReplaceAllString reReasoningClose content ""
  else if thinkMode =? "details" then
    let content :=
      if phase =? "thinking" then ReplaceAllString reQuote content (gostr "\n")
      else content in
    let content :=
      strings.ReplaceAll content "<reasoning>" (gostr "<details type='reasoning' open><div>") in
    let thoughts := detailsThoughts phase content in
    ReplaceAllString reReasoningClose content ("</div>" +:+ thoughts +:+ "</details>")
  else
    ReplaceAllString reReasoningClose content (gostr "</reasoning>\n\n").

(** Lines 86-183: the whole thinking/answer rewrite. *)
Definition rewriteReasoning (thinkMode phaseBak phase content : string) : string :=
  if (phase =? "thinking")
     || ((phase =? "answer") && strings.Contains content "summary>")
  then
    applyThinkMode thinkMode phase
      (answerClose phaseBak phase (toReasoningTags phase content))
  else content.

(** Lines 187-220: the returned map, nil when there is nothing to send. *)
Definition selectOutput (thinkMode phase content responseType : string)
  : option gomap :=
  if (phase =? "thinking") && (thinkMode =? "reasoning") then
    if responseType =? "Anthropic"
    then Some (<["thinking" := VStr content]> {["type" := VStr "thinking_delta"]})
    else Some (<["reasoning_content" := VStr content]> {["role" := VStr "assistant"]})
  else if phase =? "tool_call" then
    Some {["tool_call" := VStr content]}
  else if negb (content =? "") then
    if responseType =? "Anthropic"
    then Some (<["text" := VStr content]> {["type" := VStr "text_delta"]})
    else Some (<["content" := VStr content]> {["role" := VStr "assistant"]})
  else None.

(** [FormatResponse]: [thinkMode] is [cfg.API.Think]; the package variable
    [phaseBak] is passed in and its new value returned. *)
Definition FormatResponse (thinkMode : string) (phaseBak : string)
  (data : option ZaiResponse) (responseType : string)
  : option gomap * string :=
  match data with
  | None => (None, phaseBak)
  | Some {| Data := None |} => (None, phaseBak)
  | Some {| Data := Some d |} =>
      let phase := if Phase d =? "" then "other" else Phase d in
      let content := if DeltaContent d =? "" then EditContent d else DeltaContent d in
      if content =? "" then (None, phaseBak)
      else
        let '(phase, content) := toolCallPhase phaseBak phase content in
        let content := rewriteReasoning thinkMode phaseBak phase content in
        (selectOutput thinkMode phase content responseType, phase)
  end.

(** The package variable starts as this. *)
Definition phaseBak0 : string := "thinking".

End response.


(** ** Package [encoding/json]: [json.Unmarshal]

    A recursive-descent reader of the JSON grammar.  [fuel] bounds the
    number of nested calls; the length of the text is always enough.
    Bytes above 127 in a string are copied as they are (the text is taken
    to be valid UTF-8), and the nesting limit of the library is not
    modelled. *)

Module json.

Definition isWS (a : ascii) : bool :=
  let n := nat_of_ascii a in
  Nat.eqb n 32 || Nat.eqb n 9 || Nat.eqb n 10 || Nat.eqb n 13.

Fixpoint skipWS (s : string) : string :=
  match s with
  | String a s1 => if isWS a then skipWS s1 else s
  | EmptyString => EmptyString
  end.

Definition isDigit (a : ascii) : bool :=
  Nat.leb 48 (nat_of_ascii a) && Nat.leb (nat_of_ascii a) 57.

Definition hexVal (a : ascii) : option N :=
  let n := N_of_ascii a in
  if (48 <=? n)%N && (n <=? 57)%N then Some (n - 48)%N
  else if (97 <=? n)%N && (n <=? 102)%N then Some (n - 87)%N
  else if (65 <=? n)%N && (n <=? 70)%N then Some (n - 55)%N
  else None.

(** [getu4]: the code unit of a leading backslash-u escape. *)
Definition getu4 (s : string) : option N :=
  match s with
  | String b (String u (String h1 (String h2 (String h3 (String h4 _))))) =>
      if Ascii.eqb b BSL && Ascii.eqb u "u" then
        match hexVal h1, hexVal h2, hexVal h3, hexVal h4 with
        | Some a, Some b, Some c, Some d => Some (((a * 16 + b) * 16 + c) * 16 + d)%N
        | _, _, _, _ => None
        end
      else None
  | _ => None
  end.

Definition byte (n : N) : ascii := ascii_of_N n.

(** [utf8.EncodeRune] *)
Definition encodeRune (r : N) : string :=
  if (r <? 128)%N then String (byte r) EmptyString
  else if (r <? 2048)%N then
    String (byte (192 + r / 64)) (String (byte (128 + r mod 64)) EmptyString)
  else if (r <? 65536)%N then
    String (byte (224 + r / 4096))
      (String (byte (128 + (r / 64) mod 64))
         (String (byte (128 + r mod 64)) EmptyString))
  else
    String (byte (240 + r / 262144))
      (String (byte (128 + (r / 4096) mod 64))
         (String (byte (128 + (r / 64) mod 64))
            (String (byte (128 + r mod 64)) EmptyString))).

Definition isSurrogate (r : N) : bool := (55296 <=? r)%N && (r <? 57344)%N.

Definition replacementChar : N := 65533%N.

(** The rune of an escape at the head of [s] and the bytes it takes: a
    surrogate pair is one rune of twelve bytes, a lone surrogate is the
    replacement character. *)
Definition escapedRune (s : string) : option (N * nat) :=
  match getu4 s with
  | None => None
  | Some rr =>
      if isSurrogate rr then
        match getu4 (strings.drop 6 s) with
        | Some rr1 =>
            if (rr <? 56320)%N && (56320 <=? rr1)%N && (rr1 <? 57344)%N
            then Some (((rr - 55296) * 1024 + (rr1 - 56320) + 65536)%N, 12)
            else Some (replacementChar, 6)
        | None => Some (replacementChar, 6)
        end
      else Some (rr, 6)
  end.

Definition simpleEscape (a : ascii) : option ascii :=
  if Ascii.eqb a DQ then Some DQ
  else if Ascii.eqb a BSL then Some BSL
  else if Ascii.eqb a "/" then Some "/"%char
  else if Ascii.eqb a "b" then Some "008"%char
  else if Ascii.eqb a "f" then Some "012"%char
  else if Ascii.eqb a "n" then Some LF
  else if Ascii.eqb a "r" then Some "013"%char
  else if Ascii.eqb a "t" then Some "009"%char
  else None.

Definition consTo (a : string) (r : option (string * string)) : option (string * string) :=
  match r with
  | Some (t, rest) => Some (a +:+ t, rest)
  | None => None
  end.

(** The body of a string literal, after its opening quote: the decoded
    text and what follows the closing quote.  [skip] bytes belong to an
    escape already decoded. *)
Fixpoint stringBody (skip : nat) (s : string) : option (string * string) :=
  match s with
  | EmptyString => None
  | String a s1 =>
      match skip with
      | S k => stringBody k s1
      | O =>
          if Ascii.eqb a DQ then Some (EmptyString, s1)
          else if Ascii.eqb a BSL then
            match s1 with
            | EmptyString => None
            | String b _ =>
                match simpleEscape b with
                | Some c => consTo (String c EmptyString) (stringBody 1 s1)
                | None =>
                    match escapedRune s with
                    | Some (r, n) => consTo (encodeRune r) (stringBody (n - 1) s1)
                    | None => None
                    end
                end
            end
          else if Nat.ltb (nat_of_ascii a) 32 then None
          else consTo (String a EmptyString) (stringBody 0 s1)
      end
  end.

Fixpoint digits (s : string) : string * string :=
  match s with
  | String a s1 =>
      if isDigit a then let '(d, r) := digits s1 in (String a d, r)
      else (EmptyString, s)
  | EmptyString => (EmptyString, EmptyString)
  end.

(** A number literal: the literal and what follows it. *)
Definition number (s : string) : option (string * string) :=
  let '(sign, s) :=
    match s with
    | String "-" s1 => ("-", s1)
    | _ => (EmptyString, s)
    end in
  let '(int, s) := digits s in
  match int with
  | EmptyString => None
  | String "0" (String _ _) => None
  | _ =>
      let frac :=
        match s with
        | String "." s1 =>
            let '(f, r) := digits s1 in
            match f with
            | EmptyString => None
            | _ => Some ("." +:+ f, r)
            end
        | _ => Some (EmptyString, s)
        end in
      match frac with
      | None => None
      | Some (f, s) =>
          let exp :=
            match s with
            | String e s1 =>
                if Ascii.eqb e "e" || Ascii.eqb e "E" then
                  let '(sg, s2) :=
                    match s1 with
                    | String c s2 =>
                        if Ascii.eqb c "+" || Ascii.eqb c "-"
                        then (String c EmptyString, s2) else (EmptyString, s1)
                    | EmptyString => (EmptyString, s1)
                    end in
                  let '(d, r) := digits s2 in
                  match d with
                  | EmptyString => None
                  | _ => Some (String e sg +:+ d, r)
                  end
                else Some (EmptyString, s)
            | EmptyString => Some (EmptyString, s)
            end in
          match exp with
          | None => None
          | Some (x, s) => Some (sign +:+ int +:+ f +:+ x, s)
          end
      end
  end.

Fixpoint value_ (fuel : nat) (s : string) : option (value * string) :=
  match fuel with
  | O => None
  | S fuel =>
      let s := skipWS s in
      match s with
      | EmptyString => None
      | String a s1 =>
          if Ascii.eqb a "{" then
            match skipWS s1 with
            | String "}" s2 => Some (VMap ∅, s2)
            | s2 => members fuel s2 ∅
            end
          else if Ascii.eqb a "[" then
            match skipWS s1 with
            | String "]" s2 => Some (VList [], s2)
            | s2 => elements fuel s2 []
            end
          else if Ascii.eqb a DQ then
            match stringBody 0 s1 with
            | Some (t, rest) => Some (VStr t, rest)
            | None => None
            end
          else if strings.HasPrefix s "true" then Some (VBool true, strings.drop 4 s)
          else if strings.HasPrefix s "false" then Some (VBool false, strings.drop 5 s)
          else if strings.HasPrefix s "null" then Some (VNil, strings.drop 4 s)
          else
            match number s with
            | Some (n, rest) => Some (VNum n, rest)
            | None => None
            end
      end
  end
with members (fuel : nat) (s : string) (acc : gomap) : option (value * string) :=
  match fuel with
  | O => None
  | S fuel =>
      match skipWS s with
      | String a s1 =>
          if Ascii.eqb a DQ then
            match stringBody 0 s1 with
            | Some (key, rest) =>
                match skipWS rest with
                | String ":" s2 =>
                    match value_ fuel s2 with
                    | Some (v, rest) =>
                        let acc := <[key := v]> acc in
                        match skipWS rest with
                        | String "," s3 => members fuel s3 acc
                        | String "}" s3 => Some (VMap acc, s3)
                        | _ => None
                        end
                    | None => None
                    end
                | _ => None
                end
            | None => None
            end
          else None
      | EmptyString => None
      end
  end
with elements (fuel : nat) (s : string) (acc : list value) : option (value * string) :=
  match fuel with
  | O => None
  | S fuel =>
      match value_ fuel s with
      | Some (v, rest) =>
          let acc := acc ++ [v] in
          match skipWS rest with
          | String "," s1 => elements fuel s1 acc
          | String "]" s1 => Some (VList acc, s1)
          | _ => None
          end
      | None => None
      end
  end.

(** The whole text as one value, nothing but white space after it. *)
Definition parse (data : string) : option value :=
  match value_ (S (String.length data)) data with
  | Some (v, rest) =>
      match skipWS rest with
      | EmptyString => Some v
      | String _ _ => None
      end
  | None => None
  end.

(** [json.Unmarshal(data, &m)] for a nil [m] of type
    [map[string]interface{}]: [None] is an error, [Some None] leaves the
    map nil (the text is null), [Some (Some m)] is an object. *)
Definition UnmarshalMap (data : string) : option (option gomap) :=
  match parse data with
  | Some (VMap m) => Some (Some m)
  | Some VNil => Some None
  | _ => None
  end.

End json.

(** ** [handlers.AnthropicMessages]: the tool-call reconstruction

    The two response loops of the handler, from the first upstream event
    on.  The bytes written to the client are kept as structured events.
    [Marshal] is [json.Marshal] and [CountTokens] the tokenizer; both are
    outside the repository and stay parameters. *)

Module handlers.
Import response.

(** Lines 147-160 and 295-308: one more fragment is joined to the
    earlier ones; when the text is a JSON object (or null, which leaves
    the map nil and reads as empty) its [arguments] string becomes
    [input]. *)
Definition reconstruct (toolCallParts : list string) (toolCall : string)
  : list string * option gomap :=
  let toolCallParts := toolCallParts ++ [toolCall] in
  let toolCallStr := strings.Join toolCallParts "" in
  match json.UnmarshalMap toolCallStr with
  | Some parsed =>
      let toolJSON : gomap := match parsed with Some m => m | None => ∅ end in
      let toolJSON :=
        match asString (toolJSON !! "arguments") with
        | Some arguments =>
            let toolJSON :=
              match json.UnmarshalMap arguments with
              | Some (Some input) => <["input" := VMap input]> toolJSON
              | Some None => <["input" := VMapNil]> toolJSON
              | None => toolJSON
              end in
            delete "arguments" toolJSON
        | None => toolJSON
        end in
      (toolCallParts, Some toolJSON)
  | None => (toolCallParts, None)
  end.

(** [inputStr[i:end]] in steps of [chunkSize]. *)
Fixpoint chunksOf (fuel chunkSize : nat) (s : string) : list string :=
  match fuel with
  | O => []
  | S fuel =>
      match s with
      | EmptyString => []
      | _ => substring 0 chunkSize s :: chunksOf fuel chunkSize (strings.drop chunkSize s)
      end
  end.

Inductive sse : Type :=
| ContentBlockStop (index : nat)
| ToolUseStart (id name : value)        (* content_block_start, index 1 *)
| InputJsonDelta (partial_json : string) (* content_block_delta, index 1 *)
| TextDelta (text : string)              (* content_block_delta, index 0 *)
| MessageDelta (stop_reason : string) (output_tokens : nat)
| MessageStop.

Record stream : Type := {
  phaseBak : string;
  textParts : list string;
  toolCallParts : list string;
  hasToolCall : bool;
  written : list sse
}.

Definition isDone (zaiResp : ZaiResponse) : bool :=
  match Data zaiResp with Some d => Done d | None => false end.

Section Loops.
Variable thinkMode : string.
Variable Marshal : value -> string.
Variable CountTokens : string -> nat.

(** Lines 164-216: what a complete tool call writes. *)
Definition toolUseEvents (toolJSON : gomap) : list sse :=
  [ContentBlockStop 0; ToolUseStart (index toolJSON "id") (index toolJSON "name")]
  ++ match asMap (toolJSON !! "input") with
     | Some input =>
         let inputStr := Marshal (index toolJSON "input") in
         map InputJsonDelta (chunksOf (String.length inputStr) 5 inputStr)
     | None => []
     end
  ++ [ContentBlockStop 1].

(** Lines 135-239: the streaming loop.  A complete tool call, or a done
    event, leaves the loop. *)
Fixpoint streamLoop (events : list ZaiResponse) (st : stream) : stream :=
  match events with
  | [] => st
  | zaiResp :: rest =>
      if isDone zaiResp then st
      else
        let '(delta, pb) := FormatResponse thinkMode (phaseBak st) (Some zaiResp) "Anthropic" in
        let st := {| phaseBak := pb; textParts := textParts st;
                     toolCallParts := toolCallParts st;
                     hasToolCall := hasToolCall st; written := written st |} in
        match delta with
        | None => streamLoop rest st
        | Some delta =>
            match asString (delta !! "tool_call") with
            | Some toolCall =>
                let '(parts, toolJSON) := reconstruct (toolCallParts st) toolCall in
                match toolJSON with
                | Some toolJSON =>
                    {| phaseBak := pb; textParts := textParts st;
                       toolCallParts := parts; hasToolCall := true;
                       written := written st ++ toolUseEvents toolJSON |}
                | None =>
                    streamLoop rest
                      {| phaseBak := pb; textParts := textParts st;
                         toolCallParts := parts; hasToolCall := hasToolCall st;
                         written := written st |}
                end
            | None =>
                match asString (delta !! "text") with
                | Some text =>
                    streamLoop rest
                      {| phaseBak := pb; textParts := textParts st ++ [text];
                         toolCallParts := toolCallParts st;
                         hasToolCall := hasToolCall st;
                         written := written st ++ [TextDelta text] |}
                | None => streamLoop rest st
                end
            end
        end
  end.

(** Lines 90-92 and 134-275: the streamed answer after the opening
    events. *)
Definition streamResponse (pb : string) (events : list ZaiResponse) : stream :=
  let st := streamLoop events
              {| phaseBak := pb; textParts := []; toolCallParts := [];
                 hasToolCall := false; written := [] |} in
  let completionTokens := CountTokens (strings.Join (textParts st) "") in
  {| phaseBak := phaseBak st; textParts := textParts st;
     toolCallParts := toolCallParts st; hasToolCall := hasToolCall st;
     written :=
       written st
       ++ (if hasToolCall st then [] else [ContentBlockStop 0])
       ++ [MessageDelta (if hasToolCall st then "tool_use" else "end_turn")
             completionTokens;
           MessageStop] |}.

(** The body of the non-streamed answer: its content blocks, the stop
    reason and the output token count. *)
Record message : Type := {
  content : list gomap;
  stop_reason : string;
  output_tokens : nat
}.

(** Lines 356-380: no tool call, a pure text answer. *)
Definition textMessage (textParts : list string) : message :=
  let completionStr := strings.Join textParts "" in
  {| content :=
       if completionStr =? "" then []
       else [<["text" := VStr completionStr]> {["type" := VStr "text"]}];
     stop_reason := "end_turn";
     output_tokens := CountTokens completionStr |}.

(** Lines 284-354: the non-streaming loop, with the new [phaseBak]. *)
Fixpoint messageLoop (events : list ZaiResponse) (pb : string)
  (textParts toolCallParts : list string) : message * string :=
  match events with
  | zaiResp :: rest =>
      if isDone zaiResp then
        (textMessage textParts, pb)
      else
        let '(delta, pb) := FormatResponse thinkMode pb (Some zaiResp) "Anthropic" in
        match delta with
        | None => messageLoop rest pb textParts toolCallParts
        | Some delta =>
            match asString (delta !! "tool_call") with
            | Some toolCall =>
                let '(parts, toolJSON) := reconstruct toolCallParts toolCall in
                match toolJSON with
                | Some toolJSON =>
                    let text := strings.Join textParts "" in
                    ({| content :=
                          (match textParts with
                           | [] => []
                           | _ => [<["text" := VStr text]> {["type" := VStr "text"]}]
                           end)
                          ++ [<["input" := index toolJSON "input"]>
                              (<["name" := index toolJSON "name"]>
                               (<["id" := index toolJSON "id"]>
                                {["type" := VStr "tool_use"]}))];
                        stop_reason := "tool_use";
                        output_tokens := CountTokens text |}, pb)
                | None => messageLoop rest pb textParts parts
                end
            | None =>
                let textParts :=
                  match asString (delta !! "content") with
                  | Some c => textParts ++ [c]
                  | None => textParts
                  end in
                let textParts :=
                  match asString (delta !! "reasoning_content") with
                  | Some c => textParts ++ [c]
                  | None => textParts
                  end in
                messageLoop rest pb textParts toolCallParts
            end
        end
  | [] => (textMessage textParts, pb)
  end.

(** Lines 281-383: the non-streamed answer. *)
Definition messageResponse (pb : string) (events : list ZaiResponse) : message * string :=
  messageLoop events pb [] [].

End Loops.

End handlers.

(** ** [services.FormatRequest]: the request normalizer

    The outside world enters through parameters: the configuration
    ([cfg.Model.Default], [cfg.API.Anonymous]), the cached model catalogue
    ([GetModels], nil on failure), [json.Marshal], and the HTTP upload at
    the end of [UploadImage].  A Go [error] is its message. *)

Module request.

(** [types.Model], the fields the function reads; a nil [Original] map is
    [None]. *)
Record Model : Type := { ID : string; Original : option gomap }.

(** [v == s] for an interface [v] and a string constant [s]. *)
Definition isStr (v : option value) (s : string) : bool :=
  match v with Some (VStr t) => t =? s | _ => false end.

(** [v.(string)] with the zero value on failure: [x, _ := v.(string)]. *)
Definition strOr0 (v : option value) : string :=
  match asString v with Some s => s | None => "" end.

Section FormatRequest.
Variable cfgModelDefault : string.
Variable cfgAnonymous : bool.
Variable upload : string -> string -> string * option string.
Variable Marshal : value -> option string.
Variable models : option (list Model).

(** [UploadImage]: lines 431-437 decide whether anything is sent; the
    rest of the function is the upload itself. *)
Definition UploadImage (dataURL chatID : string) : string * option string :=
  if cfgAnonymous || negb (strings.HasPrefix dataURL "data:")
  then ("", None)
  else upload dataURL chatID.

Definition textBlock (text : string) : gomap :=
  <["text" := VStr text]> {["type" := VStr "text"]}.

(** Lines 135-147, 154-166 and 173-185: [newContent] becomes a slice of
    blocks if it is still a string, and the block is appended. *)
Definition appendBlock (newContent : value) (block : gomap) : value :=
  let newContent :=
    match newContent with
    | VStr contentStr => VMaps [textBlock contentStr]
    | _ => newContent
    end in
  match newContent with
  | VMaps contentSlice => VMaps (contentSlice ++ [block])
  | _ => newContent
  end.

(** Lines 112-132: the address of an image block. *)
Definition mediaURLOf (itemMap : gomap) : string :=
  let mediaURL := "" in
  let mediaURL :=
    match asMap (itemMap !! "image_url") with
    | Some imageURL =>
        match asString (imageURL !! "url") with
        | Some urlStr => urlStr
        | None => mediaURL
        end
    | None => mediaURL
    end in
  match asMap (itemMap !! "source") with
  | Some source =>
      if isStr (source !! "type") "base64" then
        match asString (source !! "data") with
        | Some data =>
            let mediaType := strOr0 (source !! "media_type") in
            let mediaType := if mediaType =? "" then "image/jpeg" else mediaType in
            "data:" +:+ mediaType +:+ ";base64," +:+ data
        | None => mediaURL
        end
      else mediaURL
  | None => mediaURL
  end.

(** The variables the loop over the blocks of one message updates. *)
Record blocks : Type := {
  newContent : value;
  newMessage : gomap;
  dontAppend : bool;
  newMessages : list gomap
}.

(** Lines 188-212: an assistant [tool_use] block. *)
Definition toolUse (itemMap : gomap) (st : blocks) : blocks :=
  let toolCalls :=
    match asMaps (newMessage st !! "tool_calls") with
    | Some l => l
    | None => []
    end in
  let arguments := "{}" in
  let arguments :=
    match itemMap !! "input" with
    | Some (VMap input) =>
        match Marshal (VMap input) with
        | Some argBytes => argBytes
        | None => arguments
        end
    | Some VMapNil =>
        match Marshal VMapNil with
        | Some argBytes => argBytes
        | None => arguments
        end
    | _ => arguments
    end in
  let toolCalls :=
    toolCalls ++
    [<["function" := VMap (<["arguments" := VStr arguments]>
                             {["name" := index itemMap "name"]})]>
       (<["type" := VStr "function"]> {["id" := index itemMap "id"]})] in
  {| newContent := newContent st;
     newMessage := <["tool_calls" := VMaps toolCalls]> (newMessage st);
     dontAppend := true;
     newMessages := newMessages st |}.

(** Lines 216-235: the text of a [tool_result] block. *)
Definition toolResultText (toolResultContent : option value) : string :=
  match toolResultContent with
  | Some (VList contentArr) =>
      let parts :=
        flat_map
          (fun c =>
             match asMap (Some c) with
             | Some cMap =>
                 if isStr (cMap !! "type") "text" then
                   match asString (cMap !! "text") with
                   | Some text => if text =? "" then [] else [text]
                   | None => []
                   end
                 else []
             | None => []
             end) contentArr in
      match parts with
      | [] => ""
      | _ => strings.Join parts ""
      end
  | Some (VStr resultStr) => resultStr
  | _ => ""
  end.

(** Lines 214-243: a [tool_result] block becomes a message of its own. *)
Definition toolResult (itemMap : gomap) (st : blocks) : blocks :=
  let result := toolResultText (itemMap !! "content") in
  {| newContent := newContent st;
     newMessage := newMessage st;
     dontAppend := true;
     newMessages :=
       newMessages st ++
       [<["content" := VStr result]>
          (<["tool_call_id" := index itemMap "tool_use_id"]>
             {["role" := VStr "tool"]})] |}.

Definition setContent (st : blocks) (c : value) : blocks :=
  {| newContent := c; newMessage := newMessage st;
     dontAppend := dontAppend st; newMessages := newMessages st |}.

(** Lines 110-186: an image block. *)
Definition image (chatID : string) (itemMap : gomap) (st : blocks) : blocks :=
  let mediaURL := mediaURLOf itemMap in
  if mediaURL =? "" then
    setContent st
      (appendBlock (newContent st)
         (textBlock "system: image error - Unsupported format or missing URL"))
  else
    match UploadImage mediaURL chatID with
    | (_, Some err) =>
        setContent st
          (appendBlock (newContent st)
             (textBlock ("system: image upload error - " +:+ err)))
    | (uploadedURL, None) =>
        let mediaURL := if uploadedURL =? "" then mediaURL else uploadedURL in
        setContent st
          (appendBlock (newContent st)
             (<["image_url" := VMap {["url" := VStr mediaURL]}]>
                {["type" := VStr "image_url"]}))
    end.

(** Lines 94-244: one block of an array content. *)
Definition block (role chatID : string) (st : blocks) (item : value) : blocks :=
  match asMap (Some item) with
  | None => st
  | Some itemMap =>
      let itemType := strOr0 (itemMap !! "type") in
      if itemType =? "text" then
        match asString (itemMap !! "text") with
        | Some text => setContent st (VStr text)
        | None => st
        end
      else if (itemType =? "image_url") || (itemType =? "image") then
        image chatID itemMap st
      else
        let st :=
          if (itemType =? "tool_use") && (role =? "assistant")
          then toolUse itemMap st else st in
        if itemType =? "tool_result" then toolResult itemMap st else st
  end.

(** Lines 72-251: one element of the message list; [sofar] is
    [newMessages] as the element finds it. *)
Definition message (chatID : string) (sofar : list gomap) (msg : value)
  : list gomap :=
  match asMap (Some msg) with
  | None => sofar
  | Some message =>
      let role := strOr0 (message !! "role") in
      let newMessage : gomap := {["role" := VStr role]} in
      match message !! "content" with
      | Some (VStr contentStr) =>
          sofar ++ [<["content" := VStr contentStr]> newMessage]
      | Some (VList contentArr) =>
          let '{| newContent := newContent; newMessage := newMessage;
                  dontAppend := dontAppend; newMessages := newMessages |} :=
            foldl (block role chatID)
              {| newContent := VStr ""; newMessage := newMessage;
                 dontAppend := false; newMessages := sofar |}
              contentArr in
          if dontAppend then newMessages
          else newMessages ++ [<["content" := newContent]> newMessage]
      | _ => sofar
      end
  end.

(** Lines 42-68: the system parameter as a leading message. *)
Definition systemMessage (result : gomap) : list gomap :=
  match result !! "system" with
  | None => []
  | Some system =>
      let content :=
        match system with
        | VStr v => strings.TrimLeft v (gostr "\n")
        | VList v =>
            let items :=
              flat_map
                (fun item =>
                   match asMap (Some item) with
                   | Some itemMap =>
                       if isStr (itemMap !! "type") "text" then
                         match asString (itemMap !! "text") with
                         | Some text => [strings.TrimLeft text (gostr "\n")]
                         | None => []
                         end
                       else []
                   | None => []
                   end) v in
            strings.Join items (gostr "\n\n")
        | _ => ""
        end in
      if content =? "" then []
      else [<["content" := VStr content]> {["role" := VStr "system"]}]
  end.

(** Lines 39-252: the canonical message list. *)
Definition canonicalMessages (data : gomap) : list gomap :=
  let chatID := strOr0 (data !! "chat_id") in
  let newMessages := systemMessage data in
  match asList (data !! "messages") with
  | Some messages => foldl (message chatID) newMessages messages
  | None => newMessages
  end.

(** Lines 254-266: the display id is mapped back to the source id. *)
Fixpoint sourceModel (data : list Model) (model : string) : string :=
  match data with
  | [] => model
  | m :: rest =>
      match Original m with
      | Some original =>
          if ID m =? model then
            match asString (original !! "id") with
            | Some sourceID =>
                if negb (model =? sourceID) then sourceID
                else sourceModel rest model
            | None => sourceModel rest model
            end
          else sourceModel rest model
      | None => sourceModel rest model
      end
  end.

(** Lines 296-314: does the catalogue say that the model cannot think? *)
Fixpoint thinkUnsupported (data : list Model) (model : string) : bool :=
  match data with
  | [] => false
  | m :: rest =>
      if (ID m =? model)
         || match Original m with
            | Some original => isStr (original !! "id") model
            | None => false
            end
      then
        match Original m with
        | Some original =>
            match asMap (original !! "info") with
            | Some info =>
                match asMap (info !! "meta") with
                | Some meta =>
                    match asMap (meta !! "capabilities") with
                    | Some caps =>
                        match asBool (caps !! "think") with
                        | Some think => negb think
                        | None => false
                        end
                    | None => false
                    end
                | None => false
                end
            | None => false
            end
        | None => false
        end
      else thinkUnsupported rest model
  end.

(** Lines 272-318: the features. *)
Definition withFeatures (model : string) (result : gomap) : gomap :=
  let features : gomap := {["enable_thinking" := VBool false]} in
  let features :=
    match asMap (result !! "features") with
    | Some existingFeatures => existingFeatures ∪ features
    | None => features
    end in
  let '(features, result) :=
    match result !! "enable_thinking" with
    | Some enableThinking =>
        (<["enable_thinking" := enableThinking]> features,
         delete "enable_thinking" result)
    | None => (features, result)
    end in
  let '(features, result) :=
    match asMap (result !! "thinking") with
    | Some thinking =>
        (match asString (thinking !! "type") with
         | Some thinkType =>
             <["enable_thinking" := VBool (strings.ToLower thinkType =? "enabled")]>
               features
         | None => features
         end,
         delete "thinking" result)
    | None => (features, result)
    end in
  let features :=
    match models with
    | Some data =>
        if thinkUnsupported data model
        then delete "enable_thinking" features else features
    | None => features
    end in
  if Nat.ltb 0 (size features)
  then <["features" := VMap features]> result
  else result.

(** [FormatRequest]: the upstream request and the error. *)
Definition FormatRequest (data : gomap) (requestType : string)
  : gomap * option string :=
  let result := data in
  let model :=
    match asString (result !! "model") with
    | Some model => if model =? "" then cfgModelDefault else model
    | None => cfgModelDefault
    end in
  let newMessages := canonicalMessages result in
  let result := delete "system" result in
  let model :=
    match models with
    | Some data => sourceModel data model
    | None => model
    end in
  let result := <["model" := VStr model]> result in
  let result := <["messages" := VMaps newMessages]> result in
  let result := <["stream" := VBool true]> result in
  (withFeatures model result, None).

End FormatRequest.

(** The canonical message list in a formatted request, as the handlers
    read it back: [formattedData["messages"].([]map[string]interface{})]. *)
Definition messagesOf (formatted : gomap) : list gomap :=
  match asMaps (formatted !! "messages") with
  | Some msgs => msgs
  | None => []
  end.

(** A formatted request as it reads after a trip through JSON: the
    message slice and the block slices in it are plain lists. *)
Definition rereadMessage (m : gomap) : value :=
  VMap ((fun v => match v with VMaps l => VList (VMap <$> l) | _ => v end) <$> m).

Definition reread (formatted : gomap) : gomap :=
  match formatted !! "messages" with
  | Some (VMaps l) => <["messages" := VList (rereadMessage <$> l)]> formatted
  | _ => formatted
  end.

End request.

(** ** The library functions of the signature

    [crypto/sha256] (FIPS 180-4), [crypto/hmac] (RFC 2104),
    [encoding/hex], [encoding/base64] and the two [strconv] functions,
    on bytes as numbers below 256. *)

Module crypto.

Definition bytesOf (s : string) : list N := map N_of_ascii (list_ascii_of_string s).

Definition mask32 : N := 4294967295.

Definition add32 (x y : N) : N := N.land (x + y) mask32.

Definition rotr (n x : N) : N :=
  N.lor (N.shiftr x n) (N.land (N.shiftl x (32 - n)) mask32).

Definition Ch (x y z : N) : N :=
  N.lxor (N.land x y) (N.land (N.lxor x mask32) z).

Definition Maj (x y z : N) : N :=
  N.lxor (N.lxor (N.land x y) (N.land x z)) (N.land y z).

Definition Sigma0 (x : N) : N := N.lxor (N.lxor (rotr 2 x) (rotr 13 x)) (rotr 22 x).
Definition Sigma1 (x : N) : N := N.lxor (N.lxor (rotr 6 x) (rotr 11 x)) (rotr 25 x).
Definition sigma0 (x : N) : N := N.lxor (N.lxor (rotr 7 x) (rotr 18 x)) (N.shiftr x 3).
Definition sigma1 (x : N) : N := N.lxor (N.lxor (rotr 17 x) (rotr 19 x)) (N.shiftr x 10).

(** The constants, as FIPS 180-4 defines them: the first 32 bits of the
    fractional parts of the cube roots of the first 64 primes, and of the
    square roots of the first 8. *)
Definition isPrime (n : N) : bool :=
  forallb (fun d => negb (n mod d =? 0)%N) (map N.of_nat (seq 2 (N.to_nat n - 2))).

Definition primes (count bound : nat) : list N :=
  firstn count (filter isPrime (map N.of_nat (seq 2 bound))).

(** The largest [r] below [2 ^ bits] with [r ^ k <= x], above [r]. *)
Fixpoint rootFrom (k : N) (bits : nat) (x r : N) : N :=
  match bits with
  | O => r
  | S b =>
      let c := (r + 2 ^ N.of_nat b)%N in
      if (c ^ k <=? x)%N then rootFrom k b x c else rootFrom k b x r
  end.

Definition fracRoot (k p : N) : N :=
  (rootFrom k 40 (p * 2 ^ (32 * k)) 0 mod 2 ^ 32)%N.

Definition K256 : list N := Eval vm_compute in map (fracRoot 3) (primes 64 312).

Definition H256 : list N := Eval vm_compute in map (fracRoot 2) (primes 8 20).

(** Big-endian bytes of a number, [n] of them. *)
Fixpoint bigEndian (n : nat) (x : N) : list N :=
  match n with
  | O => []
  | S k => bigEndian k (x / 256) ++ [x mod 256]%N
  end.

Definition padding (len : nat) : list N :=
  let zeros := (55 + 64 - len mod 64) mod 64 in
  128%N :: repeat 0%N zeros ++ bigEndian 8 (N.of_nat len * 8).

Fixpoint wordsOf (bytes : list N) : list N :=
  match bytes with
  | a :: b :: c :: d :: rest =>
      (((a * 256 + b) * 256 + c) * 256 + d)%N :: wordsOf rest
  | _ => []
  end.

(** The message schedule, latest word first: [n] words added to [ws]. *)
Fixpoint schedule (n : nat) (ws : list N) : list N :=
  match n with
  | O => ws
  | S k =>
      let w :=
        add32 (add32 (sigma1 (nth 1 ws 0%N)) (nth 6 ws 0%N))
              (add32 (sigma0 (nth 14 ws 0%N)) (nth 15 ws 0%N)) in
      schedule k (w :: ws)
  end.

Definition round (st : list N) (kw : N * N) : list N :=
  match st with
  | [a; b; c; d; e; f; g; h] =>
      let t1 := add32 (add32 (add32 h (Sigma1 e)) (add32 (Ch e f g) (fst kw))) (snd kw) in
      let t2 := add32 (Sigma0 a) (Maj a b c) in
      [add32 t1 t2; a; b; c; add32 d t1; e; f; g]
  | _ => st
  end.

Definition compress (h : list N) (block : list N) : list N :=
  let w := List.rev (schedule 48 (List.rev (wordsOf block))) in
  let st := fold_left round (combine K256 w) h in
  map (fun p => add32 (fst p) (snd p)) (combine h st).

Fixpoint blocks (fuel : nat) (h : list N) (bytes : list N) : list N :=
  match fuel with
  | O => h
  | S fuel =>
      match bytes with
      | [] => h
      | _ => blocks fuel (compress h (firstn 64 bytes)) (skipn 64 bytes)
      end
  end.

(** [sha256.Sum256] *)
Definition sum256 (msg : list N) : list N :=
  let padded := msg ++ padding (length msg) in
  flat_map (bigEndian 4) (blocks (length padded) H256 padded).

(** [hmac.New(sha256.New, key)], [Write(message)], [Sum(nil)] *)
Definition hmac (key message : list N) : list N :=
  let key := if Nat.ltb 64 (length key) then sum256 key else key in
  let key := key ++ repeat 0%N (64 - length key) in
  let ipad := map (N.lxor 54) key in
  let opad := map (N.lxor 92) key in
  sum256 (opad ++ sum256 (ipad ++ message)).

Definition hexDigit (n : N) : ascii :=
  ascii_of_N (if (n <? 10)%N then 48 + n else 87 + n).

(** [hex.EncodeToString] *)
Fixpoint hexEncode (bytes : list N) : string :=
  match bytes with
  | [] => EmptyString
  | b :: rest => String (hexDigit (b / 16)) (String (hexDigit (b mod 16)) (hexEncode rest))
  end.

Definition b64Digit (n : N) : ascii :=
  ascii_of_N
    (if (n <? 26)%N then 65 + n
     else if (n <? 52)%N then 71 + n
     else if (n <? 62)%N then n - 4
     else if (n =? 62)%N then 43 else 47).

(** [base64.StdEncoding.EncodeToString] *)
Fixpoint b64Encode (bytes : list N) : string :=
  match bytes with
  | [] => EmptyString
  | [a] =>
      String (b64Digit (a / 4)) (String (b64Digit ((a mod 4) * 16)) "==")
  | [a; b] =>
      String (b64Digit (a / 4))
        (String (b64Digit ((a mod 4) * 16 + b / 16))
           (String (b64Digit ((b mod 16) * 4)) "="))
  | a :: b :: c :: rest =>
      String (b64Digit (a / 4))
        (String (b64Digit ((a mod 4) * 16 + b / 16))
           (String (b64Digit ((b mod 16) * 4 + c / 64))
              (String (b64Digit (c mod 64)) (b64Encode rest))))
  end.

(** The value of a run of decimal digits; [None] if a byte is not one or
    there is none. *)
Fixpoint digitsValue (s : string) (acc : Z) : option Z :=
  match s with
  | EmptyString => Some acc
  | String a s1 =>
      let n := Z.of_N (N_of_ascii a) in
      if (48 <=? n)%Z && (n <=? 57)%Z
      then digitsValue s1 (acc * 10 + (n - 48))%Z
      else None
  end.

(** [strconv.ParseInt(s, 10, 64)]: an optional sign, at least one digit,
    digits only, within the 64-bit range. *)
Definition ParseInt (s : string) : option Z :=
  let '(neg, body) :=
    match s with
    | String "-" s1 => (true, s1)
    | String "+" s1 => (false, s1)
    | _ => (false, s)
    end in
  match body with
  | EmptyString => None
  | _ =>
      match digitsValue body 0 with
      | Some n =>
          if neg then (if (n <=? 9223372036854775808)%Z then Some (- n)%Z else None)
          else (if (n <? 9223372036854775808)%Z then Some n else None)
      | None => None
      end
  end.

(** [strconv.FormatInt(i, 10)], and the verb d of [fmt]. *)
Definition FormatInt (i : Z) : string := NilZero.string_of_int (Z.to_int i).

End crypto.

(** ** [services.GenerateSignature] *)

Module signature.
Import crypto.

Definition secretKey : string := "key-@@@@)))()((9))-xxxx&&&%%%%%".

Record SignatureResult : Type := { Signature : string; Timestamp : Z }.

Inductive error : Type :=
| MissingParameter (key : string)
| InvalidTimestamp.

(** [hmacSHA256]: lines 78-82. *)
Definition hmacSHA256 (key message : string) : string :=
  hexEncode (hmac (bytesOf key) (bytesOf message)).

(** Lines 50-54: the keys of the map, sorted.  The order in which Go
    ranges over a map does not matter once they are sorted. *)
Definition sortedKeys (params : gmap string string) : list string :=
  merge_sort String.le (fst <$> map_to_list params).

(** Lines 57-65: key, comma, value, with a comma before all but the
    first key. *)
Fixpoint paramsString (params : gmap string string) (i : nat) (keys : list string)
  : string :=
  match keys with
  | [] => EmptyString
  | k :: rest =>
      (if Nat.ltb 0 i then "," else "")
      +:+ k +:+ "," +:+ (match params !! k with Some v => v | None => "" end)
      +:+ paramsString params (S i) rest
  end.

(** Lines 25-30: the first required key that is missing. *)
Fixpoint firstMissing (params : gmap string string) (required : list string)
  : option string :=
  match required with
  | [] => None
  | key :: rest =>
      match params !! key with
      | Some _ => firstMissing params rest
      | None => Some key
      end
  end.

Definition GenerateSignature (params : gmap string string) (content : string)
  : SignatureResult + error :=
  match firstMissing params ["timestamp"; "requestId"; "user_id"] with
  | Some key => inr (MissingParameter key)
  | None =>
      match ParseInt (match params !! "timestamp" with Some v => v | None => "" end) with
      | None => inr InvalidTimestamp
      | Some requestTime =>
          let signatureExpire := Z.quot requestTime (5 * 60 * 1000) in
          let plaintext1 := FormatInt signatureExpire in
          let signature1 := hmacSHA256 secretKey plaintext1 in
          let contentB64 := b64Encode (bytesOf content) in
          let keys := sortedKeys params in
          let paramsStr := paramsString params 0 keys in
          let plaintext2 :=
            paramsStr +:+ "|" +:+ contentB64 +:+ "|" +:+ FormatInt requestTime in
          let signature2 := hmacSHA256 signature1 plaintext2 in
          inl {| Signature := signature2; Timestamp := requestTime |}
      end
  end.

(** *** The algorithm as the specification words it

    Five steps, from a window id, the parameters as key-value pairs, the
    content and the timestamp. *)
Definition fiveSteps (windowId : Z) (sorted : list (string * string))
  (content : string) (timestampMillis : Z) : string :=
  let level1 := hexEncode (hmac (bytesOf secretKey) (bytesOf (FormatInt windowId))) in
  let paramString := strings.Join (flat_map (fun kv => [fst kv; snd kv]) sorted) "," in
  let plaintext2 :=
    paramString +:+ "|" +:+ b64Encode (bytesOf content) +:+ "|"
    +:+ FormatInt timestampMillis in
  hexEncode (hmac (bytesOf level1) (bytesOf plaintext2)).

(** Pairs written one after the other, a comma before every key and
    every value. *)
Fixpoint commaPairs (entries : list (string * string)) : string :=
  match entries with
  | [] => ""
  | kv :: rest => "," +:+ fst kv +:+ "," +:+ snd kv +:+ commaPairs rest
  end.

(** The entries of a map in the order of their keys. *)
Definition sortedEntries (params : gmap string string) : list (string * string) :=
  (fun k => (k, match params !! k with Some v => v | None => "" end))
  <$> sortedKeys params.

End signature.

(** ** Vocabulary of the statements *)

Module scenario.
Import response.

(** An upstream event with the given phase, delta and edit text. *)
Definition event (phase delta edit : string) : option ZaiResponse :=
  Some {| Data := Some {| Phase := phase; DeltaContent := delta;
                          EditContent := edit; Done := false |} |}.

(** The map [FormatResponse] returns for reasoning text. *)
Definition reasoningDelta (responseType content : string) : gomap :=
  if responseType =? "Anthropic"
  then <["thinking" := VStr content]> {["type" := VStr "thinking_delta"]}
  else <["reasoning_content" := VStr content]> {["role" := VStr "assistant"]}.

(** The map [FormatResponse] returns for answer text. *)
Definition textDelta (responseType content : string) : gomap :=
  if responseType =? "Anthropic"
  then <["text" := VStr content]> {["type" := VStr "text_delta"]}
  else <["content" := VStr content]> {["role" := VStr "assistant"]}.

(** [d] is an answer event whose text (the delta, or the edit when the
    delta is empty) is [content]. *)
Definition answerEvent (d : ZaiResponseData) (content : string) : Prop :=
  Phase d = "answer" /\
  content = (if DeltaContent d =? "" then EditContent d else DeltaContent d).

(** The reasoning-close marker. *)
Definition close : string := "</reasoning>".

(** What is left of the split pattern after its lazy star. *)
Definition tailK : nat -> string -> regexp.outcome :=
  regexp.run
    [regexp.Lit close; regexp.Close; regexp.Open; regexp.Star regexp.CAny;
     regexp.Close; regexp.Eol] [0] [].

(** An answer event that ends a thinking phase: the edit runs from the
    middle of the opening tag to the text after the closing tag. *)
Definition pauseEnd : ZaiResponseData :=
  {| Phase := "answer"; DeltaContent := "";
     EditContent :=
       gostr "true' duration='1'>\n<summary>Thought for 1 seconds</summary>\n> hm\n</details>\nHello";
     Done := false |}.

(** The same with a duration of 7 and nothing after the closing tag. *)
Definition closeOnly : string :=
  gostr "true' duration='7'>\n<summary>Thought for 7 seconds</summary>\n> x\n</details>\n".

(** The same without a summary block. *)
Definition closeOnlyBare : string :=
  gostr "true' duration='7'>\n> x\n</details>\n".

(** The two fragments of a tool call. *)
Definition fragment1 : string := gostr "{'id':'1','name':'x',".
Definition fragment2 : string := gostr "'arguments':'{\\'a\\':1}'}".

Definition toolCallEvent (fragment : string) : ZaiResponse :=
  {| Data := Some {| Phase := "tool_call"; DeltaContent := fragment;
                     EditContent := ""; Done := false |} |}.

(** The tool call the two fragments spell. *)
Definition argumentsObject : gomap := {["a" := VNum "1"]}.

Definition invocation : gomap :=
  <["input" := VMap argumentsObject]> (<["name" := VStr "x"]> {["id" := VStr "1"]}).

Definition toolUseBlock : gomap :=
  <["input" := VMap argumentsObject]>
    (<["name" := VStr "x"]> (<["id" := VStr "1"]> {["type" := VStr "tool_use"]})).

(** The streaming loop starts with nothing collected or written. *)
Definition start (pb : string) : handlers.stream :=
  {| handlers.phaseBak := pb; handlers.textParts := [];
     handlers.toolCallParts := []; handlers.hasToolCall := false;
     handlers.written := [] |}.

(** What the streaming loop writes for the tool call: the text block is
    closed, the tool block opened, its input sent in chunks of five
    bytes, the tool block closed. *)
Definition invocationEvents (Marshal : value -> string) : list handlers.sse :=
  [handlers.ContentBlockStop 0; handlers.ToolUseStart (VStr "1") (VStr "x")]
  ++ map handlers.InputJsonDelta
       (handlers.chunksOf (String.length (Marshal (VMap argumentsObject))) 5
          (Marshal (VMap argumentsObject)))
  ++ [handlers.ContentBlockStop 1].

(** A message object of a request, and a text block. *)
Definition messageOf (role : string) (content : value) : gomap :=
  <["content" := content]> {["role" := VStr role]}.

Definition textItem (text : string) : value := VMap (request.textBlock text).

(** A canonical message that is only a role and a text. *)
Definition plain (m : gomap) : Prop :=
  exists role text, m = messageOf role (VStr text).

(** A configuration to run the normalizer with: the default model, the
    anonymous mode (nothing is uploaded), no marshalling, no catalogue. *)
Definition demoFormat : gomap -> string -> gomap * option string :=
  request.FormatRequest "glm-4.6" true (fun _ _ => ("", None)) (fun _ => None) None.

Definition hi : gomap := messageOf "user" (VStr "hi").
Definition yo : gomap := messageOf "assistant" (VStr "yo").

(** Requests: two plain messages; a message list that is a string; a
    message with a null content between the two plain ones; a message
    that carries a tool result. *)
Definition hiRequest : gomap := {["messages" := VList [VMap hi; VMap yo]]}.

Definition notAList : gomap := {["messages" := VStr "hello"]}.

Definition nullContentRequest : gomap :=
  {["messages" := VList [VMap hi; VMap (messageOf "user" VNil); VMap yo]]}.

Definition toolResultRequest : gomap :=
  {["messages" :=
      VList [VMap (messageOf "user"
                     (VList [VMap (<["content" := VStr "42"]>
                                     (<["tool_use_id" := VStr "t1"]>
                                        {["type" := VStr "tool_result"]}))]))]]}.

(** The canonical message of that tool result. *)
Definition toolMessage : gomap :=
  <["content" := VStr "42"]> (<["tool_call_id" := VStr "t1"]> {["role" := VStr "tool"]}).

(** Signature parameters with a timestamp before the epoch, and with a
    fourth entry. *)
Definition negativeParams : gmap string string :=
  <["timestamp" := "-1"]> (<["requestId" := "r1"]> {["user_id" := "u1"]}).

Definition fourParams : gmap string string :=
  <["timestamp" := "1700000000000"]>
    (<["requestId" := "r1"]> (<["user_id" := "u1"]> {["extra" := "x"]})).

End scenario.

(** ** Vocabulary of the further statements *)

Module canon.
Import request.

(** The content of a canonical message is a text or a slice of blocks. *)
Definition textOrBlocks (c : value) : Prop :=
  (exists s, c = VStr s) \/ (exists l, c = VMaps l).

Definition hasTextOrBlocks (m : gomap) : Prop :=
  exists c, m !! "content" = Some c /\ textOrBlocks c.

(** The message lines 237-241 build for a [tool_result] block. *)
Definition toolMessageOf (itemMap : gomap) : gomap :=
  <["content" := VStr (toolResultText (itemMap !! "content"))]>
    (<["tool_call_id" := index itemMap "tool_use_id"]> {["role" := VStr "tool"]}).

(** The type of a block: [itemMap["type"].(string)] of an element that is
    a map, and no type for an element that is not. *)
Definition blockType (item : value) : option string :=
  match asMap (Some item) with
  | Some itemMap => Some (strOr0 (itemMap !! "type"))
  | None => None
  end.

(** The tool messages of a content list, one per [tool_result] block. *)
Definition toolMessages (contentArr : list value) : list gomap :=
  flat_map
    (fun item =>
       match asMap (Some item) with
       | Some itemMap =>
           if strOr0 (itemMap !! "type") =? "tool_result"
           then [toolMessageOf itemMap] else []
       | None => []
       end) contentArr.

(** A block that sets [dontAppend]. *)
Definition holdsTool (role : string) (item : value) : bool :=
  match blockType item with
  | Some t => (t =? "tool_result") || ((t =? "tool_use") && (role =? "assistant"))
  | None => false
  end.

(** [newMessages] with [a] put before it. *)
Definition prepend (a : list gomap) (st : blocks) : blocks :=
  {| newContent := newContent st; newMessage := newMessage st;
     dontAppend := dontAppend st; newMessages := a ++ newMessages st |}.

Section Added.
Variable cfgAnonymous : bool.
Variable upload : string -> string -> string * option string.
Variable Marshal : value -> option string.

(** The variables of the loop before the first block of a content list. *)
Definition noBlocks (role : string) : blocks :=
  {| newContent := VStr ""; newMessage := {["role" := VStr role]};
     dontAppend := false; newMessages := [] |}.

(** What one element of the message list adds to the canonical
    messages. *)
Definition added (chatID : string) (msg : value) : list gomap :=
  match asMap (Some msg) with
  | None => []
  | Some m =>
      let role := strOr0 (m !! "role") in
      match m !! "content" with
      | Some (VStr s) => [scenario.messageOf role (VStr s)]
      | Some (VList contentArr) =>
          toolMessages contentArr
          ++ (if existsb (holdsTool role) contentArr then []
              else [scenario.messageOf role
                      (newContent (foldl (block cfgAnonymous upload Marshal role chatID) (noBlocks role)
                                     contentArr))])
      | _ => []
      end
  end.

End Added.

(** The keys of a request that FormatRequest writes or removes. *)
Definition reserved : list string :=
  ["features"; "enable_thinking"; "thinking"; "stream"; "messages"; "model"; "system"].

(** Lines 30-34 and 254-266: the model the request is sent with. *)
Definition resolvedModel (cfgModelDefault : string) (models : option (list Model))
  (data : gomap) : string :=
  let model :=
    match asString (data !! "model") with
    | Some model => if model =? "" then cfgModelDefault else model
    | None => cfgModelDefault
    end in
  match models with
  | Some catalogue => sourceModel catalogue model
  | None => model
  end.

(** Lines 296-314, with the catalogue that may be missing. *)
Definition unsupported (models : option (list Model)) (model : string) : bool :=
  match models with
  | Some catalogue => thinkUnsupported catalogue model
  | None => false
  end.

(** The thinking flag a request asks for: the type of its [thinking]
    object, else its [enable_thinking] value, else the value in its
    [features], else false. *)
Definition thinkingObject (data : gomap) : option value :=
  match asMap (data !! "thinking") with
  | Some thinking =>
      match asString (thinking !! "type") with
      | Some thinkType => Some (VBool (strings.ToLower thinkType =? "enabled"))
      | None => None
      end
  | None => None
  end.

Definition askedThinking (data : gomap) : value :=
  match thinkingObject data with
  | Some v => v
  | None =>
      match data !! "enable_thinking" with
      | Some enableThinking => enableThinking
      | None =>
          match asMap (data !! "features") with
          | Some existingFeatures =>
              match existingFeatures !! "enable_thinking" with
              | Some v => v
              | None => VBool false
              end
          | None => VBool false
          end
      end
  end.

End canon.

(** Further requests and a catalogue to run the normalizer on. *)
Module requests.
Import request scenario.

(** A catalogue entry of a model that cannot think. *)
Definition flash : Model :=
  {| ID := "GLM-4-Flash";
     Original :=
       Some (<["id" := VStr "glm-4-flash"]>
               {["info" :=
                   VMap {["meta" :=
                            VMap {["capabilities" :=
                                     VMap {["think" := VBool false]}]}]}]}) |}.

Definition flashFormat : gomap -> string -> gomap * option string :=
  FormatRequest "glm-4.6" true (fun _ _ => ("", None)) (fun _ => None) (Some [flash]).

(** A request for that model that asks for thinking and for search. *)
Definition flashRequest : gomap :=
  <["model" := VStr "GLM-4-Flash"]>
    (<["features" := VMap (<["enable_thinking" := VBool true]>
                             {["web_search" := VBool true]})]>
       hiRequest).

(** A request with a sampling temperature. *)
Definition warmRequest : gomap := <["temperature" := VNum "0.5"]> hiRequest.

(** A request whose thinking object and flag disagree. *)
Definition thinkingRequest : gomap :=
  <["thinking" := VMap {["type" := VStr "Enabled"]}]>
    (<["enable_thinking" := VBool false]> hiRequest).

(** The blocks and the message of [toolResultRequest]. *)
Definition resultBlocks : list value :=
  [VMap (<["content" := VStr "42"]>
           (<["tool_use_id" := VStr "t1"]> {["type" := VStr "tool_result"]}))].

Definition resultCarrier : gomap := messageOf "user" (VList resultBlocks).

End requests.

(** ** [services.SendChatRequest], up to the request it sends

    Lines 326-395 of request.go: the query parameters, the headers and the
    body, from the clock, the request id and the user.  The fetch of the
    user comes before and the transport after. *)

Module send.
Import request crypto signature.

(** Lines 366-376: the text of the first text block, as the one-element
    or empty slice [texts]. *)
Fixpoint firstText (contentArr : list value) : list string :=
  match contentArr with
  | [] => []
  | item :: rest =>
      match asMap (Some item) with
      | Some itemMap =>
          if isStr (itemMap !! "type") "text" then
            match asString (itemMap !! "text") with
            | Some text => [text]
            | None => firstText rest
            end
          else firstText rest
      | None => firstText rest
      end
  end.

(** Lines 359-380: one message of the loop. *)
Definition lastUserStep (lastUserMessage : string) (msg : gomap) : string :=
  match asString (msg !! "role") with
  | Some role =>
      if role =? "user" then
        match msg !! "content" with
        | Some (VStr content) => content
        | Some (VList contentArr) => strings.Join (firstText contentArr) ""
        | _ => lastUserMessage
        end
      else lastUserMessage
  | None => lastUserMessage
  end.

(** Lines 357-380. *)
Definition lastUserMessage (data : gomap) : string :=
  match asMaps (data !! "messages") with
  | Some messages => foldl lastUserStep "" messages
  | None => ""
  end.

Record outgoing : Type := {
  query : gmap string string;
  headers : gmap string string;
  body : gomap
}.

Section SendChatRequest.
Variable cfgHeaders : gmap string string.
Variables cfgProtocol cfgHost : string.

Definition prepare (timestamp : Z) (requestID userToken userID : string)
  (data : gomap) (chatID : string) : outgoing + error :=
  let params : gmap string string :=
    <["requestId" := requestID]> {["timestamp" := FormatInt timestamp]} in
  let headers :=
    <["Referer" := cfgProtocol +:+ "//" +:+ cfgHost +:+ "/c/" +:+ chatID]>
      (<["Content-Type" := "application/json"]>
         (<["Authorization" := "Bearer " +:+ userToken]> cfgHeaders)) in
  if negb (userID =? "") then
    let params := <["user_id" := userID]> params in
    let lastUserMessage := lastUserMessage data in
    let sigParams : gmap string string :=
      <["timestamp" := FormatInt timestamp]>
        (<["requestId" := requestID]> {["user_id" := userID]}) in
    match GenerateSignature sigParams lastUserMessage with
    | inr err => inr err
    | inl sigResult =>
        inl {| query :=
                 <["signature_timestamp" := FormatInt (Timestamp sigResult)]> params;
               headers := <["X-Signature" := Signature sigResult]> headers;
               body := <["signature_prompt" := VStr lastUserMessage]> data |}
    end
  else inl {| query := params; headers := headers; body := data |}.

End SendChatRequest.

(** Lines 46-47 of messages.go and 54-55 of chat.go: the formatted
    request as the handlers pass it on. *)
Definition outgoingData (formattedData : gomap) (chatID messageID : string) : gomap :=
  <["id" := VStr messageID]> (<["chat_id" := VStr chatID]> formattedData).

(** [services.ExtractTextFromMessages]: lines 229-256 of part_004. *)
Definition textsOf (msg : gomap) : list string :=
  match msg !! "content" with
  | Some (VStr contentStr) => [contentStr]
  | Some (VList contentArr) =>
      flat_map
        (fun item =>
           match asMap (Some item) with
           | Some itemMap =>
               if isStr (itemMap !! "type") "text" then
                 match asString (itemMap !! "text") with
                 | Some text => [text]
                 | None => []
                 end
               else []
           | None => []
           end) contentArr
  | _ => []
  end.

Definition ExtractTextFromMessages (messages : list gomap) : string :=
  let texts := foldl (fun texts msg => texts ++ textsOf msg) [] messages in
  strings.Join texts "".

(** The contents of the messages of a list that are texts. *)
Definition textContents (messages : list gomap) : list string :=
  flat_map
    (fun msg => match msg !! "content" with Some (VStr s) => [s] | _ => [] end)
    messages.

(** The texts of the user messages of a canonical list whose content is
    a text. *)
Definition userTexts (messages : list gomap) : list string :=
  flat_map
    (fun msg =>
       if isStr (msg !! "role") "user" then
         match msg !! "content" with
         | Some (VStr content) => [content]
         | _ => []
         end
       else []) messages.

(** A digit of [hex.EncodeToString]. *)
Definition isHexDigit (a : ascii) : bool :=
  let n := N_of_ascii a in
  ((48 <=? n)%N && (n <=? 57)%N) || ((97 <=? n)%N && (n <=? 102)%N).

(** The range of an [int64]. *)
Definition int64 (t : Z) : Prop :=
  (-9223372036854775808 <= t < 9223372036854775808)%Z.

End send.

(** ** Vocabulary of the statements on the handlers *)

Module answers.
Import handlers.

(** An upstream event with the done flag set. *)
Definition doneEvent (phase delta edit : string) : ZaiResponse :=
  {| Data := Some {| Phase := phase; DeltaContent := delta;
                     EditContent := edit; Done := true |} |}.


(** Lines 320-325 of messages.go: the [tool_use] block of the
    non-streamed answer. *)
Definition toolUseBlockOf (toolJSON : gomap) : gomap :=
  <["input" := index toolJSON "input"]>
    (<["name" := index toolJSON "name"]>
       (<["id" := index toolJSON "id"]> {["type" := VStr "tool_use"]})).

(** The events that end a streamed answer: lines 245-272. *)
Definition closing (tool : option gomap) (Marshal : value -> string)
  (output_tokens : nat) : list sse :=
  match tool with
  | Some toolJSON =>
      toolUseEvents Marshal toolJSON
      ++ [MessageDelta "tool_use" output_tokens; MessageStop]
  | None => [ContentBlockStop 0; MessageDelta "end_turn" output_tokens; MessageStop]
  end.

End answers.

(** ** [handlers.ChatCompletions]: the loops of chat.go *)

Module chat.
Import response.

(** What the streaming loop has written, and its variables. *)
Record stream : Type := {
  phaseBak : string;
  completionParts : list string;
  deltas : list gomap
}.

(** The answer that is not streamed: the final message and the
    completion tokens of the usage, if it was asked for. *)
Record completion : Type := {
  message : gomap;
  completion_tokens : option nat
}.

Section Loops.
Variable thinkMode : string.
Variable CountTokens : string -> nat.

(** Lines 112-117 and 199-204: the texts of a delta are appended. *)
Definition appendText (parts : list string) (v : option value) : list string :=
  match asString v with
  | Some text => parts ++ [text]
  | None => parts
  end.

(** Lines 103-140: the streaming loop; each delta is written as the
    delta of one chunk. *)
Fixpoint streamLoop (includeUsage : bool) (events : list ZaiResponse) (st : stream)
  : stream :=
  match events with
  | [] => st
  | zaiResp :: rest =>
      let '(delta, pb) := FormatResponse thinkMode (phaseBak st) (Some zaiResp) "OpenAI" in
      match delta with
      | None =>
          streamLoop includeUsage rest
            {| phaseBak := pb; completionParts := completionParts st;
               deltas := deltas st |}
      | Some delta =>
          let completionParts :=
            if includeUsage then
              appendText (appendText (completionParts st) (delta !! "content"))
                (delta !! "reasoning_content")
            else completionParts st in
          streamLoop includeUsage rest
            {| phaseBak := pb; completionParts := completionParts;
               deltas := deltas st ++ [delta] |}
      end
  end.

(** Lines 101-183: the deltas of the chunks before the finish chunk, and
    the completion tokens of the usage chunk. *)
Definition streamResponse (includeUsage : bool) (pb : string)
  (events : list ZaiResponse) : list gomap * option nat * string :=
  let st := streamLoop includeUsage events
              {| phaseBak := pb; completionParts := []; deltas := [] |} in
  (deltas st,
   if includeUsage
   then Some (CountTokens (strings.Join (completionParts st) ""))
   else None,
   phaseBak st).

(** Lines 193-205: the loop of the answer that is not streamed. *)
Fixpoint collect (events : list ZaiResponse) (pb : string)
  (contentParts reasoningParts : list string)
  : list string * list string * string :=
  match events with
  | [] => (contentParts, reasoningParts, pb)
  | zaiResp :: rest =>
      if handlers.isDone zaiResp then (contentParts, reasoningParts, pb)
      else
        let '(delta, pb) := FormatResponse thinkMode pb (Some zaiResp) "OpenAI" in
        match delta with
        | None => collect rest pb contentParts reasoningParts
        | Some delta =>
            collect rest pb
              (appendText contentParts (delta !! "content"))
              (appendText reasoningParts (delta !! "reasoning_content"))
        end
  end.

(** Lines 207-221: the final message and the completion text. *)
Definition finalMessage (contentParts reasoningParts : list string)
  : gomap * string :=
  let finalMessage : gomap := {["role" := VStr "assistant"]} in
  let completionStr := "" in
  let '(finalMessage, completionStr) :=
    if Nat.ltb 0 (length reasoningParts) then
      let reasoningText := strings.Join reasoningParts "" in
      (<["reasoning_content" := VStr reasoningText]> finalMessage,
       completionStr +:+ reasoningText)
    else (finalMessage, completionStr) in
  if Nat.ltb 0 (length contentParts) then
    let contentText := strings.Join contentParts "" in
    (<["content" := VStr contentText]> finalMessage, completionStr +:+ contentText)
  else (finalMessage, completionStr).

(** Lines 189-246: the answer that is not streamed. *)
Definition chatResponse (includeUsage : bool) (pb : string)
  (events : list ZaiResponse) : completion * string :=
  let '(contentParts, reasoningParts, pb) := collect events pb [] [] in
  let '(finalMessage, completionStr) := finalMessage contentParts reasoningParts in
  ({| message := finalMessage;
      completion_tokens :=
        if includeUsage then Some (CountTokens completionStr) else None |}, pb).

End Loops.

(** An event with its done flag cleared. *)
Definition undone (zaiResp : ZaiResponse) : ZaiResponse :=
  {| Data :=
       match Data zaiResp with
       | Some d =>
           Some {| Phase := Phase d; DeltaContent := DeltaContent d;
                   EditContent := EditContent d; Done := false |}
       | None => None
       end |}.

End chat.

(** ** Package [config]: the configuration read from the environment

    [os.Getenv] is a map from names to values that reads as the empty
    string where a name is not set; the map is the environment after
    [godotenv.Load]. *)

Module config.
Import crypto.

Record SourceConfig : Type := { Protocol : string; Host : string; Token : string }.

Record APIConfig : Type := {
  Port : Z;
  Debug : bool;
  DebugMsg : bool;
  Think : string;
  Anonymous : bool
}.

Record ModelConfig : Type := { Default : string; Mapping : gmap string string }.

Record Config : Type := {
  Source : SourceConfig;
  API : APIConfig;
  Model : ModelConfig;
  Headers : gmap string string
}.

Section Env.
Variable env : gmap string string.

Definition Getenv (key : string) : string :=
  match env !! key with Some value => value | None => "" end.

Definition getEnv (key defaultValue : string) : string :=
  let value := Getenv key in
  if negb (value =? "") then value else defaultValue.

(** [strconv.Atoi] is [ParseInt] in base 10 at the size of an [int],
    64 bits. *)
Definition getEnvInt (key : string) (defaultValue : Z) : Z :=
  let value := Getenv key in
  if negb (value =? "") then
    match ParseInt value with
    | Some intValue => intValue
    | None => defaultValue
    end
  else defaultValue.

Definition getEnvBool (key : string) (defaultValue : bool) : bool :=
  let value := Getenv key in
  if negb (value =? "") then strings.ToLower value =? "true" else defaultValue.

Definition initHeaders (c : Config) : Config :=
  {| Source := Source c; API := API c; Model := Model c;
     Headers :=
       <["Accept" := "*/*"]>
       (<["Accept-Language" := "en-US"]>
       (<["Cache-Control" := "no-cache"]>
       (<["Connection" := "keep-alive"]>
       (<["Pragma" := "no-cache"]>
       (<["Sec-Ch-Ua" := gostr "'Microsoft Edge';v='141', 'Not?A_Brand';v='8'"]>
       (<["Sec-Ch-Ua-Mobile" := "?0"]>
       (<["Sec-Ch-Ua-Platform" := "Linux"]>
       (<["Sec-Fetch-Dest" := "empty"]>
       (<["Sec-Fetch-Mode" := "cors"]>
       (<["Sec-Fetch-Site" := "same-origin"]>
       (<["User-Agent" := "Mozilla/5.0 (X11; Linux x86_64) AppleWebKit/537.36 (KHTML, like Gecko) Chrome/141.0.0.0 Safari/537.36 Edg/141.0.0.0"]>
       (<["X-FE-Version" := "prod-fe-1.0.117"]>
       (<["Origin" := Protocol (Source c) +:+ "//" +:+ Host (Source c)]>
       {["Referer" := Protocol (Source c) +:+ "//" +:+ Host (Source c) +:+ "/"]})))))))))))))
  |}.

Definition withThink (a : APIConfig) (think : string) : APIConfig :=
  {| Port := Port a; Debug := Debug a; DebugMsg := DebugMsg a;
     Think := think; Anonymous := Anonymous a |}.

Definition withPort (a : APIConfig) (port : Z) : APIConfig :=
  {| Port := port; Debug := Debug a; DebugMsg := DebugMsg a;
     Think := Think a; Anonymous := Anonymous a |}.

Definition withAPI (c : Config) (a : APIConfig) : Config :=
  {| Source := Source c; API := a; Model := Model c; Headers := Headers c |}.

Definition validate (c : Config) : Config :=
  let validThinkModes := ["reasoning"; "think"; "strip"; "details"] in
  let valid := existsb (fun mode => Think (API c) =? mode) validThinkModes in
  let c := if negb valid then withAPI c (withThink (API c) "reasoning") else c in
  if (Port (API c) <? 1)%Z || (65535 <? Port (API c))%Z
  then withAPI c (withPort (API c) 8080)
  else c.

Definition loadConfig : Config :=
  let c :=
    {| Source := {| Protocol := "https:"; Host := "chat.z.ai";
                    Token := strings.TrimSpace (getEnv "TOKEN" "") |};
       API := {| Port := getEnvInt "PORT" 8080;
                 Debug := getEnvBool "DEBUG" false;
                 DebugMsg := getEnvBool "DEBUG_MSG" false;
                 Think := getEnv "THINK_TAGS_MODE" "reasoning";
                 Anonymous := false |};
       Model := {| Default := getEnv "MODEL" "glm-4.6"; Mapping := ∅ |};
       Headers := ∅ |} in
  let c :=
    withAPI c
      {| Port := Port (API c); Debug := Debug (API c); DebugMsg := DebugMsg (API c);
         Think := Think (API c); Anonymous := Token (Source c) =? "" |} in
  let c := initHeaders c in
  validate c.

End Env.

End config.

(** ** [services.UserService.GetUser]: the user and its cache

    The clock is read twice, for the age of the cached entry and for the
    time of a new one; the exchange with the upstream is its outcome, an
    error text or the decoded object.  Times are in nanoseconds. *)

Module user.

Record UserInfo : Type := { ID : string; Name : string; Token : string }.

Record CachedUser : Type := { Info : UserInfo; CachedAt : Z }.

Definition getStringFromMap (m : gomap) (key : string) : string :=
  match m !! key with
  | Some (VStr s) => s
  | _ => ""
  end.

Definition minute : Z := 60 * 1000000000.

Section GetUser.
Variable cfgAnonymous : bool.
Variable cfgToken : string.

(** Lines 71-137: the user is fetched. *)
Definition fetchUser (currentToken : string) (fetched : string + gomap) (now : Z)
  (cache : gmap string CachedUser) : (UserInfo + string) * gmap string CachedUser :=
  match fetched with
  | inl err => (inr err, cache)
  | inr result =>
      let userName := getStringFromMap result "name" in
      let userID := getStringFromMap result "id" in
      let userToken := getStringFromMap result "token" in
      let userToken := if negb cfgAnonymous then currentToken else userToken in
      let userInfo := {| ID := userID; Name := userName; Token := userToken |} in
      let cache :=
        if negb (userToken =? "") && negb (userID =? "") then
          <[userToken := {| Info := {| ID := userID; Name := userName; Token := "" |};
                            CachedAt := now |}]> cache
        else cache in
      (inl userInfo, cache)
  end.

Definition GetUser (clock : Z) (fetched : string + gomap) (now : Z)
  (cache : gmap string CachedUser) : (UserInfo + string) * gmap string CachedUser :=
  let currentToken := if cfgAnonymous then "" else cfgToken in
  if negb (currentToken =? "") then
    match cache !! currentToken with
    | Some cached =>
        if (clock - CachedAt cached <? 30 * minute)%Z then
          (inl {| ID := ID (Info cached); Name := Name (Info cached);
                  Token := currentToken |}, cache)
        else fetchUser currentToken fetched now cache
    | None => fetchUser currentToken fetched now cache
    end
  else fetchUser currentToken fetched now cache.

End GetUser.

End user.

(** ** Further data to run the definitions on *)

Module examples.
Import request scenario.

(** Two uploads: one that stores whatever it is given, one that refuses
    an address that is not a data address. *)
Definition hosted (dataURL chatID : string) : string * option string :=
  ("https://files/" +:+ chatID, None).

Definition picky (dataURL chatID : string) : string * option string :=
  if strings.HasPrefix dataURL "data:"
  then ("https://files/" +:+ chatID, None)
  else ("", Some "not a data address").

(** A request with an image that is given by its address. *)
Definition linkRequest : gomap :=
  {["messages" :=
      VList [VMap (messageOf "user"
                     (VList [VMap (<["image_url" :=
                                       VMap {["url" := VStr "https://x/y.png"]}]>
                                     {["type" := VStr "image_url"]})]))]]}.

(** An answer event with a plain text. *)
Definition helloData : ZaiResponseData :=
  {| Phase := "answer"; DeltaContent := "Hello"; EditContent := ""; Done := false |}.

Definition helloEvent : ZaiResponse := {| Data := Some helloData |}.

(** A thinking event. *)
Definition thinkingData : ZaiResponseData :=
  {| Phase := "thinking"; DeltaContent := "hm"; EditContent := ""; Done := false |}.

(** The decoded answer of the upstream to the fetch of a user. *)
Definition ann : gomap := <["name" := VStr "Ann"]> {["id" := VStr "u1"]}.

End examples.

(** * Proofs *)

(** An equation between closed terms, settled by evaluating both sides. *)
Ltac vm_refl :=
  lazymatch goal with |- @eq ?T _ ?b => vm_cast_no_check (@eq_refl T b) end.

(** * The library models on known values *)

Section KnownValues.
Import crypto regexp.

(** FIPS 180-4, the one-block and the two-block message. *)
Example sum256_abc :
  hexEncode (sum256 (bytesOf "abc"))
  = "ba7816bf8f01cfea414140de5dae2223b00361a396177a9cb410ff61f20015ad".
Proof. vm_refl. Qed.

Example sum256_two_blocks :
  hexEncode (sum256 (bytesOf "abcdbcdecdefdefgefghfghighijhijkijkljklmklmnlmnomnopnopq"))
  = "248d6a61d20638b8e5c026930c3e6039a33ce45964ff2167f6ecedd419db06c1".
Proof. vm_refl. Qed.

(** RFC 4231, test case 2. *)
Example hmac_rfc4231 :
  signature.hmacSHA256 "Jefe" "what do ya want for nothing?"
  = "5bdcc146bf60754e6a042426089575c75a003f089d2739839dec58b964ec3843".
Proof. vm_refl. Qed.

(** RFC 4648, section 10. *)
Example b64_rfc4648 :
  map (fun s => b64Encode (bytesOf s)) ["f"; "fo"; "foo"; "foob"; "fooba"; "foobar"]
  = ["Zg=="; "Zm8="; "Zm9v"; "Zm9vYg=="; "Zm9vYmE="; "Zm9vYmFy"].
Proof. vm_refl. Qed.

Example ParseInt_cases :
  map ParseInt ["1700000000000"; "-1"; "+5"; "007"; ""; "-"; "12a"; "1_0";
                "9223372036854775807"; "9223372036854775808";
                "-9223372036854775808"; "-9223372036854775809"]
  = [Some 1700000000000; Some (-1); Some 5; Some 7; None; None; None; None;
     Some 9223372036854775807; None; Some (-9223372036854775808); None]%Z.
Proof. vm_refl. Qed.

Example FormatInt_cases :
  map FormatInt [0; 5666666; -1; 1700000000000]%Z
  = ["0"; "5666666"; "-1"; "1700000000000"].
Proof. vm_refl. Qed.

(** The leftmost match, lazily and greedily. *)
Example lazy_then_greedy :
  FindStringSubmatch response.reSplit "ab</reasoning>cd</reasoning>e"
  = ["ab</reasoning>cd</reasoning>e"; "ab</reasoning>"; "cd</reasoning>e"].
Proof. vm_refl. Qed.

Example duration_group :
  FindStringSubmatch response.reDuration (gostr "done='true' duration='17' x")
  = [gostr "duration='17'"; "17"].
Proof. vm_refl. Qed.

Example replace_all_matches :
  ReplaceAllString response.reQuote (gostr "\n> a\n>b\n>  c") (gostr "\n")
  = gostr "\na\nb\n c".
Proof. vm_refl. Qed.

Example expand_template :
  expand "a$1b${0}c$$d$x${1}" ["W"; "G"] = "aWc$dG".
Proof. vm_refl. Qed.

Example TrimSpace_cases :
  map strings.TrimSpace [gostr " \n a b \t\n"; gostr "\n\t "; ""; "x"]
  = ["a b"; ""; ""; "x"].
Proof. vm_refl. Qed.

Example json_values :
  json.parse (gostr " [1, -2.5e+3, true, null, 'a\\n\\u0041\\'', {}, []] ")
  = Some (VList [VNum "1"; VNum "-2.5e+3"; VBool true; VNil;
                 VStr (gostr "a\nA'"); VMap ∅; VList []]).
Proof. vm_refl. Qed.

Example json_rejects :
  map json.parse [gostr "{'a':1"; gostr "[1,]"; "01"; gostr "{'a':1} x"; ""]
  = [None; None; None; None; None].
Proof. vm_refl. Qed.

End KnownValues.

(** * Facts about the string functions *)

Lemma length_app (a b : string) :
  String.length (a +:+ b) = String.length a + String.length b.
Proof. induction a as [|c a IH]; simpl; [done | by rewrite IH]. Qed.

Lemma app_assoc_string (a b c : string) : (a +:+ b) +:+ c = a +:+ b +:+ c.
Proof. induction a as [|x a IH]; simpl; [done | by rewrite IH]. Qed.

Lemma HasPrefix_split (s p : string) :
  strings.HasPrefix s p = true ->
  s = p +:+ strings.drop (String.length p) s.
Proof.
  revert s. induction p as [|b p IH]; intros s; simpl; [done|].
  destruct s as [|a s]; simpl; [discriminate|].
  destruct (Ascii.eqb a b) eqn:E; [|discriminate].
  apply Ascii.eqb_eq in E as ->. intros H. simpl. f_equal. by apply IH.
Qed.

Lemma Cut_split (s sep before after : string) :
  strings.Cut s sep = Some (before, after) -> s = before +:+ sep +:+ after.
Proof.
  revert before. induction s as [|a s IH]; intros before; cbn [strings.Cut].
  - destruct (strings.HasPrefix "" sep) eqn:E; [|discriminate].
    intros [= <- <-]. by apply HasPrefix_split.
  - destruct (strings.HasPrefix (String a s) sep) eqn:E.
    + intros [= <- <-]. by apply HasPrefix_split.
    + destruct (strings.Cut s sep) as [[b1 a1]|] eqn:C; [|discriminate].
      intros [= <- <-]. simpl. f_equal. by apply IH.
Qed.

Lemma substring_all (a : string) : substring 0 (String.length a) a = a.
Proof. induction a as [|c a IH]; simpl; [done | by rewrite IH]. Qed.

Lemma substring_prefix (a b : string) :
  substring 0 (String.length a) (a +:+ b) = a.
Proof.
  induction a as [|c a IH]; simpl.
  - by destruct b.
  - by rewrite IH.
Qed.

Lemma substring_suffix (a b : string) :
  substring (String.length a) (String.length b) (a +:+ b) = b.
Proof. induction a as [|c a IH]; simpl; [apply substring_all | done]. Qed.

Lemma Contains_nonempty (s sub : string) :
  strings.Contains s sub = true -> sub <> "" -> s <> "".
Proof. intros H Hs ->. destruct sub; [done | discriminate]. Qed.

Lemma eqb_false_of_ne (a b : string) : a <> b -> (a =? b) = false.
Proof. by intros; apply String.eqb_neq. Qed.

(** * The split pattern finds the first reasoning close *)

Ltac same_offsets := repeat first [reflexivity | lia | f_equal].

Section SplitPattern.
Import regexp response scenario.

Lemma greedy_any_to_end (k : nat -> string -> outcome) (t : string) (p : nat) r :
  k (p + String.length t) "" = Some r -> greedy CAny k p t = Some r.
Proof.
  revert p. induction t as [|a t IH]; intros p; simpl.
  - by rewrite Nat.add_0_r.
  - intros H. rewrite IH; [done|]. rewrite <- H. f_equal. lia.
Qed.

Lemma tailK_spec (pos : nat) (s : string) :
  tailK pos s =
  if strings.HasPrefix s close
  then Some (pos + String.length s,
             [(0, pos + 12); (pos + 12, pos + String.length s)])
  else None.
Proof.
  unfold tailK. cbn [run]. destruct (strings.HasPrefix s close) eqn:E; [|done].
  apply HasPrefix_split in E.
  remember (strings.drop (String.length close) s) as d eqn:Hd. clear Hd.
  erewrite greedy_any_to_end; [|reflexivity].
  subst s. rewrite length_app. change (String.length close) with 12.
  simpl app. same_offsets.
Qed.

Lemma lazy_split (s : string) (pos : nat) :
  lazy CAny tailK pos s =
  match strings.Cut s close with
  | Some (b, a) =>
      Some (pos + String.length s,
            [(0, pos + String.length b + 12);
             (pos + String.length b + 12, pos + String.length s)])
  | None => None
  end.
Proof.
  revert pos. induction s as [|c s IH]; intros pos.
  - reflexivity.
  - cbn [lazy strings.Cut]. rewrite tailK_spec.
    destruct (strings.HasPrefix (String c s) close) eqn:E.
    + simpl String.length. same_offsets.
    + cbn [cmatch]. rewrite IH.
      destruct (strings.Cut s close) as [[b a]|]; [|done].
      simpl String.length. same_offsets.
Qed.

Lemma search_bol_later (re : Regexp) (s : string) (pos : nat) :
  0 < pos -> search (Bol :: re) pos s = None.
Proof.
  revert pos. induction s as [|c s IH]; intros pos Hp; cbn [search run];
    destruct pos; try lia; cbn [Nat.eqb]; [done|].
  apply IH. lia.
Qed.

Lemma FindStringSubmatch_reSplit (s : string) :
  FindStringSubmatch reSplit s =
  match strings.Cut s close with
  | Some (b, a) => [s; b +:+ close; a]
  | None => []
  end.
Proof.
  unfold FindStringSubmatch.
  assert (S0 : search reSplit 0 s =
               match lazy CAny tailK 0 s with
               | Some (e, caps) => Some (0, e, caps)
               | None => None
               end).
  { change (lazy CAny tailK 0 s) with (run reSplit [] [] 0 s).
    destruct s as [|c s]; cbn [search]; [done|].
    destruct (run reSplit [] [] 0 (String c s)) as [[e caps]|]; [done|].
    apply search_bol_later. lia. }
  rewrite S0, lazy_split.
  destruct (strings.Cut s close) as [[b a]|] eqn:C; [|done].
  apply Cut_split in C. unfold submatches, slice. cbn [map fst snd].
  rewrite !Nat.add_0_l, !Nat.sub_0_r.
  f_equal; [apply substring_all|].
  assert (Lb : String.length b + 12 = String.length (b +:+ close))
    by (by rewrite length_app).
  assert (C' : s = (b +:+ close) +:+ a) by (by rewrite app_assoc_string).
  assert (L : String.length s = String.length (b +:+ close) + String.length a)
    by (rewrite C' at 1; apply length_app).
  f_equal.
  - rewrite Lb. rewrite C' at 1. apply substring_prefix.
  - f_equal. rewrite Lb, L.
    replace (String.length (b +:+ close) + String.length a
             - String.length (b +:+ close)) with (String.length a) by lia.
    rewrite C' at 1. apply substring_suffix.
Qed.

End SplitPattern.

(** * The phase transformer *)

Section PhaseTransformer.
Import regexp response scenario.

Lemma FormatResponse_answer thinkMode phaseBak responseType d content :
  answerEvent d content ->
  strings.Contains content "summary>" = true ->
  FormatResponse thinkMode phaseBak (Some {| Data := Some d |}) responseType
  = (selectOutput thinkMode "answer"
       (applyThinkMode thinkMode "answer"
          (answerClose phaseBak "answer" (toReasoningTags "answer" content)))
       responseType, "answer").
Proof.
  intros [Hp Hc] Hs. unfold FormatResponse. rewrite Hp, <- Hc.
  cbn [String.eqb Ascii.eqb Bool.eqb].
  rewrite (eqb_false_of_ne content "") by (eapply Contains_nonempty; [done..]).
  unfold toolCallPhase. cbn [String.eqb Ascii.eqb Bool.eqb andb].
  unfold rewriteReasoning. rewrite Hs. reflexivity.
Qed.

(** What the answer rewrite leaves of a text with a reasoning close. *)
Lemma answerClose_cases phaseBak normal before after :
  strings.Cut normal close = Some (before, after) ->
  let rewritten := answerClose phaseBak "answer" normal in
  (strings.TrimSpace after <> "" -> phaseBak = "thinking" ->
   rewritten = gostr "\n\n</reasoning>\n\n" +:+ strings.TrimLeft after (gostr "\n"))
  /\ (strings.TrimSpace after <> "" -> phaseBak = "answer" -> rewritten = "")
  /\ (strings.TrimSpace after = "" -> rewritten = gostr "\n\n</reasoning>").
Proof.
  intros Hcut rewritten. subst rewritten.
  unfold answerClose. cbn [String.eqb Ascii.eqb Bool.eqb].
  rewrite FindStringSubmatch_reSplit, Hcut.
  repeat split.
  - intros Hne ->. by rewrite (eqb_false_of_ne _ _ Hne).
  - intros Hne ->. by rewrite (eqb_false_of_ne _ _ Hne).
  - intros ->. reflexivity.
Qed.

(** C1, as amended: for every think mode, an answer event whose text
    contains the summary marker and whose reasoning-tag form has a
    reasoning close is rewritten, before the mode-specific rewrite, to
    - a blank line, the close marker, a blank line and the text after the
      marker without its leading line feeds, when that text is not all
      white space and the previous phase is thinking;
    - the empty string, when that text is not all white space and the
      previous phase is answer;
    - a blank line and the close marker, when only white space follows. *)
Theorem answer_close_rewrite thinkMode phaseBak responseType d content before after :
  answerEvent d content ->
  strings.Contains content "summary>" = true ->
  strings.Cut (toReasoningTags "answer" content) close = Some (before, after) ->
  let rewritten := answerClose phaseBak "answer" (toReasoningTags "answer" content) in
  FormatResponse thinkMode phaseBak (Some {| Data := Some d |}) responseType
  = (selectOutput thinkMode "answer"
       (applyThinkMode thinkMode "answer" rewritten) responseType, "answer")
  /\ (strings.TrimSpace after <> "" -> phaseBak = "thinking" ->
      rewritten = gostr "\n\n</reasoning>\n\n" +:+ strings.TrimLeft after (gostr "\n"))
  /\ (strings.TrimSpace after <> "" -> phaseBak = "answer" -> rewritten = "")
  /\ (strings.TrimSpace after = "" -> rewritten = gostr "\n\n</reasoning>").
Proof.
  intros Hev Hs Hcut rewritten. split; [by apply FormatResponse_answer|].
  by apply (answerClose_cases phaseBak _ before after).
Qed.

(** The event [pauseEnd] after a thinking phase, in think mode: the
    close tag, a blank line, the answer text. *)
Lemma answer_close_rewrite_witness :
  FormatResponse "think" "thinking" (Some {| Data := Some pauseEnd |}) "OpenAI"
  = (Some (textDelta "OpenAI" (gostr "\n\n</think>\n\nHello")), "answer").
Proof.
  destruct (answer_close_rewrite "think" "thinking" "OpenAI" pauseEnd
              (EditContent pauseEnd)
              (gostr "true' duration='1'>\n<summary>Thought for 1 seconds</summary>\n> hm\n\n")
              (gostr "\nHello")) as (HF & H1 & _ & _).
  - split; vm_compute; reflexivity.
  - vm_compute; reflexivity.
  - vm_compute; reflexivity.
  - rewrite HF, H1; [vm_refl | vm_compute; discriminate | reflexivity].
Defined.

(** C1 as stated fails: with [pauseEnd] after a thinking phase the text
    after the close marker is a line feed and Hello, and the rewritten
    content is not the marker followed immediately by that text, whether
    the marker is taken bare, with the blank line before it, or with the
    blank lines around it. *)
Lemma answer_close_not_immediate :
  let normal := toReasoningTags "answer" (EditContent pauseEnd) in
  let rewritten := answerClose "thinking" "answer" normal in
  answerEvent pauseEnd (EditContent pauseEnd)
  /\ strings.Contains (EditContent pauseEnd) "summary>" = true
  /\ (exists before, strings.Cut normal close = Some (before, gostr "\nHello"))
  /\ strings.TrimSpace (gostr "\nHello") <> ""
  /\ rewritten = gostr "\n\n</reasoning>\n\nHello"
  /\ rewritten <> close +:+ gostr "\nHello"
  /\ rewritten <> gostr "\n\n</reasoning>" +:+ gostr "\nHello"
  /\ rewritten <> gostr "\n\n</reasoning>\n\n" +:+ gostr "\nHello".
Proof.
  intros normal rewritten. subst normal rewritten.
  split; [split; vm_compute; reflexivity|].
  split; [vm_compute; reflexivity|].
  split; [eexists; vm_compute; reflexivity|].
  split; [vm_compute; discriminate|].
  split; [vm_compute; reflexivity|].
  split; [vm_compute; discriminate|].
  split; vm_compute; discriminate.
Qed.

(** C2: in details mode, after a thinking phase, the answer event with a
    duration of 7 before the close and nothing after it comes out as a
    blank line and the bare closing tags, with no summary trailer,
    whether or not the event carries a summary block (without the
    summary marker the event is not rewritten at all). *)
Theorem details_close_drops_trailer :
  (forall responseType,
     FormatResponse "details" "thinking" (event "answer" "" closeOnly) responseType
     = (Some (textDelta responseType (gostr "\n\n</div></details>")), "answer"))
  /\ (forall responseType,
     FormatResponse "details" "thinking" (event "answer" "" closeOnlyBare) responseType
     = (Some (textDelta responseType closeOnlyBare), "answer")).
Proof.
  split; intros responseType; unfold textDelta, FormatResponse, event, selectOutput;
    destruct (responseType =? "Anthropic"); vm_refl.
Qed.

(** In details mode an answer event that closes the reasoning with only
    white space after the close never carries a trailer. *)
Lemma details_close_never_has_trailer phaseBak responseType d content before after :
  answerEvent d content ->
  strings.Contains content "summary>" = true ->
  strings.Cut (toReasoningTags "answer" content) close = Some (before, after) ->
  strings.TrimSpace after = "" ->
  FormatResponse "details" phaseBak (Some {| Data := Some d |}) responseType
  = (Some (textDelta responseType (gostr "\n\n</div></details>")), "answer").
Proof.
  intros Hev Hs Hcut Hws.
  rewrite (FormatResponse_answer _ _ _ _ _ Hev Hs).
  destruct (answerClose_cases phaseBak _ before after Hcut) as (_ & _ & H).
  rewrite (H Hws).
  unfold textDelta, selectOutput. destruct (responseType =? "Anthropic"); vm_refl.
Qed.

(** C3, as amended: in reasoning mode the thinking delta that starts with
    the blockquote marker is emitted as reasoning text with the marker
    still in it; the marker is stripped where it follows a line feed. *)
Theorem reasoning_quote_needs_newline phaseBak responseType :
  FormatResponse "reasoning" phaseBak (event "thinking" (gostr "> hello\n") "") responseType
  = (Some (reasoningDelta responseType (gostr "> hello\n")), "thinking")
  /\
  FormatResponse "reasoning" phaseBak (event "thinking" (gostr "\n> hello\n") "") responseType
  = (Some (reasoningDelta responseType (gostr "\nhello\n")), "thinking").
Proof.
  unfold reasoningDelta.
  split; unfold FormatResponse, event, selectOutput;
    destruct (responseType =? "Anthropic"); vm_refl.
Qed.

(** C3 as stated fails: the output is not the reasoning text hello. *)
Lemma reasoning_quote_kept_at_start :
  FormatResponse "reasoning" phaseBak0 (event "thinking" (gostr "> hello\n") "") "OpenAI"
  <> (Some (reasoningDelta "OpenAI" (gostr "hello\n")), "thinking")
  /\
  FormatResponse "reasoning" phaseBak0 (event "thinking" (gostr "> hello\n") "") "Anthropic"
  <> (Some (reasoningDelta "Anthropic" (gostr "hello\n")), "thinking").
Proof.
  split; intros H;
    apply (f_equal (fun r => match fst r with
                             | Some m => Some (map_to_list m)
                             | None => None
                             end)) in H;
    vm_compute in H; discriminate H.
Qed.

(** C9: an event whose delta and edit text are both empty returns nil
    and leaves the previous phase as it was, whatever the phase, the
    think mode and the response type. *)
Theorem empty_event_keeps_phase thinkMode phaseBak phase done responseType :
  FormatResponse thinkMode phaseBak
    (Some {| Data := Some {| Phase := phase; DeltaContent := "";
                             EditContent := ""; Done := done |} |})
    responseType
  = (None, phaseBak).
Proof. reflexivity. Qed.

(** Hence only an event with text can change the previous phase. *)
Lemma phase_change_needs_content thinkMode phaseBak data responseType :
  snd (FormatResponse thinkMode phaseBak data responseType) <> phaseBak ->
  exists d, data = Some {| Data := Some d |}
            /\ (DeltaContent d <> "" \/ EditContent d <> "").
Proof.
  destruct data as [[[d|]]|]; cbn; try done.
  intros H. exists d. split; [done|].
  destruct (DeltaContent d =? "") eqn:E1.
  - destruct (EditContent d =? "") eqn:E2; [done|].
    right. by apply String.eqb_neq.
  - left. by apply String.eqb_neq.
Qed.

End PhaseTransformer.

(** * The tool-call reconstruction *)

Section ToolCall.
Import response handlers scenario.

(** C4: the first fragment alone is not JSON and nothing is emitted; with
    the second fragment the text parses and the one tool call with id 1,
    name x and input a = 1 is emitted; both loops of the handler end
    there, so whatever events follow produce nothing more. *)
Theorem tool_call_reconstructed_once :
  reconstruct [] fragment1 = ([fragment1], None)
  /\ reconstruct [fragment1] fragment2 = ([fragment1; fragment2], Some invocation)
  /\ (forall thinkMode Marshal pb,
        streamLoop thinkMode Marshal [toolCallEvent fragment1] (start pb)
        = {| phaseBak := "tool_call"; textParts := [];
             toolCallParts := [fragment1]; hasToolCall := false; written := [] |})
  /\ (forall thinkMode Marshal pb rest,
        streamLoop thinkMode Marshal
          (toolCallEvent fragment1 :: toolCallEvent fragment2 :: rest) (start pb)
        = {| phaseBak := "tool_call"; textParts := [];
             toolCallParts := [fragment1; fragment2]; hasToolCall := true;
             written := invocationEvents Marshal |})
  /\ (forall thinkMode CountTokens pb,
        messageResponse thinkMode CountTokens pb [toolCallEvent fragment1]
        = ({| content := []; stop_reason := "end_turn";
              output_tokens := CountTokens "" |}, "tool_call"))
  /\ (forall thinkMode CountTokens pb rest,
        messageResponse thinkMode CountTokens pb
          (toolCallEvent fragment1 :: toolCallEvent fragment2 :: rest)
        = ({| content := [toolUseBlock]; stop_reason := "tool_use";
              output_tokens := CountTokens "" |}, "tool_call")).
Proof.
  split; [vm_refl|]. split; [vm_refl|].
  split; [intros; vm_refl|]. split; [intros; vm_refl|].
  split; intros; vm_refl.
Qed.

(** The streamed answer names the tool call as its stop reason, once. *)
Lemma streamResponse_two_fragments thinkMode Marshal CountTokens pb rest :
  written (streamResponse thinkMode Marshal CountTokens pb
             (toolCallEvent fragment1 :: toolCallEvent fragment2 :: rest))
  = invocationEvents Marshal ++ [MessageDelta "tool_use" (CountTokens ""); MessageStop].
Proof. vm_refl. Qed.

End ToolCall.

(** * The request normalizer *)

Section Normalizer.
Import request scenario.

Variable cfgModelDefault : string.
Variable cfgAnonymous : bool.
Variable upload : string -> string -> string * option string.
Variable Marshal : value -> option string.
Variable models : option (list Model).

Local Abbreviation Format :=
  (FormatRequest cfgModelDefault cfgAnonymous upload Marshal models).
Local Abbreviation canonical := (canonicalMessages cfgAnonymous upload Marshal).
Local Abbreviation step := (message cfgAnonymous upload Marshal).

Lemma withFeatures_lookup (model key : string) (result : gomap) :
  key <> "features" -> key <> "enable_thinking" -> key <> "thinking" ->
  withFeatures models model result !! key = result !! key.
Proof.
  intros H1 H2 H3. unfold withFeatures.
  destruct (result !! "enable_thinking") as [e|] eqn:E1.
  - destruct (asMap (delete "enable_thinking" result !! "thinking")) as [t|];
      destruct (Nat.ltb 0 _); by simplify_map_eq.
  - destruct (asMap (result !! "thinking")) as [t|];
      destruct (Nat.ltb 0 _); by simplify_map_eq.
Qed.

Lemma FormatRequest_lookup (data : gomap) (requestType key : string) :
  key <> "features" -> key <> "enable_thinking" -> key <> "thinking" ->
  key <> "stream" -> key <> "messages" -> key <> "model" -> key <> "system" ->
  fst (Format data requestType) !! key = data !! key.
Proof.
  intros. unfold FormatRequest. cbn [fst].
  rewrite withFeatures_lookup by done. by simplify_map_eq.
Qed.

Lemma FormatRequest_messages (data : gomap) (requestType : string) :
  fst (Format data requestType) !! "messages" = Some (VMaps (canonical data)).
Proof.
  unfold FormatRequest. cbn [fst].
  rewrite withFeatures_lookup by done. by simplify_map_eq.
Qed.

Lemma FormatRequest_system (data : gomap) (requestType : string) :
  fst (Format data requestType) !! "system" = None.
Proof.
  unfold FormatRequest. cbn [fst].
  rewrite withFeatures_lookup by done. by simplify_map_eq.
Qed.

Lemma messagesOf_FormatRequest (data : gomap) (requestType : string) :
  messagesOf (fst (Format data requestType)) = canonical data.
Proof. unfold messagesOf. by rewrite FormatRequest_messages. Qed.

(** C6, as amended: FormatRequest returns no error for any request; the
    canonical messages are those of the elements of the message list,
    after the system message, and the system message alone when the
    request has no message list. *)
Theorem FormatRequest_never_fails (data : gomap) (requestType : string) :
  snd (Format data requestType) = None
  /\ messagesOf (fst (Format data requestType))
     = match asList (data !! "messages") with
       | Some messages =>
           foldl (step (strOr0 (data !! "chat_id"))) (systemMessage data) messages
       | None => systemMessage data
       end.
Proof. split; [reflexivity | apply messagesOf_FormatRequest]. Qed.

(** An element of the message list whose content is neither a string
    nor a list leaves the canonical messages as they were. *)
Lemma message_other_content (chatID : string) (sofar : list gomap) (m : gomap) :
  asString (m !! "content") = None -> asList (m !! "content") = None ->
  step chatID sofar (VMap m) = sofar.
Proof.
  unfold message. cbn [asMap].
  destruct (m !! "content") as [[]|]; cbn; congruence.
Qed.

(** C10: a message whose content is neither a string nor a list is left
    out of the canonical message list, no error is returned, and the
    request is formatted exactly as if the message had not been sent. *)
Theorem message_without_text_or_list_is_omitted
  (data : gomap) (requestType : string) (before after : list value) (m : gomap) :
  asList (data !! "messages") = Some (before ++ VMap m :: after) ->
  asString (m !! "content") = None ->
  asList (m !! "content") = None ->
  Format data requestType
  = Format (<["messages" := VList (before ++ after)]> data) requestType
  /\ snd (Format data requestType) = None
  /\ messagesOf (fst (Format data requestType))
     = foldl (step (strOr0 (data !! "chat_id"))) (systemMessage data) (before ++ after).
Proof.
  intros Hm Hs Hl.
  assert (Hc : canonical data
               = foldl (step (strOr0 (data !! "chat_id"))) (systemMessage data)
                   (before ++ after)).
  { unfold canonicalMessages. rewrite Hm.
    rewrite !foldl_app. cbn [foldl].
    by rewrite message_other_content. }
  assert (Hc' : canonical (<["messages" := VList (before ++ after)]> data)
                = canonical data).
  { rewrite Hc. unfold canonicalMessages, systemMessage.
    by simplify_map_eq. }
  split; [|split; [reflexivity | by rewrite messagesOf_FormatRequest]].
  unfold FormatRequest. rewrite Hc'.
  rewrite lookup_insert_ne by done.
  rewrite (delete_insert_ne data) by done.
  rewrite (insert_insert_ne _ "model" "messages") by done.
  by rewrite insert_insert_eq.
Qed.

(** The blocks of a content list that are all text blocks: each one
    replaces the text before it. *)
Lemma text_blocks_fold (role chatID : string) (texts : list string) (st : blocks) :
  foldl (block cfgAnonymous upload Marshal role chatID) st (textItem <$> texts)
  = match texts with
    | [] => st
    | _ => setContent st (VStr (List.last texts ""))
    end.
Proof.
  revert st. induction texts as [|t texts IH]; intros st; [done|].
  cbn [fmap list_fmap foldl]. rewrite IH.
  assert (Hb : block cfgAnonymous upload Marshal role chatID st (textItem t)
               = setContent st (VStr t)).
  { unfold block, textItem, textBlock, strOr0. cbn [asMap].
    by simplify_map_eq. }
  rewrite Hb. destruct texts as [|t2 texts]; [done|].
  destruct st; reflexivity.
Qed.

(** C7: of the text blocks of a content list only the last one reaches
    the canonical message; the text of the others is dropped. *)
Theorem text_blocks_last_wins (role t : string) (texts : list string)
  (requestType : string) :
  messagesOf
    (fst (Format
            {["messages" :=
                VList [VMap (messageOf role (VList (textItem <$> (t :: texts))))]]}
            requestType))
  = [messageOf role (VStr (List.last (t :: texts) ""))].
Proof.
  rewrite messagesOf_FormatRequest.
  unfold canonicalMessages, systemMessage.
  rewrite (lookup_singleton_ne "messages" "system") by done.
  rewrite lookup_singleton_eq.
  cbn [asList foldl]. unfold message, messageOf, strOr0. cbn [asMap].
  rewrite lookup_insert_eq.
  rewrite lookup_insert_ne by done. rewrite lookup_singleton_eq. cbn [asString].
  rewrite text_blocks_fold. reflexivity.
Qed.

(** A plain message of a request comes back as it is. *)
Lemma message_plain (chatID : string) (sofar : list gomap) (m : gomap) :
  plain m -> step chatID sofar (rereadMessage m) = sofar ++ [m].
Proof.
  intros (role & text & ->). unfold rereadMessage, messageOf.
  rewrite fmap_insert, map_fmap_singleton.
  unfold message, strOr0. cbn [asMap].
  rewrite lookup_insert_eq.
  rewrite lookup_insert_ne by done. by rewrite lookup_singleton_eq.
Qed.

Lemma messages_plain (chatID : string) (msgs sofar : list gomap) :
  Forall plain msgs ->
  foldl (step chatID) sofar (rereadMessage <$> msgs) = sofar ++ msgs.
Proof.
  intros H. revert sofar. induction H as [|m msgs Hm _ IH]; intros sofar.
  - by rewrite app_nil_r.
  - cbn [fmap list_fmap foldl]. rewrite message_plain by done.
    rewrite IH. by rewrite <- app_assoc.
Qed.

(** C8, as amended: when the canonical messages of a formatted request
    are plain (a role and a text, nothing else) and the formatted request
    is read back as JSON, formatting it again gives the same canonical
    messages. *)
Theorem plain_messages_idempotent (data : gomap) (requestType : string) :
  Forall plain (messagesOf (fst (Format data requestType))) ->
  messagesOf (fst (Format (reread (fst (Format data requestType))) requestType))
  = messagesOf (fst (Format data requestType)).
Proof.
  intros Hp. rewrite messagesOf_FormatRequest in Hp.
  rewrite !messagesOf_FormatRequest.
  unfold reread. rewrite FormatRequest_messages.
  unfold canonicalMessages at 1, systemMessage.
  rewrite (lookup_insert_ne _ "messages" "system") by done.
  rewrite FormatRequest_system, lookup_insert_eq. cbn [asList].
  by rewrite messages_plain.
Qed.

End Normalizer.

(** * The signature *)

Section Signature.
Import crypto signature.

Lemma app_empty_r (s : string) : s +:+ "" = s.
Proof. induction s as [|a s IH]; simpl; [done | by rewrite IH]. Qed.

Lemma paramsString_later (params : gmap string string) (keys : list string) (i : nat) :
  paramsString params (S i) keys
  = commaPairs ((fun k => (k, match params !! k with Some v => v | None => "" end))
                <$> keys).
Proof.
  revert i. induction keys as [|k keys IH]; intros i; [done|].
  cbn [paramsString fmap list_fmap commaPairs fst snd Nat.ltb Nat.leb].
  by rewrite IH.
Qed.

Lemma Join_pairs (kv : string * string) (rest : list (string * string)) :
  strings.Join (flat_map (fun kv => [fst kv; snd kv]) (kv :: rest)) ","
  = fst kv +:+ "," +:+ snd kv +:+ commaPairs rest.
Proof.
  revert kv. induction rest as [|kv2 rest IH]; intros kv.
  - cbn [flat_map app strings.Join commaPairs]. by rewrite app_empty_r.
  - change (flat_map (fun kv => [fst kv; snd kv]) (kv :: kv2 :: rest))
      with (fst kv :: snd kv :: flat_map (fun kv => [fst kv; snd kv]) (kv2 :: rest)).
    cbn [strings.Join]. rewrite IH.
    cbn [flat_map app commaPairs]. reflexivity.
Qed.

Lemma paramsString_sorted (params : gmap string string) :
  paramsString params 0 (sortedKeys params)
  = strings.Join (flat_map (fun kv => [fst kv; snd kv]) (sortedEntries params)) ",".
Proof.
  unfold sortedEntries. destruct (sortedKeys params) as [|k keys]; [done|].
  cbn [fmap list_fmap]. rewrite Join_pairs.
  cbn [paramsString Nat.ltb Nat.leb fst snd]. by rewrite paramsString_later.
Qed.

(** The order in which the keys are collected does not matter. *)
Lemma sortedKeys_any_order (params : gmap string string) (keys : list string) :
  keys ≡ₚ (fst <$> map_to_list params) ->
  merge_sort String.le keys = sortedKeys params.
Proof.
  intros Hp. unfold sortedKeys.
  apply (Sorted_unique String.le); try apply Sorted_merge_sort; try apply _.
  by rewrite !merge_sort_Permutation.
Qed.

(** What GenerateSignature returns, case by case. *)
Lemma GenerateSignature_cases (params : gmap string string) (content : string) :
  match GenerateSignature params content with
  | inl res =>
      exists ts t,
        params !! "timestamp" = Some ts /\ ParseInt ts = Some t
        /\ is_Some (params !! "requestId") /\ is_Some (params !! "user_id")
        /\ Timestamp res = t
        /\ Signature res
           = fiveSteps (Z.quot t 300000) (sortedEntries params) content t
        /\ ((0 <=? t)%Z = true -> Z.quot t 300000 = (t / 300000)%Z)
  | inr _ =>
      params !! "timestamp" = None \/ params !! "requestId" = None
      \/ params !! "user_id" = None
      \/ exists ts, params !! "timestamp" = Some ts /\ ParseInt ts = None
  end.
Proof.
  unfold GenerateSignature. cbn [firstMissing].
  destruct (params !! "timestamp") as [ts|] eqn:Ht; [|by left].
  destruct (params !! "requestId") as [rid|] eqn:Hr; [|by right; left].
  destruct (params !! "user_id") as [uid|] eqn:Hu; [|by right; right; left].
  destruct (ParseInt ts) as [t|] eqn:Hp; [|by right; right; right; exists ts].
  exists ts, t. repeat split; try done.
  - cbn [Signature]. unfold fiveSteps, hmacSHA256.
    by rewrite paramsString_sorted.
  - intros H. apply Z.quot_div_nonneg; lia.
Qed.

(** A map that holds the three required entries and no other. *)
Lemma three_entries (rid ts uid : string) :
  sortedEntries (<["timestamp" := ts]> (<["requestId" := rid]> {["user_id" := uid]}))
  = [("requestId", rid); ("timestamp", ts); ("user_id", uid)].
Proof. vm_refl. Qed.

(** The claim as the specification words it, where it holds. *)
Lemma GenerateSignature_three_parameters (rid ts uid content : string) (t : Z) :
  ParseInt ts = Some t -> (0 <= t)%Z ->
  GenerateSignature
    (<["timestamp" := ts]> (<["requestId" := rid]> {["user_id" := uid]})) content
  = inl {| Signature :=
             fiveSteps (t / 300000)
               [("requestId", rid); ("timestamp", ts); ("user_id", uid)] content t;
           Timestamp := t |}.
Proof.
  intros Hp Ht.
  pose proof (GenerateSignature_cases
                (<["timestamp" := ts]> (<["requestId" := rid]> {["user_id" := uid]}))
                content) as H.
  destruct (GenerateSignature _ content) as [[sig tm]|e].
  - destruct H as (ts' & t' & H1 & H2 & _ & _ & H3 & H4 & H5).
    rewrite lookup_insert_eq in H1. injection H1 as <-.
    rewrite Hp in H2. injection H2 as <-.
    cbn [Timestamp Signature] in H3, H4. subst tm. rewrite H4, three_entries, H5; [done|].
    by apply Z.leb_le.
  - exfalso. destruct H as [H|[H|[H|(ts' & H1 & H2)]]].
    + by rewrite lookup_insert_eq in H.
    + by simplify_map_eq.
    + by simplify_map_eq.
    + rewrite lookup_insert_eq in H1. injection H1 as <-. congruence.
Qed.

(** C5, as amended: GenerateSignature returns the signature of the five
    steps, with the window id the quotient of the timestamp by 300000
    rounded toward zero (the floor for a timestamp that is not negative)
    and with every entry of the map in the parameter string (the three
    required ones alone when the map holds no other); it returns an error
    exactly when one of the three keys is absent or the timestamp does
    not parse as a signed 64-bit decimal integer. *)
Theorem GenerateSignature_five_steps :
  (forall (params : gmap string string) (content : string),
     match GenerateSignature params content with
     | inl res =>
         exists ts t,
           params !! "timestamp" = Some ts /\ ParseInt ts = Some t
           /\ is_Some (params !! "requestId") /\ is_Some (params !! "user_id")
           /\ Timestamp res = t
           /\ Signature res
              = fiveSteps (Z.quot t 300000) (sortedEntries params) content t
     | inr _ =>
         params !! "timestamp" = None \/ params !! "requestId" = None
         \/ params !! "user_id" = None
         \/ exists ts, params !! "timestamp" = Some ts /\ ParseInt ts = None
     end)
  /\ (forall (rid ts uid content : string) (t : Z),
        ParseInt ts = Some t -> (0 <= t)%Z ->
        GenerateSignature
          (<["timestamp" := ts]> (<["requestId" := rid]> {["user_id" := uid]})) content
        = inl {| Signature :=
                   fiveSteps (t / 300000)
                     [("requestId", rid); ("timestamp", ts); ("user_id", uid)]
                     content t;
                 Timestamp := t |}).
Proof.
  split; [|apply GenerateSignature_three_parameters].
  intros params content. pose proof (GenerateSignature_cases params content) as H.
  destruct (GenerateSignature params content); [|done].
  destruct H as (ts & t & H). exists ts, t. tauto.
Qed.

End Signature.

(** * The statements at concrete requests *)

Section Instances.
Import request crypto signature scenario.

(** C10 at a request whose second message has a null content. *)
Lemma message_without_text_or_list_is_omitted_witness :
  messagesOf (fst (demoFormat nullContentRequest "Anthropic")) = [hi; yo]
  /\ demoFormat nullContentRequest "Anthropic" = demoFormat hiRequest "Anthropic".
Proof.
  destruct (message_without_text_or_list_is_omitted
              "glm-4.6" true (fun _ _ => ("", None)) (fun _ => None) None
              nullContentRequest "Anthropic" [VMap hi] [VMap yo] (messageOf "user" VNil))
    as (H1 & _ & H2).
  - vm_refl.
  - vm_refl.
  - vm_refl.
  - split.
    + unfold demoFormat. rewrite H2. vm_refl.
    + unfold demoFormat. rewrite H1. vm_refl.
Defined.

(** C6 as stated fails: a message list that is a string cannot be read
    as messages, and no error is returned. *)
Lemma unparsed_message_list_no_error :
  asList (notAList !! "messages") = None
  /\ snd (demoFormat notAList "OpenAI") = None
  /\ messagesOf (fst (demoFormat notAList "OpenAI")) = [].
Proof. split; [vm_refl|]. split; vm_refl. Qed.

(** C8 at the request with two plain messages. *)
Lemma plain_messages_idempotent_witness :
  messagesOf (fst (demoFormat (reread (fst (demoFormat hiRequest "OpenAI"))) "OpenAI"))
  = [hi; yo].
Proof.
  assert (H0 : messagesOf (fst (demoFormat hiRequest "OpenAI")) = [hi; yo]) by vm_refl.
  unfold demoFormat in *.
  rewrite (plain_messages_idempotent
             "glm-4.6" true (fun _ _ => ("", None)) (fun _ => None) None
             hiRequest "OpenAI").
  - exact H0.
  - rewrite H0. repeat constructor; eexists _, _; reflexivity.
Defined.

(** C8 as stated fails.  Formatted again as it is, the output has no
    canonical message at all: its message list is a slice of maps, which
    the type assertion of the message loop does not accept.  Read back
    as JSON and formatted again, a tool message loses its call id. *)
Lemma formatted_twice_differs :
  messagesOf (fst (demoFormat hiRequest "OpenAI")) = [hi; yo]
  /\ messagesOf (fst (demoFormat (fst (demoFormat hiRequest "OpenAI")) "OpenAI")) = []
  /\ messagesOf (fst (demoFormat toolResultRequest "Anthropic")) = [toolMessage]
  /\ messagesOf
       (fst (demoFormat (reread (fst (demoFormat toolResultRequest "Anthropic")))
               "Anthropic"))
     = [messageOf "tool" (VStr "42")]
  /\ toolMessage <> messageOf "tool" (VStr "42").
Proof.
  split; [vm_refl|]. split; [vm_refl|]. split; [vm_refl|]. split; [vm_refl|].
  intros H. apply (f_equal (fun m : gomap => m !! "tool_call_id")) in H.
  vm_compute in H. discriminate H.
Qed.

(** C7 at two text blocks: the first one is lost. *)
Lemma two_text_blocks :
  messagesOf
    (fst (demoFormat
            {["messages" :=
                VList [VMap (messageOf "user" (VList [textItem "a"; textItem "b"]))]]}
            "OpenAI"))
  = [messageOf "user" (VStr "b")].
Proof. vm_refl. Qed.

(** C5 as stated fails: for the timestamp -1 the code signs the window 0,
    the floor of the quotient is -1, and the two signatures differ. *)
Lemma negative_timestamp_not_floor :
  let three := [("requestId", "r1"); ("timestamp", "-1"); ("user_id", "u1")] in
  ParseInt "-1" = Some (-1)%Z
  /\ (-1 / 300000 = -1)%Z
  /\ GenerateSignature negativeParams "hello"
     = inl {| Signature :=
                "53f4a91ff3db5a2eda1124b450d5ba3526b3ea1ece0e7a61df2d76e895d5fbc6";
              Timestamp := (-1)%Z |}
  /\ fiveSteps 0 three "hello" (-1)
     = "53f4a91ff3db5a2eda1124b450d5ba3526b3ea1ece0e7a61df2d76e895d5fbc6"
  /\ fiveSteps (-1 / 300000) three "hello" (-1)
     = "a3ea554271e8d3b87af37da120d1bffd470301e6bfe2f9e8bc6f6fe7ff3f5048".
Proof.
  intros three. subst three.
  split; [vm_refl|]. split; [vm_refl|]. split; [vm_refl|]. split; vm_refl.
Qed.

(** A fourth entry of the map is signed with the three required ones. *)
Lemma extra_parameter_is_signed :
  let three :=
    [("requestId", "r1"); ("timestamp", "1700000000000"); ("user_id", "u1")] in
  GenerateSignature fourParams "hello"
  = inl {| Signature :=
             "eca7cde99ae2aecf82a95eed15ae8a81a6a0ff48aea25808b043251d7829a9cc";
           Timestamp := 1700000000000%Z |}
  /\ fiveSteps 5666666 (("extra", "x") :: three) "hello" 1700000000000
     = "eca7cde99ae2aecf82a95eed15ae8a81a6a0ff48aea25808b043251d7829a9cc"
  /\ fiveSteps 5666666 three "hello" 1700000000000
     = "19e013c5dcd3ddbc7566cbb8bb2ebb64641ffc2b2ca9ea1bad6af5436b2eb65c".
Proof.
  intros three. subst three. split; [vm_refl|]. split; vm_refl.
Qed.

End Instances.

(** * Further properties of the request normalizer *)

Section NormalizerMore.
Import request scenario canon.

Variable cfgModelDefault : string.
Variable cfgAnonymous : bool.
Variable upload : string -> string -> string * option string.
Variable Marshal : value -> option string.
Variable models : option (list Model).

Local Abbreviation Format :=
  (FormatRequest cfgModelDefault cfgAnonymous upload Marshal models).
Local Abbreviation canonical := (canonicalMessages cfgAnonymous upload Marshal).
Local Abbreviation step := (message cfgAnonymous upload Marshal).
Local Abbreviation blockStep := (block cfgAnonymous upload Marshal).
Local Abbreviation added := (canon.added cfgAnonymous upload Marshal).

Lemma appendBlock_blocks (c : value) (b : gomap) :
  textOrBlocks c -> textOrBlocks (appendBlock c b).
Proof. intros [[s ->]|[l ->]]; right; eexists; reflexivity. Qed.

(** What one block does to the variables of the loop. *)
Lemma block_cases (role chatID : string) (st : blocks) (item : value) :
  (newMessages (blockStep role chatID st item)
   = newMessages st
     ++ match asMap (Some item) with
        | Some itemMap =>
            if strOr0 (itemMap !! "type") =? "tool_result"
            then [toolMessageOf itemMap] else []
        | None => []
        end)
  /\ dontAppend (blockStep role chatID st item)
     = dontAppend st || holdsTool role item
  /\ (textOrBlocks (newContent st) ->
      textOrBlocks (newContent (blockStep role chatID st item)))
  /\ (holdsTool role item = false ->
      newMessage (blockStep role chatID st item) = newMessage st).
Proof.
  unfold block, holdsTool, blockType.
  destruct (asMap (Some item)) as [itemMap|];
    [|by rewrite app_nil_r, orb_false_r].
  destruct (strOr0 (itemMap !! "type") =? "text") eqn:Etext.
  { apply String.eqb_eq in Etext. rewrite Etext. cbn [String.eqb Ascii.eqb Bool.eqb orb andb].
    rewrite app_nil_r, orb_false_r.
    destruct (asString (itemMap !! "text")); cbn; repeat split; auto.
    intros _. left. by eexists. }
  destruct ((strOr0 (itemMap !! "type") =? "image_url")
            || (strOr0 (itemMap !! "type") =? "image")) eqn:Eimg.
  { assert (Hr : (strOr0 (itemMap !! "type") =? "tool_result") = false).
    { apply orb_true_iff in Eimg as [E|E]; apply String.eqb_eq in E; by rewrite E. }
    assert (Hu : (strOr0 (itemMap !! "type") =? "tool_use") = false).
    { apply orb_true_iff in Eimg as [E|E]; apply String.eqb_eq in E; by rewrite E. }
    rewrite Hr, Hu. cbn [orb andb]. rewrite app_nil_r, orb_false_r.
    unfold image.
    destruct (mediaURLOf itemMap =? ""); [cbn; repeat split; auto using appendBlock_blocks|].
    destruct (UploadImage _ _ _ _) as [u [e|]];
      cbn; repeat split; auto using appendBlock_blocks. }
  destruct (strOr0 (itemMap !! "type") =? "tool_result") eqn:Er.
  - cbn [orb]. rewrite orb_true_r.
    destruct ((strOr0 (itemMap !! "type") =? "tool_use") && (role =? "assistant"));
      cbn; repeat split; auto; done.
  - cbn [orb]. rewrite app_nil_r.
    destruct ((strOr0 (itemMap !! "type") =? "tool_use") && (role =? "assistant"));
      cbn; repeat split; auto; try done.
    + by rewrite orb_true_r.
    + by rewrite orb_false_r.
Qed.

Lemma blocks_fold (role chatID : string) (contentArr : list value) (st : blocks) :
  let st' := foldl (blockStep role chatID) st contentArr in
  newMessages st' = newMessages st ++ toolMessages contentArr
  /\ dontAppend st' = dontAppend st || existsb (holdsTool role) contentArr
  /\ (textOrBlocks (newContent st) -> textOrBlocks (newContent st'))
  /\ (existsb (holdsTool role) contentArr = false -> newMessage st' = newMessage st).
Proof.
  revert st. induction contentArr as [|item rest IH]; intros st; cbn [foldl].
  - cbn. by rewrite app_nil_r, orb_false_r.
  - destruct (block_cases role chatID st item) as (H1 & H2 & H3 & H4).
    destruct (IH (blockStep role chatID st item)) as (I1 & I2 & I3 & I4).
    cbn zeta in *. repeat split.
    + rewrite I1, H1. unfold toolMessages. cbn [flat_map]. by rewrite <- app_assoc.
    + rewrite I2, H2. cbn [existsb]. by rewrite orb_assoc.
    + auto.
    + cbn [existsb]. intros [Ha Hb]%orb_false_iff. rewrite I4, H4; auto.
Qed.

Lemma block_prepend (role chatID : string) (a : list gomap) (st : blocks)
  (item : value) :
  blockStep role chatID (prepend a st) item
  = prepend a (blockStep role chatID st item).
Proof.
  unfold block, prepend.
  destruct (asMap (Some item)) as [im|]; [|done].
  destruct (_ =? "text"); [by destruct (asString _)|].
  destruct (_ || _).
  - unfold image. destruct (_ =? ""); [done|].
    by destruct (UploadImage _ _ _ _) as [u [e|]].
  - destruct (_ && _); destruct (_ =? "tool_result"); cbn; try done;
      by rewrite app_assoc.
Qed.

Lemma blocks_prepend (role chatID : string) (a : list gomap)
  (contentArr : list value) (st : blocks) :
  foldl (blockStep role chatID) (prepend a st) contentArr
  = prepend a (foldl (blockStep role chatID) st contentArr).
Proof.
  revert st. induction contentArr as [|item rest IH]; intros st; [done|].
  cbn [foldl]. by rewrite block_prepend, IH.
Qed.

Lemma message_added (chatID : string) (sofar : list gomap) (msg : value) :
  step chatID sofar msg = sofar ++ added chatID msg.
Proof.
  unfold message, added.
  destruct (asMap (Some msg)) as [m|]; [|by rewrite app_nil_r].
  cbn zeta. set (role := strOr0 (m !! "role")).
  destruct (m !! "content") as [[]|]; try (by rewrite app_nil_r); [done|].
  assert (Hs : {| newContent := VStr ""; newMessage := {["role" := VStr role]};
                  dontAppend := false; newMessages := sofar |}
               = prepend sofar (noBlocks role)).
  { unfold prepend, noBlocks. cbn. by rewrite app_nil_r. }
  rewrite Hs, blocks_prepend.
  destruct (blocks_fold role chatID l (noBlocks role)) as (H1 & H2 & _ & H4).
  cbn zeta in *.
  destruct (foldl (blockStep role chatID) (noBlocks role) l) as [c nm d ms].
  unfold prepend. cbn in *. subst ms d.
  destruct (existsb (holdsTool role) l).
  - by rewrite app_nil_r.
  - rewrite H4 by done. unfold messageOf. by rewrite app_assoc.
Qed.

Lemma added_contents (chatID : string) (msg : value) :
  Forall hasTextOrBlocks (added chatID msg).
Proof.
  unfold added. destruct (asMap (Some msg)) as [m|]; [|constructor]. cbn zeta.
  destruct (m !! "content") as [[]|]; try constructor.
  - eexists. split; [apply lookup_insert_eq|]. left. by eexists.
  - constructor.
  - apply Forall_app. split.
    + unfold toolMessages. induction l as [|item l IH]; [constructor|].
      cbn [flat_map]. apply Forall_app. split; [|done].
      destruct (asMap (Some item)) as [im|]; [|constructor].
      destruct (_ =? "tool_result"); constructor; [|constructor].
      eexists. split; [apply lookup_insert_eq|]. left. by eexists.
    + destruct (existsb _ l); constructor; [|constructor].
      eexists. split; [apply lookup_insert_eq|].
      destruct (blocks_fold (strOr0 (m !! "role")) chatID l
                  (noBlocks (strOr0 (m !! "role")))) as (_ & _ & H & _).
      apply H. left. by eexists.
Qed.

Lemma messages_added (chatID : string) (messages : list value) (sofar : list gomap) :
  foldl (step chatID) sofar messages = sofar ++ mjoin (added chatID <$> messages).
Proof.
  revert sofar. induction messages as [|msg rest IH]; intros sofar; cbn.
  - by rewrite app_nil_r.
  - by rewrite IH, message_added, app_assoc.
Qed.

Lemma systemMessage_contents (data : gomap) :
  Forall hasTextOrBlocks (systemMessage data).
Proof.
  unfold systemMessage. destruct (data !! "system") as [system|]; [|constructor].
  cbn zeta. destruct (_ =? ""); constructor; [|constructor].
  eexists. split; [apply lookup_insert_eq|]. left. by eexists.
Qed.

Lemma canonical_added (data : gomap) :
  canonical data
  = systemMessage data
    ++ mjoin (added (strOr0 (data !! "chat_id"))
                <$> default [] (asList (data !! "messages"))).
Proof.
  unfold canonicalMessages. cbn zeta.
  destruct (asList (data !! "messages")) as [messages|]; cbn [from_option id].
  - apply messages_added.
  - cbn. by rewrite app_nil_r.
Qed.

Lemma systemMessage_system (data data' : gomap) :
  data' !! "system" = data !! "system" -> systemMessage data' = systemMessage data.
Proof. unfold systemMessage. by intros ->. Qed.

(** X1: the message list is normalized element by element and in order:
    the canonical messages of a list [l1 ++ l2] are those of [l1]
    followed by those of [l2] taken without the system parameter. *)
Theorem messages_normalized_in_order
  (data : gomap) (requestType : string) (l1 l2 : list value) :
  messagesOf (fst (Format (<["messages" := VList (l1 ++ l2)]> data) requestType))
  = messagesOf (fst (Format (<["messages" := VList l1]> data) requestType))
    ++ messagesOf (fst (Format (<["messages" := VList l2]> (delete "system" data))
                         requestType)).
Proof.
  rewrite !messagesOf_FormatRequest, !canonical_added.
  rewrite !(lookup_insert_ne _ "messages" "chat_id") by done.
  rewrite (lookup_delete_ne _ "system" "chat_id") by done.
  rewrite !lookup_insert_eq. cbn [asList from_option id].
  rewrite (systemMessage_system data (<["messages" := VList (l1 ++ l2)]> data))
    by (by rewrite lookup_insert_ne).
  rewrite (systemMessage_system data (<["messages" := VList l1]> data))
    by (by rewrite lookup_insert_ne).
  assert (Hno : systemMessage (<["messages" := VList l2]> (delete "system" data)) = []).
  { unfold systemMessage. rewrite lookup_insert_ne by done.
    by rewrite lookup_delete_eq. }
  rewrite Hno. cbn [app].
  by rewrite fmap_app, join_app, app_assoc.
Qed.

(** X2: a message whose content list holds a [tool_result] block, or a
    [tool_use] block when its role is assistant, is not sent itself: it
    gives one tool message for each of its [tool_result] blocks, in
    order, and nothing else. *)
Theorem tool_blocks_replace_message
  (data : gomap) (requestType : string) (m : gomap) (contentArr : list value) :
  m !! "content" = Some (VList contentArr) ->
  existsb (holdsTool (strOr0 (m !! "role"))) contentArr = true ->
  messagesOf (fst (Format (<["messages" := VList [VMap m]]> data) requestType))
  = systemMessage data ++ toolMessages contentArr.
Proof.
  intros Hc Ht.
  rewrite messagesOf_FormatRequest, canonical_added.
  rewrite lookup_insert_eq. cbn [asList from_option id fmap list_fmap mjoin list_join].
  rewrite (systemMessage_system data) by (by rewrite lookup_insert_ne).
  unfold canon.added. cbn [asMap]. rewrite Hc. cbn zeta. rewrite Ht.
  by rewrite !app_nil_r.
Qed.

Lemma canonical_contents (data : gomap) (requestType : string) :
  Forall hasTextOrBlocks (messagesOf (fst (Format data requestType))).
Proof.
  rewrite messagesOf_FormatRequest, canonical_added.
  apply Forall_app. split; [apply systemMessage_contents|].
  induction (default [] (asList (data !! "messages"))) as [|msg rest IH];
    [constructor|].
  cbn. apply Forall_app. split; [apply added_contents | apply IH].
Qed.

(** X3: in every formatted request each canonical message has a content,
    and the content is a text or a slice of blocks. *)
Theorem canonical_contents_are_text_or_blocks (data : gomap) (requestType : string) :
  Forall hasTextOrBlocks (messagesOf (fst (Format data requestType))).
Proof. apply canonical_contents. Qed.

Lemma result_lookup (data : gomap) (model : string) (ms : list gomap) (key : string) :
  key <> "stream" -> key <> "messages" -> key <> "model" -> key <> "system" ->
  <["stream" := VBool true]>
    (<["messages" := VMaps ms]> (<["model" := VStr model]> (delete "system" data)))
  !! key = data !! key.
Proof. intros. by simplify_map_eq. Qed.

(** X4: the formatted request always streams, names the resolved model,
    and has no [system], [enable_thinking] or [thinking] object left in
    it. *)
Theorem formatted_request_shape (data : gomap) (requestType : string) :
  let out := fst (Format data requestType) in
  out !! "stream" = Some (VBool true)
  /\ out !! "model" = Some (VStr (resolvedModel cfgModelDefault models data))
  /\ out !! "system" = None
  /\ out !! "enable_thinking" = None
  /\ asMap (out !! "thinking") = None.
Proof.
  cbn zeta. split; [|split; [|split; [apply FormatRequest_system|]]].
  - unfold FormatRequest. cbn [fst]. rewrite withFeatures_lookup by done.
    by simplify_map_eq.
  - unfold FormatRequest. cbn [fst]. rewrite withFeatures_lookup by done.
    by simplify_map_eq.
  - unfold FormatRequest. cbn [fst]. unfold withFeatures.
    set (result := <["stream" := _]> _).
    destruct (result !! "enable_thinking") as [e|] eqn:E1.
    + destruct (asMap (delete "enable_thinking" result !! "thinking")) as [t|] eqn:E2;
        destruct (Nat.ltb 0 _); split; simplify_map_eq; try done.
    + destruct (asMap (result !! "thinking")) as [t|] eqn:E2;
        destruct (Nat.ltb 0 _); split; simplify_map_eq; try done.
Qed.

(** X5: every key of a request that FormatRequest neither writes nor
    removes reaches the formatted request with its value, and a key the
    request does not have is not added. *)
Theorem other_keys_pass_through (data : gomap) (requestType key : string) :
  key ∉ reserved ->
  fst (Format data requestType) !! key = data !! key.
Proof.
  intros H. apply FormatRequest_lookup; intros ->; apply H; unfold reserved;
    set_solver.
Qed.

Lemma size_pos (m : gomap) (k : string) (v : value) :
  m !! k = Some v -> Nat.ltb 0 (size m) = true.
Proof.
  intros H. apply Nat.ltb_lt. destruct (size m) eqn:E; [|lia].
  apply map_size_empty_iff in E. subst m. by rewrite lookup_empty in H.
Qed.

Lemma askedThinking_ext (data data' : gomap) :
  data' !! "thinking" = data !! "thinking" ->
  data' !! "enable_thinking" = data !! "enable_thinking" ->
  data' !! "features" = data !! "features" ->
  askedThinking data' = askedThinking data.
Proof. unfold askedThinking, thinkingObject. by intros -> -> ->. Qed.

Lemma withFeatures_features (model : string) (result : gomap) :
  unsupported models model = false ->
  exists features,
    withFeatures models model result !! "features" = Some (VMap features)
    /\ features !! "enable_thinking" = Some (askedThinking result)
    /\ forall k, k <> "enable_thinking" ->
         features !! k = default ∅ (asMap (result !! "features")) !! k.
Proof.
  intros Hu. unfold withFeatures, askedThinking, thinkingObject.
  assert (Hm : forall features : gomap,
             match models with
             | Some data =>
                 if thinkUnsupported data model
                 then delete "enable_thinking" features else features
             | None => features
             end = features).
  { intros features. unfold unsupported in Hu. destruct models; [|done].
    by rewrite Hu. }
  set (features0 := match asMap (result !! "features") with
                    | Some existingFeatures =>
                        existingFeatures ∪ {["enable_thinking" := VBool false]}
                    | None => {["enable_thinking" := VBool false]}
                    end : gomap).
  assert (H0 : forall k, k <> "enable_thinking" ->
               features0 !! k = default ∅ (asMap (result !! "features")) !! k).
  { intros k Hk. unfold features0.
    destruct (asMap (result !! "features")) as [existing|]; cbn [from_option id].
    - rewrite lookup_union_l; [done|]. by rewrite lookup_singleton_ne.
    - by rewrite lookup_singleton_ne. }
  assert (H1 : features0 !! "enable_thinking"
               = Some match asMap (result !! "features") with
                      | Some existing =>
                          match existing !! "enable_thinking" with
                          | Some v => v
                          | None => VBool false
                          end
                      | None => VBool false
                      end).
  { unfold features0. destruct (asMap (result !! "features")) as [existing|].
    - destruct (existing !! "enable_thinking") as [v|] eqn:E.
      + by rewrite (lookup_union_Some_l _ _ _ _ E).
      + rewrite lookup_union_r by done. by rewrite lookup_singleton_eq.
    - by rewrite lookup_singleton_eq. }
  clearbody features0.
  destruct (result !! "enable_thinking") as [e|] eqn:E1.
  - rewrite (lookup_delete_ne _ "enable_thinking" "thinking") by done.
    destruct (asMap (result !! "thinking")) as [thinking|].
    + destruct (asString (thinking !! "type")) as [thinkType|]; rewrite Hm;
        (erewrite size_pos by apply lookup_insert_eq);
        eexists; (split; [apply lookup_insert_eq|]);
        (split; [apply lookup_insert_eq|]);
        intros k Hk; rewrite ?lookup_insert_ne by done; auto.
    + rewrite Hm. erewrite size_pos by apply lookup_insert_eq.
      eexists. split; [apply lookup_insert_eq|].
      split; [apply lookup_insert_eq|].
      intros k Hk. rewrite lookup_insert_ne by done. auto.
  - destruct (asMap (result !! "thinking")) as [thinking|].
    + destruct (asString (thinking !! "type")) as [thinkType|]; rewrite Hm.
      * erewrite size_pos by apply lookup_insert_eq.
        eexists. split; [apply lookup_insert_eq|].
        split; [apply lookup_insert_eq|].
        intros k Hk. rewrite lookup_insert_ne by done. auto.
      * erewrite size_pos by apply H1.
        eexists. split; [apply lookup_insert_eq|]. split; auto.
    + rewrite Hm. erewrite size_pos by apply H1.
      eexists. split; [apply lookup_insert_eq|]. split; auto.
Qed.

(** X6: for a model the catalogue does not bar from thinking, the
    formatted request has a features object; its [enable_thinking] is
    decided by the type of the [thinking] object, else by the
    [enable_thinking] value of the request, else by the value in the
    request's features, else it is false; the other features of the
    request are kept. *)
Theorem thinking_flag_precedence (data : gomap) (requestType : string) :
  unsupported models (resolvedModel cfgModelDefault models data) = false ->
  exists features,
    fst (Format data requestType) !! "features" = Some (VMap features)
    /\ features !! "enable_thinking" = Some (askedThinking data)
    /\ forall k, k <> "enable_thinking" ->
         features !! k = default ∅ (asMap (data !! "features")) !! k.
Proof.
  intros Hu. unfold FormatRequest. cbn [fst].
  set (result := <["stream" := _]> _).
  destruct (withFeatures_features (resolvedModel cfgModelDefault models data) result Hu)
    as (features & H1 & H2 & H3).
  exists features. split; [exact H1|].
  assert (Hf : result !! "features" = data !! "features")
    by (by apply result_lookup).
  split.
  - rewrite H2. f_equal. apply askedThinking_ext; try done; by apply result_lookup.
  - intros k Hk. rewrite (H3 k Hk). by rewrite Hf.
Qed.

Lemma withFeatures_unsupported (model : string) (result : gomap) :
  unsupported models model = true ->
  withFeatures models model result !! "features"
  = match asMap (result !! "features") with
    | Some existing =>
        if Nat.ltb 0 (size (delete "enable_thinking" existing))
        then Some (VMap (delete "enable_thinking" existing))
        else result !! "features"
    | None => result !! "features"
    end.
Proof.
  intros Hu. unfold withFeatures.
  assert (Hm : forall features : gomap,
             match models with
             | Some data =>
                 if thinkUnsupported data model
                 then delete "enable_thinking" features else features
             | None => features
             end = delete "enable_thinking" features).
  { intros features. unfold unsupported in Hu. destruct models; [|done].
    by rewrite Hu. }
  set (features0 := match asMap (result !! "features") with
                    | Some existingFeatures =>
                        existingFeatures ∪ {["enable_thinking" := VBool false]}
                    | None => {["enable_thinking" := VBool false]}
                    end : gomap).
  assert (H0 : delete "enable_thinking" features0
               = match asMap (result !! "features") with
                 | Some existing => delete "enable_thinking" existing
                 | None => ∅
                 end).
  { unfold features0. destruct (asMap (result !! "features")) as [existing|].
    - rewrite delete_union, delete_singleton_eq. apply (right_id _ _).
    - apply delete_singleton_eq. }
  clearbody features0.
  assert (Hd : forall (v : value) (f : gomap),
             delete "enable_thinking" (<["enable_thinking" := v]> f)
             = delete "enable_thinking" f)
    by (intros; apply delete_insert_eq).
  assert (He : forall r : gomap,
             r !! "features" = result !! "features" ->
             (if Nat.ltb 0 (size (delete "enable_thinking" features0))
              then <["features" := VMap (delete "enable_thinking" features0)]> r
              else r) !! "features"
             = match asMap (result !! "features") with
               | Some existing =>
                   if Nat.ltb 0 (size (delete "enable_thinking" existing))
                   then Some (VMap (delete "enable_thinking" existing))
                   else result !! "features"
               | None => result !! "features"
               end).
  { intros r Hr. rewrite H0.
    destruct (asMap (result !! "features")) as [existing|].
    - destruct (Nat.ltb 0 _); [apply lookup_insert_eq | exact Hr].
    - rewrite map_size_empty. exact Hr. }
  destruct (result !! "enable_thinking") as [e|] eqn:E1.
  - rewrite (lookup_delete_ne _ "enable_thinking" "thinking") by done.
    destruct (asMap (result !! "thinking")) as [thinking|].
    + destruct (asString (thinking !! "type")) as [thinkType|];
        rewrite Hm, ?Hd; apply He; by rewrite !lookup_delete_ne.
    + rewrite Hm, ?Hd. apply He. by rewrite !lookup_delete_ne.
  - destruct (asMap (result !! "thinking")) as [thinking|].
    + destruct (asString (thinking !! "type")) as [thinkType|];
        rewrite Hm, ?Hd; apply He; by rewrite ?lookup_delete_ne.
    + rewrite Hm. by apply He.
Qed.

(** X7: for a model the catalogue bars from thinking, the features sent
    are those of the request without [enable_thinking]; when nothing is
    left of them the formatted request keeps the [features] value the
    request came with. *)
Theorem unsupported_model_drops_thinking (data : gomap) (requestType : string) :
  unsupported models (resolvedModel cfgModelDefault models data) = true ->
  fst (Format data requestType) !! "features"
  = match asMap (data !! "features") with
    | Some existing =>
        if Nat.ltb 0 (size (delete "enable_thinking" existing))
        then Some (VMap (delete "enable_thinking" existing))
        else data !! "features"
    | None => data !! "features"
    end.
Proof.
  intros Hu. unfold FormatRequest. cbn [fst].
  set (result := <["stream" := _]> _).
  etrans; [exact (withFeatures_unsupported _ result Hu)|].
  assert (Hf : result !! "features" = data !! "features")
    by (by apply result_lookup).
  by rewrite Hf.
Qed.

End NormalizerMore.
(** * The further properties at concrete requests *)

Section AtRequests.
Import request scenario canon requests.

(** X2 at a user message that carries one tool result. *)
Lemma tool_blocks_replace_message_witness :
  existsb (holdsTool "user") resultBlocks = true
  /\ messagesOf (fst (demoFormat toolResultRequest "Anthropic")) = [toolMessage].
Proof.
  split; [vm_refl|].
  pose proof (tool_blocks_replace_message
                "glm-4.6" true (fun _ _ => ("", None)) (fun _ => None) None
                ∅ "Anthropic" resultCarrier resultBlocks) as H.
  etrans; [apply H; vm_refl | vm_refl].
Defined.

(** X5 at a request with a temperature. *)
Lemma other_keys_pass_through_witness :
  fst (demoFormat warmRequest "OpenAI") !! "temperature" = Some (VNum "0.5").
Proof.
  etrans; [apply (other_keys_pass_through
                    "glm-4.6" true (fun _ _ => ("", None)) (fun _ => None) None
                    warmRequest "OpenAI" "temperature")|vm_refl].
  unfold reserved. rewrite !elem_of_cons, elem_of_nil.
  intros H. repeat (destruct H as [H|H]; [discriminate H|]). destruct H.
Defined.

(** X6 at a request whose thinking object says enabled and whose flag
    says false. *)
Lemma thinking_flag_precedence_witness :
  exists features,
    fst (demoFormat thinkingRequest "Anthropic") !! "features" = Some (VMap features)
    /\ features !! "enable_thinking" = Some (VBool true).
Proof.
  destruct (thinking_flag_precedence
              "glm-4.6" true (fun _ _ => ("", None)) (fun _ => None) None
              thinkingRequest "Anthropic" eq_refl) as (features & H1 & H2 & _).
  exists features. split; [exact H1|]. rewrite H2. vm_refl.
Defined.

(** X7 at a request for a model that cannot think. *)
Lemma unsupported_model_drops_thinking_witness :
  fst (flashFormat flashRequest "OpenAI") !! "features"
  = Some (VMap {["web_search" := VBool true]}).
Proof.
  etrans; [apply (unsupported_model_drops_thinking
                    "glm-4.6" true (fun _ _ => ("", None)) (fun _ => None)
                    (Some [flash]) flashRequest "OpenAI");
           vm_refl
          |vm_refl].
Defined.

End AtRequests.

(** * The normalizer and the upload *)

Section Uploads.
Import request.

Variable cfgModelDefault : string.
Variable cfgAnonymous : bool.
Variables upload upload' : string -> string -> string * option string.
Variable Marshal : value -> option string.
Variable models : option (list Model).

Hypothesis same_uploads :
  cfgAnonymous = false ->
  forall dataURL chatID,
    strings.HasPrefix dataURL "data:" = true ->
    upload dataURL chatID = upload' dataURL chatID.

Lemma UploadImage_same (dataURL chatID : string) :
  UploadImage cfgAnonymous upload dataURL chatID
  = UploadImage cfgAnonymous upload' dataURL chatID.
Proof using same_uploads.
  unfold UploadImage. destruct cfgAnonymous; [done|]. cbn [orb].
  destruct (strings.HasPrefix dataURL "data:") eqn:E; [|done].
  cbn [negb]. by apply same_uploads.
Qed.

Lemma block_same (role chatID : string) (st : blocks) (item : value) :
  block cfgAnonymous upload Marshal role chatID st item
  = block cfgAnonymous upload' Marshal role chatID st item.
Proof using same_uploads.
  unfold block, image. destruct (asMap (Some item)) as [itemMap|]; [|done].
  cbn zeta. by rewrite UploadImage_same.
Qed.

Lemma blocks_same (role chatID : string) (contentArr : list value) (st : blocks) :
  foldl (block cfgAnonymous upload Marshal role chatID) st contentArr
  = foldl (block cfgAnonymous upload' Marshal role chatID) st contentArr.
Proof using same_uploads.
  revert st. induction contentArr as [|item rest IH]; intros st; [done|].
  cbn [foldl]. by rewrite IH, block_same.
Qed.

Lemma message_same (chatID : string) (sofar : list gomap) (msg : value) :
  message cfgAnonymous upload Marshal chatID sofar msg
  = message cfgAnonymous upload' Marshal chatID sofar msg.
Proof using same_uploads.
  unfold message. destruct (asMap (Some msg)) as [m|]; [|done]. cbn zeta.
  destruct (m !! "content") as [[]|]; try done. by rewrite blocks_same.
Qed.

Lemma messages_same (chatID : string) (messages : list value) (sofar : list gomap) :
  foldl (message cfgAnonymous upload Marshal chatID) sofar messages
  = foldl (message cfgAnonymous upload' Marshal chatID) sofar messages.
Proof using same_uploads.
  revert sofar. induction messages as [|msg rest IH]; intros sofar; [done|].
  cbn [foldl]. by rewrite IH, message_same.
Qed.

(** X8: an upload is asked for only outside anonymous mode and only for
    an address that starts with data: - two uploads that agree there
    give the same formatted request; in anonymous mode any two do. *)
Theorem upload_only_of_data_urls (data : gomap) (requestType : string) :
  FormatRequest cfgModelDefault cfgAnonymous upload Marshal models data requestType
  = FormatRequest cfgModelDefault cfgAnonymous upload' Marshal models data requestType.
Proof using same_uploads.
  unfold FormatRequest, canonicalMessages. cbn zeta.
  destruct (asList (data !! "messages")) as [messages|]; [|done].
  by rewrite messages_same.
Qed.

End Uploads.
(** * The signature and the request that carries it *)

Section Signing.
Import request crypto signature send.

Lemma digitsValue_acc (d : Decimal.uint) (p : positive) :
  digitsValue (NilEmpty.string_of_uint d) (Z.pos p)
  = Some (Z.pos (Pos.of_uint_acc d p)).
Proof.
  revert p. induction d; intros p; cbn [NilEmpty.string_of_uint Pos.of_uint_acc];
    [reflexivity|..];
    (etrans; [|apply IHd]); cbn [digitsValue]; f_equal; cbn; lia.
Qed.

Lemma digitsValue_0 (d : Decimal.uint) :
  digitsValue (NilEmpty.string_of_uint d) 0 = Some (Z.of_N (Pos.of_uint d)).
Proof.
  induction d; cbn [NilEmpty.string_of_uint Pos.of_uint];
    [reflexivity | exact IHd | ..]; apply digitsValue_acc.
Qed.

Lemma ParseInt_unsigned (d : Decimal.uint) :
  d <> Decimal.Nil ->
  ParseInt (NilEmpty.string_of_uint d)
  = match digitsValue (NilEmpty.string_of_uint d) 0 with
    | Some n => if (n <? 9223372036854775808)%Z then Some n else None
    | None => None
    end.
Proof. destruct d; [done|reflexivity..]. Qed.

Lemma ParseInt_negative (d : Decimal.uint) :
  d <> Decimal.Nil ->
  ParseInt (String "-" (NilEmpty.string_of_uint d))
  = match digitsValue (NilEmpty.string_of_uint d) 0 with
    | Some n => if (n <=? 9223372036854775808)%Z then Some (- n)%Z else None
    | None => None
    end.
Proof. destruct d; [done|reflexivity..]. Qed.

Lemma string_of_uint_nonnil (d : Decimal.uint) :
  d <> Decimal.Nil -> NilZero.string_of_uint d = NilEmpty.string_of_uint d.
Proof. by destruct d. Qed.

Lemma ParseInt_FormatInt_int64 (t : Z) :
  int64 t -> ParseInt (FormatInt t) = Some t.
Proof.
  unfold int64, FormatInt. intros Ht. destruct t as [|p|p]; [reflexivity|..];
    cbn [Z.to_int NilZero.string_of_int];
    rewrite string_of_uint_nonnil by apply DecimalPos.Unsigned.to_uint_nonnil.
  - rewrite ParseInt_unsigned by apply DecimalPos.Unsigned.to_uint_nonnil.
    rewrite digitsValue_0, DecimalPos.Unsigned.of_to. cbn [Z.of_N].
    destruct (Z.ltb_spec (Z.pos p) 9223372036854775808); [done|lia].
  - rewrite ParseInt_negative by apply DecimalPos.Unsigned.to_uint_nonnil.
    rewrite digitsValue_0, DecimalPos.Unsigned.of_to. cbn [Z.of_N].
    destruct (Z.leb_spec (Z.pos p) 9223372036854775808); [done|lia].
Qed.

Lemma round_length (st : list N) (kw : N * N) : length (round st kw) = length st.
Proof.
  unfold round.
  destruct st as [|a [|b [|c [|d [|e [|f [|g [|h [|i rest]]]]]]]]]; reflexivity.
Qed.

Lemma rounds_length (kws : list (N * N)) (st : list N) :
  length (fold_left round kws st) = length st.
Proof.
  revert st. induction kws as [|kw kws IH]; intros st; [done|].
  cbn [fold_left]. by rewrite IH, round_length.
Qed.

Lemma compress_length (h block : list N) : length (compress h block) = length h.
Proof.
  unfold compress. rewrite length_map, length_combine, rounds_length. lia.
Qed.

Lemma blocks_length (fuel : nat) (h bytes : list N) :
  length (blocks fuel h bytes) = length h.
Proof.
  revert h bytes. induction fuel as [|fuel IH]; intros h bytes; [done|].
  cbn [blocks]. destruct bytes; [done|]. by rewrite IH, compress_length.
Qed.

Lemma bigEndian_bytes (n : nat) (x : N) :
  length (bigEndian n x) = n /\ Forall (fun b => (b < 256)%N) (bigEndian n x).
Proof.
  revert x. induction n as [|n IH]; intros x; cbn [bigEndian]; [by split|].
  destruct (IH (x / 256)%N) as [H1 H2]. split.
  - rewrite List.length_app, H1. cbn. lia.
  - apply Forall_app. split; [done|]. constructor; [|constructor].
    apply N.mod_lt. lia.
Qed.

Lemma words_bytes (ws : list N) :
  length (flat_map (bigEndian 4) ws) = 4 * length ws
  /\ Forall (fun b => (b < 256)%N) (flat_map (bigEndian 4) ws).
Proof.
  induction ws as [|w ws [IH1 IH2]]; [by split|].
  destruct (bigEndian_bytes 4 w) as [H1 H2].
  change (flat_map (bigEndian 4) (w :: ws))
    with (bigEndian 4 w ++ flat_map (bigEndian 4) ws).
  split.
  - rewrite List.length_app, H1, IH1. cbn [length]. lia.
  - by apply Forall_app.
Qed.

Lemma sum256_bytes (msg : list N) :
  length (sum256 msg) = 32 /\ Forall (fun b => (b < 256)%N) (sum256 msg).
Proof.
  unfold sum256. cbn zeta.
  destruct (words_bytes
              (blocks (length (msg ++ padding (length msg))) H256
                 (msg ++ padding (length msg)))) as [H1 H2].
  split; [|done]. rewrite H1, blocks_length. reflexivity.
Qed.

Lemma hexDigit_hex (n : N) : (n < 16)%N -> isHexDigit (hexDigit n) = true.
Proof.
  intros H.
  assert (Hall : forallb (fun n => isHexDigit (hexDigit n))
                   (map N.of_nat (seq 0 16)) = true) by reflexivity.
  rewrite forallb_forall in Hall. apply Hall.
  apply in_map_iff. exists (N.to_nat n). split; [lia|]. apply in_seq. lia.
Qed.

Lemma hexEncode_hex (bytes : list N) :
  Forall (fun b => (b < 256)%N) bytes ->
  length (list_ascii_of_string (hexEncode bytes)) = 2 * length bytes
  /\ Forall (fun a => isHexDigit a = true) (list_ascii_of_string (hexEncode bytes)).
Proof.
  induction 1 as [|b rest Hb Hrest [IH1 IH2]]; [by split|].
  cbn [hexEncode list_ascii_of_string length]. split; [lia|].
  constructor; [|constructor; [|done]]; apply hexDigit_hex.
  - apply N.Div0.div_lt_upper_bound. lia.
  - apply N.mod_lt. lia.
Qed.

Lemma hmacSHA256_hex (key message : string) :
  length (list_ascii_of_string (hmacSHA256 key message)) = 64
  /\ Forall (fun a => isHexDigit a = true)
       (list_ascii_of_string (hmacSHA256 key message)).
Proof.
  unfold hmacSHA256, hmac. cbn zeta.
  match goal with |- context [hexEncode (sum256 ?m)] =>
    destruct (sum256_bytes m) as [H1 H2];
    destruct (hexEncode_hex (sum256 m) H2) as [H3 H4]
  end.
  split; [|done]. rewrite H3, H1. reflexivity.
Qed.

(** X9: a signature that GenerateSignature returns is 64 characters
    long, each of them a digit or a letter from a to f. *)
Theorem signature_is_64_hex_digits
  (params : gmap string string) (content : string) (res : SignatureResult) :
  GenerateSignature params content = inl res ->
  length (list_ascii_of_string (Signature res)) = 64
  /\ Forall (fun a => isHexDigit a = true) (list_ascii_of_string (Signature res)).
Proof.
  unfold GenerateSignature.
  destruct (firstMissing _ _); [done|].
  destruct (ParseInt _) as [requestTime|]; [|done].
  cbn zeta. intros [= <-]. cbn [Signature]. apply hmacSHA256_hex.
Qed.

Lemma sign_three (rid uid content : string) (t : Z) :
  int64 t ->
  exists res,
    GenerateSignature
      (<["timestamp" := FormatInt t]> (<["requestId" := rid]> {["user_id" := uid]}))
      content = inl res
    /\ Timestamp res = t
    /\ Signature res
       = fiveSteps (Z.quot t 300000)
           [("requestId", rid); ("timestamp", FormatInt t); ("user_id", uid)]
           content t.
Proof.
  intros Ht.
  pose proof (GenerateSignature_cases
                (<["timestamp" := FormatInt t]>
                   (<["requestId" := rid]> {["user_id" := uid]}))
                content) as H.
  destruct (GenerateSignature _ content) as [res|e].
  - exists res. split; [done|].
    destruct H as (ts' & t' & H1 & H2 & _ & _ & H3 & H4 & _).
    rewrite lookup_insert_eq in H1. injection H1 as <-.
    rewrite (ParseInt_FormatInt_int64 t Ht) in H2. injection H2 as <-.
    split; [done|]. by rewrite H4, three_entries.
  - exfalso. destruct H as [H|[H|[H|(ts' & H1 & H2)]]].
    + by rewrite lookup_insert_eq in H.
    + by simplify_map_eq.
    + by simplify_map_eq.
    + rewrite lookup_insert_eq in H1. injection H1 as <-.
      by rewrite (ParseInt_FormatInt_int64 t Ht) in H2.
Qed.

Section Prepare.
Variable cfgHeaders : gmap string string.
Variables cfgProtocol cfgHost : string.

(** X10: with the clock a 64-bit number, the signing of the upstream
    request never fails.  For a user with an id the request carries the
    signature of the three parameters and the last user message in
    [X-Signature], the timestamp again as [signature_timestamp] and the
    signed text as [signature_prompt]; for a user without an id the
    query has no [user_id] and no [signature_timestamp], the body is
    the request as it came and no signature is set. *)
Theorem signing_never_fails
  (timestamp : Z) (requestID userToken userID : string) (data : gomap)
  (chatID : string) :
  int64 timestamp ->
  exists out,
    prepare cfgHeaders cfgProtocol cfgHost timestamp requestID userToken userID
      data chatID = inl out
    /\ query out !! "timestamp" = Some (FormatInt timestamp)
    /\ query out !! "requestId" = Some requestID
    /\ headers out !! "Authorization" = Some ("Bearer " +:+ userToken)
    /\ if userID =? "" then
         query out !! "user_id" = None
         /\ query out !! "signature_timestamp" = None
         /\ headers out !! "X-Signature" = cfgHeaders !! "X-Signature"
         /\ body out = data
       else
         query out !! "user_id" = Some userID
         /\ query out !! "signature_timestamp" = Some (FormatInt timestamp)
         /\ headers out !! "X-Signature"
            = Some (fiveSteps (Z.quot timestamp 300000)
                      [("requestId", requestID);
                       ("timestamp", FormatInt timestamp);
                       ("user_id", userID)]
                      (lastUserMessage data) timestamp)
         /\ body out = <["signature_prompt" := VStr (lastUserMessage data)]> data.
Proof.
  intros Ht. unfold prepare. destruct (userID =? ""); cbn [negb].
  - eexists. split; [reflexivity|]. cbn [query headers body].
    repeat (split; [by simplify_map_eq|]). repeat split; by simplify_map_eq.
  - destruct (sign_three requestID userID (lastUserMessage data) timestamp Ht)
      as (res & H1 & H2 & H3).
    cbn zeta. rewrite H1. eexists. split; [reflexivity|].
    cbn [query headers body]. rewrite H2, H3.
    repeat (split; [by simplify_map_eq|]). repeat split; by simplify_map_eq.
Qed.

End Prepare.

Lemma last_cons (s d : string) (l : list string) :
  List.last (s :: l) d = List.last l s.
Proof.
  revert s d. induction l as [|x l IH]; intros s d; [done|].
  change (List.last (s :: x :: l) d) with (List.last (x :: l) d).
  by rewrite (IH x d), (IH x s).
Qed.

Lemma lastUserStep_fold (messages : list gomap) (lastUser : string) :
  Forall canon.hasTextOrBlocks messages ->
  foldl lastUserStep lastUser messages = List.last (userTexts messages) lastUser.
Proof.
  intros H. revert lastUser.
  induction H as [|msg rest (c & Hc & Ht) Hrest IH]; intros lastUser; [done|].
  cbn [foldl]. rewrite IH. unfold userTexts. cbn [flat_map].
  unfold lastUserStep, isStr. rewrite Hc.
  destruct (msg !! "role") as [[| |literal|role| | | |]|]; cbn [asString]; try done.
  destruct (role =? "user"); [|done].
  destruct Ht as [[text ->]|[items ->]]; [|done].
  cbn [app]. by rewrite last_cons.
Qed.

End Signing.

Section SignedPrompt.
Import request scenario send.
Variable cfgModelDefault : string.
Variable cfgAnonymous : bool.
Variable upload : string -> string -> string * option string.
Variable Marshal : value -> option string.
Variable models : option (list Model).

(** X11: the text that is signed for a formatted request, as the
    handlers pass it on, is the content of its last user message whose
    content is a text, and the empty text when it has none: a user
    message that was given blocks does not change it. *)
Theorem signed_prompt_of_formatted_request
  (data : gomap) (requestType chatID messageID : string) :
  let out := fst (FormatRequest cfgModelDefault cfgAnonymous upload Marshal models
                    data requestType) in
  lastUserMessage (outgoingData out chatID messageID)
  = List.last (userTexts (messagesOf out)) "".
Proof.
  cbn zeta. unfold lastUserMessage, messagesOf, outgoingData.
  rewrite (lookup_insert_ne _ "id" "messages") by done.
  rewrite (lookup_insert_ne _ "chat_id" "messages") by done.
  rewrite FormatRequest_messages. cbn [asMaps].
  apply lastUserStep_fold.
  rewrite <- (messagesOf_FormatRequest cfgModelDefault cfgAnonymous upload Marshal
                models data requestType).
  apply canonical_contents.
Qed.

Lemma texts_fold (messages : list gomap) (texts : list string) :
  foldl (fun texts msg => texts ++ textsOf msg) texts messages
  = texts ++ flat_map textsOf messages.
Proof.
  revert texts. induction messages as [|msg rest IH]; intros texts; cbn.
  - by rewrite app_nil_r.
  - by rewrite IH, app_assoc.
Qed.

Lemma Join_nothing_app (a b : list string) :
  strings.Join (a ++ b) "" = strings.Join a "" +:+ strings.Join b "".
Proof.
  induction a as [|x a IH]; [done|].
  assert (Hc : forall l, strings.Join (x :: l) "" = x +:+ strings.Join l "").
  { intros [|y l]; [by rewrite app_empty_r|done]. }
  change ((x :: a) ++ b) with (x :: (a ++ b)).
  by rewrite !Hc, IH, app_assoc_string.
Qed.

(** X12: the prompt text of a list of messages followed by another is
    the prompt text of the first followed by that of the second. *)
Theorem prompt_text_of_appended_messages (a b : list gomap) :
  ExtractTextFromMessages (a ++ b)
  = ExtractTextFromMessages a +:+ ExtractTextFromMessages b.
Proof.
  unfold ExtractTextFromMessages. cbn zeta. rewrite !texts_fold. cbn [app].
  by rewrite flat_map_app, Join_nothing_app.
Qed.

Lemma textsOf_text_or_blocks (messages : list gomap) :
  Forall canon.hasTextOrBlocks messages ->
  flat_map textsOf messages = textContents messages.
Proof.
  induction 1 as [|msg rest (c & Hc & Ht) Hrest IH]; [done|].
  unfold textContents. cbn [flat_map]. fold (textContents rest). rewrite IH.
  f_equal. unfold textsOf. rewrite Hc. by destruct Ht as [[text ->]|[items ->]].
Qed.

(** X13: the prompt text that is counted for a formatted request is the
    contents of its canonical messages that are texts, one after the
    other; a message that was given a slice of blocks adds nothing, its
    text blocks included. *)
Theorem prompt_text_of_formatted_request (data : gomap) (requestType : string) :
  let messages :=
    messagesOf (fst (FormatRequest cfgModelDefault cfgAnonymous upload Marshal
                       models data requestType)) in
  ExtractTextFromMessages messages = strings.Join (textContents messages) "".
Proof.
  cbn zeta. unfold ExtractTextFromMessages. cbn zeta. rewrite texts_fold.
  cbn [app]. f_equal. apply textsOf_text_or_blocks, canonical_contents.
Qed.

End SignedPrompt.
(** * The loops of the Anthropic handler *)

Section AnthropicLoops.
Import response handlers answers.

Variable thinkMode : string.
Variable Marshal : value -> string.
Variable CountTokens : string -> nat.

Local Abbreviation loop := (streamLoop thinkMode Marshal).
Local Abbreviation collect := (messageLoop thinkMode CountTokens).

Lemma streamLoop_done (d : ZaiResponse) (before rest : list ZaiResponse) (st : stream) :
  isDone d = true -> loop (before ++ d :: rest) st = loop before st.
Proof.
  intros Hd. revert st. induction before as [|e before IH]; intros st.
  - cbn [app streamLoop]. by rewrite Hd.
  - cbn [app streamLoop]. destruct (isDone e); [done|].
    destruct (FormatResponse _ _ _ _) as [[delta|] pb]; [|apply IH].
    destruct (asString (delta !! "tool_call")) as [toolCall|].
    + destruct (reconstruct _ _) as [parts [toolJSON|]]; [done|apply IH].
    + destruct (asString (delta !! "text")); apply IH.
Qed.

Lemma messageLoop_done (d : ZaiResponse) (before rest : list ZaiResponse)
  (pb : string) (textParts toolCallParts : list string) :
  isDone d = true ->
  collect (before ++ d :: rest) pb textParts toolCallParts
  = collect before pb textParts toolCallParts.
Proof.
  intros Hd. revert pb textParts toolCallParts.
  induction before as [|e before IH]; intros pb textParts toolCallParts.
  - cbn [app messageLoop]. by rewrite Hd.
  - cbn [app messageLoop]. destruct (isDone e); [done|].
    destruct (FormatResponse _ _ _ _) as [[delta|] pb']; [|apply IH].
    destruct (asString (delta !! "tool_call")) as [toolCall|].
    + destruct (reconstruct _ _) as [parts [toolJSON|]]; [done|apply IH].
    + apply IH.
Qed.

(** X14: an event with the done flag ends the answer: the events after
    it are not read, and the answer is the one the events before it
    give, streamed or not. *)
Theorem done_event_ends_the_answer
  (phase delta edit pb : string) (before rest : list ZaiResponse) :
  streamResponse thinkMode Marshal CountTokens pb
    (before ++ doneEvent phase delta edit :: rest)
  = streamResponse thinkMode Marshal CountTokens pb before
  /\ messageResponse thinkMode CountTokens pb
       (before ++ doneEvent phase delta edit :: rest)
     = messageResponse thinkMode CountTokens pb before.
Proof.
  split.
  - unfold streamResponse. by rewrite streamLoop_done.
  - unfold messageResponse. by apply messageLoop_done.
Qed.

Lemma streamLoop_shape (events : list ZaiResponse) (st : stream) :
  exists texts tool,
    textParts (loop events st) = textParts st ++ texts
    /\ written (loop events st)
       = written st ++ map TextDelta texts
         ++ match tool with Some toolJSON => toolUseEvents Marshal toolJSON | None => [] end
    /\ hasToolCall (loop events st)
       = hasToolCall st || match tool with Some _ => true | None => false end.
Proof.
  revert st. induction events as [|e events IH]; intros st.
  - exists [], None. cbn. by rewrite !app_nil_r, orb_false_r.
  - cbn [streamLoop]. destruct (isDone e).
    { exists [], None. cbn. by rewrite !app_nil_r, orb_false_r. }
    destruct (FormatResponse _ _ _ _) as [[delta|] pb].
    2:{ destruct (IH {| phaseBak := pb; textParts := textParts st;
                        toolCallParts := toolCallParts st;
                        hasToolCall := hasToolCall st; written := written st |})
          as (texts & tool & H1 & H2 & H3).
        by exists texts, tool. }
    cbn [handlers.phaseBak handlers.textParts handlers.toolCallParts
         handlers.hasToolCall handlers.written].
    destruct (asString (delta !! "tool_call")) as [toolCall|].
    + destruct (reconstruct _ _) as [parts [toolJSON|]].
      * exists [], (Some toolJSON). cbn. by rewrite app_nil_r, orb_true_r.
      * destruct (IH {| phaseBak := pb; textParts := textParts st;
                        toolCallParts := parts;
                        hasToolCall := hasToolCall st; written := written st |})
          as (texts & tool & H1 & H2 & H3).
        by exists texts, tool.
    + destruct (asString (delta !! "text")) as [text|].
      * destruct (IH {| phaseBak := pb; textParts := textParts st ++ [text];
                        toolCallParts := toolCallParts st;
                        hasToolCall := hasToolCall st;
                        written := written st ++ [TextDelta text] |})
          as (texts & tool & H1 & H2 & H3).
        exists (text :: texts), tool. cbn in *.
        rewrite H1, H2, H3. by rewrite <- !app_assoc.
      * destruct (IH {| phaseBak := pb; textParts := textParts st;
                        toolCallParts := toolCallParts st;
                        hasToolCall := hasToolCall st; written := written st |})
          as (texts & tool & H1 & H2 & H3).
        by exists texts, tool.
Qed.

(** X15: a streamed answer is its text deltas, in the order of the
    texts it collected, and then the closing events: without a tool call
    the stop of block 0 and the end of the turn, with one the events of
    the tool call and the stop for tool use; the output tokens count
    the text of the deltas and nothing else. *)
Theorem streamed_answer_shape (pb : string) (events : list ZaiResponse) :
  let st := streamResponse thinkMode Marshal CountTokens pb events in
  exists tool,
    written st
    = map TextDelta (textParts st)
      ++ closing tool Marshal (CountTokens (strings.Join (textParts st) ""))
    /\ hasToolCall st = match tool with Some _ => true | None => false end.
Proof.
  cbn zeta. unfold streamResponse. cbn zeta.
  destruct (streamLoop_shape events
              {| phaseBak := pb; textParts := []; toolCallParts := [];
                 hasToolCall := false; written := [] |})
    as (texts & tool & H1 & H2 & H3).
  cbn [handlers.textParts handlers.written handlers.hasToolCall app orb] in *.
  exists tool. rewrite H1, H2, H3. split; [|done].
  unfold closing. destruct tool; cbn [app]; by rewrite <- ?app_assoc, ?app_nil_r.
Qed.








Lemma selectOutput_Anthropic (phase content : string) (delta : gomap) :
  selectOutput thinkMode phase content "Anthropic" = Some delta ->
  delta !! "content" = None /\ delta !! "reasoning_content" = None.
Proof.
  unfold selectOutput. cbn [String.eqb Ascii.eqb Bool.eqb andb].
  destruct (_ && _); [by intros [= <-]|].
  destruct (phase =? "tool_call"); [by intros [= <-]|].
  destruct (negb _); [by intros [= <-]|done].
Qed.

Lemma FormatResponse_Anthropic (pb pb' : string) (zaiResp : ZaiResponse)
  (delta : gomap) :
  FormatResponse thinkMode pb (Some zaiResp) "Anthropic" = (Some delta, pb') ->
  delta !! "content" = None /\ delta !! "reasoning_content" = None.
Proof.
  unfold FormatResponse. destruct zaiResp as [[d|]]; [|done].
  destruct (_ =? ""); [done|].
  destruct (toolCallPhase _ _ _) as [phase content].
  intros [= H _]. by apply selectOutput_Anthropic in H.
Qed.

Lemma messageLoop_no_text (events : list ZaiResponse) (pb : string)
  (toolCallParts : list string) :
  fst (collect events pb [] toolCallParts) = textMessage CountTokens []
  \/ exists toolJSON,
       fst (collect events pb [] toolCallParts)
       = {| content := [toolUseBlockOf toolJSON];
            stop_reason := "tool_use";
            output_tokens := CountTokens "" |}.
Proof.
  revert pb toolCallParts.
  induction events as [|e events IH]; intros pb toolCallParts; [by left|].
  cbn [messageLoop]. destruct (isDone e); [by left|].
  destruct (FormatResponse _ _ _ _) as [[delta|] pb'] eqn:E; [|apply IH].
  destruct (asString (delta !! "tool_call")) as [toolCall|].
  - destruct (reconstruct _ _) as [parts [toolJSON|]]; [|apply IH].
    right. by exists toolJSON.
  - destruct (FormatResponse_Anthropic _ _ _ _ E) as [-> ->]. cbn [asString].
    apply IH.
Qed.

(** X17: the answer that is not streamed never has a text block: it is
    the empty answer that ends the turn, or the one tool-use block of a
    complete tool call, and its output tokens are those of the empty
    text. *)
Theorem non_streamed_answer_has_no_text (pb : string) (events : list ZaiResponse) :
  let answer := fst (messageResponse thinkMode CountTokens pb events) in
  answer = {| content := []; stop_reason := "end_turn";
              output_tokens := CountTokens "" |}
  \/ exists toolJSON,
       answer = {| content := [toolUseBlockOf toolJSON];
                   stop_reason := "tool_use";
                   output_tokens := CountTokens "" |}.
Proof. cbn zeta. unfold messageResponse. apply messageLoop_no_text. Qed.

End AnthropicLoops.

Section ThinkingEvents.
Import response handlers answers.

Variable Marshal : value -> string.
Variable CountTokens : string -> nat.

Lemma FormatResponse_thinking (pb : string) (d : ZaiResponseData) :
  Phase d = "thinking" ->
  let content := if DeltaContent d =? "" then EditContent d else DeltaContent d in
  FormatResponse "reasoning" pb (Some {| Data := Some d |}) "Anthropic"
  = if content =? "" then (None, pb)
    else (Some (<["thinking" := VStr (rewriteReasoning "reasoning" pb "thinking" content)]>
                  {["type" := VStr "thinking_delta"]}), "thinking").
Proof.
  intros Hp. cbn zeta. unfold FormatResponse. rewrite Hp.
  change ("thinking" =? "") with false. cbn iota.
  destruct (_ =? ""); [done|].
  unfold toolCallPhase. change ("thinking" =? "tool_call") with false.
  change ("thinking" =? "other") with false. cbn [andb]. cbn iota.
  unfold selectOutput. reflexivity.
Qed.

(** X24: in reasoning mode the Anthropic handler drops a thinking
    event: the streaming loop writes nothing and collects no text for
    it, and goes on with the next event; only the phase is recorded,
    when the event has a text. *)
Theorem thinking_is_dropped_in_reasoning_mode
  (d : ZaiResponseData) (rest : list ZaiResponse) (st : stream) :
  Phase d = "thinking" -> Done d = false ->
  let content := if DeltaContent d =? "" then EditContent d else DeltaContent d in
  streamLoop "reasoning" Marshal ({| Data := Some d |} :: rest) st
  = streamLoop "reasoning" Marshal rest
      {| phaseBak := if content =? "" then phaseBak st else "thinking";
         textParts := textParts st; toolCallParts := toolCallParts st;
         hasToolCall := hasToolCall st; written := written st |}.
Proof.
  intros Hp Hd. cbn zeta. cbn [streamLoop]. unfold isDone. cbn [Data]. rewrite Hd.
  rewrite (FormatResponse_thinking (phaseBak st) d Hp).
  destruct (_ =? ""); [done|].
  rewrite (lookup_insert_ne _ "thinking" "tool_call") by done.
  rewrite (lookup_singleton_ne "type" "tool_call") by done.
  cbn [asString].
  rewrite (lookup_insert_ne _ "thinking" "text") by done.
  rewrite (lookup_singleton_ne "type" "text") by done.
  reflexivity.
Qed.

End ThinkingEvents.
(** * The loops of the chat handler *)

Section ChatLoops.
Import response chat.

Variable thinkMode : string.
Variable CountTokens : string -> nat.

Lemma FormatResponse_undone (pb responseType : string) (zaiResp : ZaiResponse) :
  FormatResponse thinkMode pb (Some (undone zaiResp)) responseType
  = FormatResponse thinkMode pb (Some zaiResp) responseType.
Proof. by destruct zaiResp as [[[]|]]. Qed.

Lemma streamLoop_undone (includeUsage : bool) (events : list ZaiResponse)
  (st : stream) :
  streamLoop thinkMode includeUsage (undone <$> events) st
  = streamLoop thinkMode includeUsage events st.
Proof.
  revert st. induction events as [|e events IH]; intros st; [done|].
  cbn [fmap list_fmap streamLoop]. rewrite FormatResponse_undone.
  destruct (FormatResponse _ _ _ _) as [[delta|] pb]; apply IH.
Qed.

(** X18: the streaming loop of the chat handler does not look at the done
    flag: the chunks, the usage and the phase it ends in are those of
    the same events with every flag cleared, so an event that is flagged
    done is streamed and the events after it are too. *)
Theorem chat_stream_ignores_done
  (includeUsage : bool) (pb : string) (events : list ZaiResponse) :
  streamResponse thinkMode CountTokens includeUsage pb (undone <$> events)
  = streamResponse thinkMode CountTokens includeUsage pb events.
Proof. unfold streamResponse. by rewrite streamLoop_undone. Qed.

Lemma selectOutput_reasoning (phase content responseType : string) (delta : gomap) :
  (thinkMode =? "reasoning") = false ->
  selectOutput thinkMode phase content responseType = Some delta ->
  delta !! "reasoning_content" = None.
Proof.
  intros Hm. unfold selectOutput. rewrite Hm, andb_false_r.
  destruct (phase =? "tool_call"); [by intros [= <-]|].
  destruct (negb _); [|done].
  destruct (responseType =? "Anthropic"); by intros [= <-].
Qed.

Lemma FormatResponse_reasoning (pb pb' responseType : string)
  (zaiResp : ZaiResponse) (delta : gomap) :
  (thinkMode =? "reasoning") = false ->
  FormatResponse thinkMode pb (Some zaiResp) responseType = (Some delta, pb') ->
  delta !! "reasoning_content" = None.
Proof.
  intros Hm. unfold FormatResponse. destruct zaiResp as [[d|]]; [|done].
  destruct (_ =? ""); [done|].
  destruct (toolCallPhase _ _ _) as [phase content].
  intros [= H _]. by apply selectOutput_reasoning in H.
Qed.

Lemma collect_no_reasoning (events : list ZaiResponse) (pb : string)
  (contentParts : list string) :
  (thinkMode =? "reasoning") = false ->
  snd (fst (collect thinkMode events pb contentParts [])) = [].
Proof.
  intros Hm. revert pb contentParts.
  induction events as [|e events IH]; intros pb contentParts; [done|].
  cbn [collect]. destruct (handlers.isDone e); [done|].
  destruct (FormatResponse _ _ _ _) as [[delta|] pb'] eqn:E; [|apply IH].
  rewrite (FormatResponse_reasoning _ _ _ _ _ Hm E). apply IH.
Qed.

(** X19: in a think mode other than reasoning the chat answer that is
    not streamed has no [reasoning_content]: whatever the events, the
    final message is the role alone or the role and a content. *)
Theorem chat_answer_reasoning_only_in_reasoning_mode
  (includeUsage : bool) (pb : string) (events : list ZaiResponse) :
  (thinkMode =? "reasoning") = false ->
  let final := message (fst (chatResponse thinkMode CountTokens includeUsage pb events)) in
  final !! "reasoning_content" = None
  /\ final !! "role" = Some (VStr "assistant")
  /\ forall key, key <> "role" -> key <> "content" -> final !! key = None.
Proof.
  intros Hm. cbn zeta. unfold chatResponse.
  pose proof (collect_no_reasoning events pb [] Hm) as H.
  destruct (collect thinkMode events pb [] []) as [[contentParts reasoningParts] pb'].
  cbn [fst snd] in H. subst reasoningParts.
  unfold finalMessage. cbn [length Nat.ltb Nat.leb].
  destruct contentParts as [|c contentParts]; cbn [length fst message];
    (split; [by simplify_map_eq|]); (split; [by simplify_map_eq|]);
    intros key H1 H2; by simplify_map_eq.
Qed.

End ChatLoops.
(** * Plain text through the phase transformer *)

Section PlainText.
Import response scenario.

(** X20: the text of an event that is neither thinking nor a tool call,
    and holds neither a summary tag nor a glm block, is passed on as it
    is in every think mode, and the phase of the event is recorded. *)
Theorem plain_text_passes_unchanged
  (thinkMode phaseBak responseType : string) (d : ZaiResponseData) :
  let content := if DeltaContent d =? "" then EditContent d else DeltaContent d in
  let phase := if Phase d =? "" then "other" else Phase d in
  content <> "" ->
  Phase d <> "thinking" -> Phase d <> "tool_call" ->
  strings.Contains content "summary>" = false ->
  strings.Contains content "glm_block" = false ->
  FormatResponse thinkMode phaseBak (Some {| Data := Some d |}) responseType
  = (Some (textDelta responseType content), phase).
Proof.
  cbn zeta. intros Hc Ht Htc Hs Hg. unfold FormatResponse.
  set (content := if DeltaContent d =? "" then EditContent d else DeltaContent d) in *.
  set (phase := if Phase d =? "" then "other" else Phase d).
  assert (H1 : (phase =? "thinking") = false).
  { unfold phase. destruct (Phase d =? "") eqn:E; [done|]. by apply eqb_false_of_ne. }
  assert (H2 : (phase =? "tool_call") = false).
  { unfold phase. destruct (Phase d =? "") eqn:E; [done|]. by apply eqb_false_of_ne. }
  rewrite (eqb_false_of_ne _ _ Hc).
  unfold toolCallPhase. rewrite H2, Hg, andb_false_r.
  unfold rewriteReasoning. rewrite H1, Hs, andb_false_r. cbn [orb].
  unfold selectOutput. rewrite H1, H2, (eqb_false_of_ne _ _ Hc).
  cbn [andb negb]. unfold textDelta. by destruct (responseType =? "Anthropic").
Qed.

End PlainText.

(** * The configuration *)

Section Configuration.
Import config.

Lemma getEnv_nonempty (env : gmap string string) (key defaultValue : string) :
  defaultValue <> "" -> getEnv env key defaultValue <> "".
Proof.
  intros Hd. unfold getEnv. cbn zeta.
  destruct (Getenv env key =? "") eqn:E; cbn [negb]; [done|].
  intros H. rewrite H in E. discriminate E.
Qed.

Lemma validate_config (c : Config) :
  In (Think (API (validate c))) ["reasoning"; "think"; "strip"; "details"]
  /\ (1 <= Port (API (validate c)) <= 65535)%Z
  /\ Source (validate c) = Source c
  /\ Model (validate c) = Model c
  /\ Anonymous (API (validate c)) = Anonymous (API c).
Proof.
  destruct c as [source [port debug debugMsg think anonymous] model headers].
  unfold validate, withAPI, withThink, withPort.
  cbn [API Source Model Think Port Debug DebugMsg Anonymous existsb].
  assert (Hthink :
    In (if negb ((think =? "reasoning") || ((think =? "think")
                 || ((think =? "strip") || ((think =? "details") || false))))
        then "reasoning" else think)
       ["reasoning"; "think"; "strip"; "details"]).
  { destruct (think =? "reasoning") eqn:E1;
      [apply String.eqb_eq in E1; rewrite E1; cbn; auto|].
    destruct (think =? "think") eqn:E2;
      [apply String.eqb_eq in E2; rewrite E2; cbn; auto|].
    destruct (think =? "strip") eqn:E3;
      [apply String.eqb_eq in E3; rewrite E3; cbn; auto|].
    destruct (think =? "details") eqn:E4;
      [apply String.eqb_eq in E4; rewrite E4; cbn; auto 6|].
    cbn. auto. }
  destruct (negb _); cbn [API Port Think Model Source Anonymous];
    destruct (Z.ltb_spec port 1); destruct (Z.ltb_spec 65535 port);
    cbn [orb API Port Think Model Source Anonymous];
    (split; [exact Hthink|]); (split; [lia|]); done.
Qed.

Lemma getEnv_nothing (env : gmap string string) (key : string) :
  getEnv env key "" = Getenv env key.
Proof.
  unfold getEnv. cbn zeta.
  by destruct (Getenv env key =? "") eqn:E; [apply String.eqb_eq in E|].
Qed.

(** X21: whatever the environment holds, the loaded configuration has
    one of the four think modes, a port from 1 to 65535, a default model
    that is not empty, and is anonymous exactly when the token, with the
    white space around it removed, is empty. *)
Theorem loaded_config_is_valid (env : gmap string string) :
  let c := loadConfig env in
  In (Think (API c)) ["reasoning"; "think"; "strip"; "details"]
  /\ (1 <= Port (API c) <= 65535)%Z
  /\ Default (Model c) <> ""
  /\ Token (Source c) = strings.TrimSpace (Getenv env "TOKEN")
  /\ Anonymous (API c) = (strings.TrimSpace (Getenv env "TOKEN") =? "").
Proof.
  lazy zeta. unfold loadConfig. lazy zeta.
  match goal with |- context [validate ?c] =>
    destruct (validate_config c) as (H1 & H2 & H3 & H4 & H5)
  end.
  split; [exact H1|]. split; [exact H2|].
  rewrite H3, H4, H5.
  split; [apply (getEnv_nonempty env "MODEL" "glm-4.6"); done|].
  split; [apply (f_equal strings.TrimSpace (getEnv_nothing env "TOKEN"))|].
  apply (f_equal (fun t => strings.TrimSpace t =? "") (getEnv_nothing env "TOKEN")).
Qed.

End Configuration.

(** * The user cache *)

Section UserCache.
Import user.

Variable cfgToken : string.

(** X22: outside anonymous mode, after a user with an id was fetched
    for the configured token, a call within thirty minutes of the
    caching answers from the cache: it returns that user whatever the
    upstream would have answered, and leaves the cache as it is. *)
Theorem cached_user_is_reused
  (clock0 now0 clock1 now1 : Z) (result : gomap) (fetched : string + gomap)
  (cache : gmap string CachedUser) :
  cfgToken <> "" ->
  cache !! cfgToken = None ->
  getStringFromMap result "id" <> "" ->
  (clock1 - now0 < 30 * minute)%Z ->
  let first := GetUser false cfgToken clock0 (inr result) now0 cache in
  fst first = inl {| ID := getStringFromMap result "id";
                     Name := getStringFromMap result "name";
                     Token := cfgToken |}
  /\ GetUser false cfgToken clock1 fetched now1 (snd first) = (fst first, snd first).
Proof.
  intros Ht Hc Hid Hage. cbn zeta. unfold GetUser. cbn zeta.
  rewrite (eqb_false_of_ne _ _ Ht). cbn [negb]. rewrite Hc.
  unfold fetchUser. cbn [negb fst snd].
  rewrite (eqb_false_of_ne _ _ Ht), (eqb_false_of_ne _ _ Hid). cbn [negb andb].
  split; [done|]. rewrite lookup_insert_eq. cbn [CachedAt Info ID Name].
  destruct (Z.ltb_spec (clock1 - now0) (30 * minute)); [done|lia].
Qed.

End UserCache.

(** * The model of a request *)

Section ModelOfRequest.
Import request canon.

Lemma sourceModel_absent (catalogue : list Model) (model : string) :
  Forall (fun m => ID m <> model) catalogue ->
  sourceModel catalogue model = model.
Proof.
  induction 1 as [|m rest Hm Hrest IH]; [done|].
  cbn [sourceModel]. rewrite (eqb_false_of_ne _ _ Hm), IH. by destruct (Original m).
Qed.

(** X23: a model asked for by the id the catalogue lists it under is
    sent under its source id: the first entry with that id decides,
    when its source id is another text than the id, and the entries
    after it are not looked at. *)
Theorem listed_model_is_sent_under_its_source_id
  (cfgModelDefault : string) (cfgAnonymous : bool)
  (upload : string -> string -> string * option string)
  (Marshal : value -> option string)
  (before after : list Model) (m : Model) (original : gomap)
  (model sourceID : string) (data : gomap) (requestType : string) :
  data !! "model" = Some (VStr model) -> model <> "" ->
  Forall (fun m => ID m <> model) before ->
  ID m = model -> Original m = Some original ->
  original !! "id" = Some (VStr sourceID) -> sourceID <> model ->
  fst (FormatRequest cfgModelDefault cfgAnonymous upload Marshal
         (Some (before ++ m :: after)) data requestType) !! "model"
  = Some (VStr sourceID).
Proof.
  intros Hd Hne Hb Hm Ho Hid Hs.
  unfold FormatRequest. cbn [fst]. rewrite withFeatures_lookup by done.
  rewrite (lookup_insert_ne _ "stream" "model") by done.
  rewrite (lookup_insert_ne _ "messages" "model") by done.
  rewrite lookup_insert_eq. rewrite Hd. cbn [asString].
  rewrite (eqb_false_of_ne _ _ Hne). do 2 f_equal.
  induction Hb as [|b rest Hb Hrest IH].
  - cbn [app sourceModel]. rewrite Ho, Hm, String.eqb_refl, Hid. cbn [asString].
    destruct (model =? sourceID) eqn:E; [|done].
    apply String.eqb_eq in E. by subst sourceID.
  - cbn [app sourceModel]. rewrite (eqb_false_of_ne _ _ Hb), IH.
    by destruct (Original b).
Qed.

End ModelOfRequest.
(** * The further properties at concrete data *)

Section AtData.
Import request crypto signature scenario canon requests send chat user examples.

(** X8 outside anonymous mode, at an image given by its address. *)
Lemma upload_only_of_data_urls_witness :
  FormatRequest "glm-4.6" false hosted (fun _ => None) None linkRequest "OpenAI"
  = FormatRequest "glm-4.6" false picky (fun _ => None) None linkRequest "OpenAI".
Proof.
  apply upload_only_of_data_urls.
  intros _ dataURL chatID H. unfold hosted, picky. rewrite H. reflexivity.
Defined.

(** X9 at the signature of four parameters. *)
Lemma signature_is_64_hex_digits_witness :
  length (list_ascii_of_string
            "eca7cde99ae2aecf82a95eed15ae8a81a6a0ff48aea25808b043251d7829a9cc") = 64
  /\ Forall (fun a => isHexDigit a = true)
       (list_ascii_of_string
          "eca7cde99ae2aecf82a95eed15ae8a81a6a0ff48aea25808b043251d7829a9cc").
Proof.
  apply (signature_is_64_hex_digits fourParams "hello"
           {| Signature :=
                "eca7cde99ae2aecf82a95eed15ae8a81a6a0ff48aea25808b043251d7829a9cc";
              Timestamp := 1700000000000%Z |}).
  vm_refl.
Defined.

(** X10 at a user with an id. *)
Lemma signing_never_fails_witness :
  exists out,
    prepare ∅ "https:" "chat.z.ai" 1700000000000 "r1" "tok" "u1" hiRequest "c1"
    = inl out
    /\ query out !! "signature_timestamp" = Some "1700000000000".
Proof.
  destruct (signing_never_fails ∅ "https:" "chat.z.ai" 1700000000000
              "r1" "tok" "u1" hiRequest "c1")
    as (out & H1 & _ & _ & _ & H2 & H3 & _).
  - unfold int64. lia.
  - exists out. split; [exact H1 | exact H3].
Defined.

(** X19 in think mode, at one answer event. *)
Lemma chat_answer_reasoning_only_in_reasoning_mode_witness :
  chat.message (fst (chatResponse "think" (fun _ => 0) true "thinking" [helloEvent]))
  !! "reasoning_content" = None.
Proof.
  exact (proj1 (chat_answer_reasoning_only_in_reasoning_mode
                  "think" (fun _ => 0) true "thinking" [helloEvent] eq_refl)).
Defined.

(** X20 in details mode, at an answer event. *)
Lemma plain_text_passes_unchanged_witness :
  response.FormatResponse "details" "thinking" (Some helloEvent) "OpenAI"
  = (Some (textDelta "OpenAI" "Hello"), "answer").
Proof.
  apply (plain_text_passes_unchanged "details" "thinking" "OpenAI" helloData).
  - intros H. discriminate H.
  - intros H. discriminate H.
  - intros H. discriminate H.
  - vm_refl.
  - vm_refl.
Defined.

(** X22 at a second call a hundred nanoseconds after the first, with
    the upstream down. *)
Lemma cached_user_is_reused_witness :
  fst (GetUser false "tok" 0 (inr ann) 5 ∅)
  = inl {| ID := "u1"; Name := "Ann"; Token := "tok" |}
  /\ GetUser false "tok" 100 (inl "down") 105 (snd (GetUser false "tok" 0 (inr ann) 5 ∅))
     = (fst (GetUser false "tok" 0 (inr ann) 5 ∅),
        snd (GetUser false "tok" 0 (inr ann) 5 ∅)).
Proof.
  apply (cached_user_is_reused "tok" 0 5 100 105 ann (inl "down") ∅).
  - intros H. discriminate H.
  - reflexivity.
  - intros H. discriminate H.
  - vm_compute. reflexivity.
Defined.

(** X23 at the catalogue with the one model. *)
Lemma listed_model_is_sent_under_its_source_id_witness :
  fst (flashFormat flashRequest "OpenAI") !! "model" = Some (VStr "glm-4-flash").
Proof.
  apply (listed_model_is_sent_under_its_source_id
           "glm-4.6" true (fun _ _ => ("", None)) (fun _ => None)
           [] [] flash
           (<["id" := VStr "glm-4-flash"]>
              {["info" :=
                  VMap {["meta" :=
                           VMap {["capabilities" :=
                                    VMap {["think" := VBool false]}]}]}]})
           "GLM-4-Flash" "glm-4-flash" flashRequest "OpenAI").
  - vm_refl.
  - intros H. discriminate H.
  - constructor.
  - reflexivity.
  - reflexivity.
  - vm_refl.
  - intros H. discriminate H.
Defined.

(** X24 at a thinking event that is the only one. *)
Lemma thinking_is_dropped_in_reasoning_mode_witness :
  handlers.streamLoop "reasoning" (fun _ => "") [{| Data := Some thinkingData |}]
    (start "answer")
  = {| handlers.phaseBak := "thinking"; handlers.textParts := [];
       handlers.toolCallParts := []; handlers.hasToolCall := false;
       handlers.written := [] |}.
Proof.
  apply (thinking_is_dropped_in_reasoning_mode (fun _ => "") thinkingData []
           (start "answer")); reflexivity.
Defined.

End AtData.
